(** * Runway projector of campus-survival-coach: embedding and verified properties

    Source: [src/features/runway-calculator/logic.ts] (class [RunwayLogic]),
    the validating version, together with [types.ts], the hooks and the
    components around it.

    Modelling conventions.
    - A JavaScript [number] is one of NaN, +Infinity, -Infinity or a finite
      value; the finite values of the embedding are rationals ([Q]) and its
      arithmetic is exact, where the code rounds to the nearest double and
      overflows to an infinity.  Comparisons, [Math.floor] and the arithmetic
      on whole amounts below 2^53 are the same in both.  The theorems below
      are stated so that they do not depend on the difference: they speak of
      comparisons and of what a result records, they relate two runs whose
      order rounding preserves, or they assume whole amounts.
    - A JavaScript [Date] is either the Invalid Date or a time value in
      milliseconds since the epoch, at most 8.64e15 in absolute value;
      [addDays] past that range gives the Invalid Date.  The date-fns helpers
      [addDays], [isSameDay] and [getDate] work on local time; local time is
      taken to be UTC (fixed offset, no daylight saving).
    - A [throw] is an explicit error result. *)

From Stdlib Require Import ZArith QArith Qround List String Ascii Bool Lia Lqa Permutation.
Import ListNotations.

Local Open Scope Z_scope.

(* ================================================================== *)
(** ** JavaScript numbers *)

Module JS.

Inductive number : Type :=
| NaN
| PosInf
| NegInf
| Fin (q : Q).

Definition ofZ (z : Z) : number := Fin (inject_Z z).

Definition Qltb (a b : Q) : bool := negb (Qle_bool b a).

(** [Number.isFinite] *)
Definition isFinite (x : number) : bool :=
  match x with Fin _ => true | _ => false end.

(** [Number.isInteger] *)
Definition isInteger (x : number) : bool :=
  match x with
  | Fin q => Qeq_bool (inject_Z (Qfloor q)) q
  | _ => false
  end.

(** [x < y] *)
Definition lt (x y : number) : bool :=
  match x, y with
  | NaN, _ | _, NaN => false
  | Fin a, Fin b => Qltb a b
  | NegInf, NegInf => false
  | NegInf, _ => true
  | PosInf, _ => false
  | Fin _, PosInf => true
  | Fin _, NegInf => false
  end.

(** [x <= y] *)
Definition le (x y : number) : bool :=
  match x, y with
  | NaN, _ | _, NaN => false
  | Fin a, Fin b => Qle_bool a b
  | NegInf, _ => true
  | PosInf, PosInf => true
  | PosInf, _ => false
  | Fin _, PosInf => true
  | Fin _, NegInf => false
  end.

(** [x > y] and [x >= y] *)
Definition gt (x y : number) : bool := lt y x.
Definition ge (x y : number) : bool := le y x.

(** [x === y] on numbers *)
Definition strictEq (x y : number) : bool :=
  match x, y with
  | Fin a, Fin b => Qeq_bool a b
  | PosInf, PosInf => true
  | NegInf, NegInf => true
  | _, _ => false
  end.

(** [x + y] *)
Definition add (x y : number) : number :=
  match x, y with
  | NaN, _ | _, NaN => NaN
  | Fin a, Fin b => Fin (a + b)
  | PosInf, NegInf | NegInf, PosInf => NaN
  | PosInf, _ | _, PosInf => PosInf
  | NegInf, _ | _, NegInf => NegInf
  end.

(** [- x] *)
Definition neg (x : number) : number :=
  match x with
  | NaN => NaN
  | PosInf => NegInf
  | NegInf => PosInf
  | Fin a => Fin (- a)
  end.

(** [x - y] *)
Definition sub (x y : number) : number :=
  match x, y with
  | Fin a, Fin b => Fin (a - b)
  | _, _ => add x (neg y)
  end.

(** [x / y]; a zero divisor is the positive zero. *)
Definition div (x y : number) : number :=
  match x, y with
  | NaN, _ | _, NaN => NaN
  | Fin a, Fin b =>
      if Qeq_bool b 0 then
        (if Qltb 0 a then PosInf else if Qltb a 0 then NegInf else NaN)
      else Fin (a / b)
  | Fin _, _ => Fin 0
  | PosInf, Fin b => if Qltb b 0 then NegInf else PosInf
  | NegInf, Fin b => if Qltb b 0 then PosInf else NegInf
  | _, _ => NaN
  end.

(** [Math.floor] *)
Definition floor (x : number) : number :=
  match x with
  | Fin q => ofZ (Qfloor q)
  | _ => x
  end.

(** [Math.ceil] *)
Definition ceil (x : number) : number :=
  match x with
  | Fin q => ofZ (Qceiling q)
  | _ => x
  end.

(** [x * y]; zero times an infinity is NaN. *)
Definition mul (x y : number) : number :=
  match x, y with
  | NaN, _ | _, NaN => NaN
  | Fin a, Fin b => Fin (a * b)
  | Fin a, PosInf | PosInf, Fin a =>
      if Qeq_bool a 0 then NaN else if Qltb a 0 then NegInf else PosInf
  | Fin a, NegInf | NegInf, Fin a =>
      if Qeq_bool a 0 then NaN else if Qltb a 0 then PosInf else NegInf
  | PosInf, PosInf | NegInf, NegInf => PosInf
  | PosInf, NegInf | NegInf, PosInf => NegInf
  end.

End JS.

Declare Scope js_scope.
Delimit Scope js_scope with js.
Bind Scope js_scope with JS.number.
Infix "+" := JS.add : js_scope.
Infix "-" := JS.sub : js_scope.
Infix "*" := JS.mul : js_scope.
Infix "/" := JS.div : js_scope.
Infix "<?" := JS.lt : js_scope.
Infix "<=?" := JS.le : js_scope.
Infix ">?" := JS.gt : js_scope.
Infix ">=?" := JS.ge : js_scope.
Infix "===" := JS.strictEq (at level 70, no associativity) : js_scope.

(* ================================================================== *)
(** ** Dates: the Date object and the date-fns helpers the engine calls *)

Module Cal.

Inductive Date : Type :=
| InvalidDate
| DateOf (t : Z).

Definition msPerDay : Z := 86400000.

(** [date.getTime()] *)
Definition getTime (d : Date) : JS.number :=
  match d with
  | InvalidDate => JS.NaN
  | DateOf t => JS.ofZ t
  end.

(** [isNaN(date.getTime())] *)
Definition isInvalid (d : Date) : bool :=
  match d with InvalidDate => true | DateOf _ => false end.

(** Number of the day that contains time value [t] (days since the epoch). *)
Definition Day (t : Z) : Z := t / msPerDay.
Definition TimeWithinDay (t : Z) : Z := t mod msPerDay.

(** Civil date (year, month 1..12, day 1..31) of a day number, in the
    proleptic Gregorian calendar. *)
Definition civil (days : Z) : Z * Z * Z :=
  let z := days + 719468 in
  let era := z / 146097 in
  let doe := z mod 146097 in
  let yoe := (doe - doe / 1460 + doe / 36524 - doe / 146096) / 365 in
  let y := yoe + era * 400 in
  let doy := doe - (365 * yoe + yoe / 4 - yoe / 100) in
  let mp := (5 * doy + 2) / 153 in
  let d := doy - (153 * mp + 2) / 5 + 1 in
  let m := if mp <? 10 then mp + 3 else mp - 9 in
  (if m <=? 2 then y + 1 else y, m, d).

(** Day number of a civil date (inverse of [civil]); used to write dates
    down in examples. *)
Definition daysFromCivil (y m d : Z) : Z :=
  let y' := if m <=? 2 then y - 1 else y in
  let era := y' / 400 in
  let yoe := y' mod 400 in
  let mp := if m >? 2 then m - 3 else m + 9 in
  let doy := (153 * mp + 2) / 5 + d - 1 in
  let doe := yoe * 365 + yoe / 4 - yoe / 100 + doy in
  era * 146097 + doe - 719468.

(** [new Date(Date.UTC(y, m - 1, d, hh, mm, ss))] *)
Definition mkDate (y m d hh mm ss : Z) : Date :=
  DateOf (daysFromCivil y m d * msPerDay + ((hh * 60 + mm) * 60 + ss) * 1000).

(** date-fns [getDate]: day of the month, NaN for the Invalid Date. *)
Definition getDate (d : Date) : JS.number :=
  match d with
  | InvalidDate => JS.NaN
  | DateOf t => let '(_, _, dd) := civil (Day t) in JS.ofZ dd
  end.

(** The largest time value of a Date, and [TimeClip]: a time value beyond
    the range makes the Invalid Date. *)
Definition maxTime : Z := 8640000000000000.

Definition TimeClip (t : Z) : Date :=
  if Z.abs t <=? maxTime then DateOf t else InvalidDate.

(** date-fns [addDays]: the date itself when [amount] is 0; otherwise
    [setDate(getDate() + amount)], the same time of day [amount] days later,
    clipped to the range of dates. *)
Definition addDays (d : Date) (amount : Z) : Date :=
  match d with
  | InvalidDate => InvalidDate
  | DateOf t => if amount =? 0 then d else TimeClip (t + amount * msPerDay)
  end.

(** date-fns [isSameDay]: both dates start their day at the same instant. *)
Definition isSameDay (a b : Date) : bool :=
  match a, b with
  | DateOf s, DateOf t => Day s =? Day t
  | _, _ => false
  end.

(** Decimal rendering of [n] on exactly [w] digits. *)
Fixpoint digits (w : nat) (n : Z) : string :=
  match w with
  | O => EmptyString
  | S w' =>
      digits w' (n / 10) ++
      String (ascii_of_nat (48 + Z.to_nat (n mod 10))) EmptyString
  end.

Definition isoYear (y : Z) : string :=
  if (0 <=? y) && (y <=? 9999) then digits 4 y
  else if y <? 0 then "-" ++ digits 6 (- y)
  else "+" ++ digits 6 y.

(** Text of [date.toISOString()] for the valid date of time value [t]. *)
Definition isoString (t : Z) : string :=
  let '(y, m, dd) := civil (Day t) in
  let r := TimeWithinDay t in
  (isoYear y ++ "-" ++ digits 2 m ++ "-" ++ digits 2 dd ++ "T" ++
   digits 2 (r / 3600000) ++ ":" ++ digits 2 (r / 60000 mod 60) ++ ":" ++
   digits 2 (r / 1000 mod 60) ++ "." ++ digits 3 (r mod 1000) ++ "Z")%string.

(** [date.toISOString()]; [None] stands for the RangeError thrown on the
    Invalid Date. *)
Definition toISOString (d : Date) : option string :=
  match d with
  | InvalidDate => None
  | DateOf t => Some (isoString t)
  end.

End Cal.

(* ================================================================== *)
(** ** Data model ([types.ts]) *)

Inductive Category : Type :=
| housing | transport | utilities | subscriptions | other.

Inductive Reliability : Type :=
| certain | likely | uncertain.

Module FixedExpense.
Record t : Type := mk {
  id : string;
  name : string;
  amount : JS.number;
  dueDay : JS.number;
  category : Category
}.
End FixedExpense.

Module IncomeEvent.
Record t : Type := mk {
  id : string;
  amount : JS.number;
  date : Cal.Date;
  source : string;
  reliability : Reliability;
  isReceived : bool
}.
End IncomeEvent.

Inductive Status : Type :=
| good | warning | critical.

Record ProjectionPoint : Type := mkPoint {
  pointDate : string;
  pointBalance : JS.number
}.

Record RunwayResult : Type := mkResult {
  daysRemaining : nat;
  brokeDate : Cal.Date;
  safeDailySpend : JS.number;
  status : Status;
  projectedBalance : list ProjectionPoint
}.

Record Params : Type := mkParams {
  currentBalance : JS.number;
  startDate : Cal.Date;
  fixedExpenses : list FixedExpense.t;
  incomeEvents : list IncomeEvent.t;
  dailyVariableSpend : JS.number
}.

(* ================================================================== *)
(** ** Exceptions *)

(** One constructor per [throw new Error(...)] of the validation block, in
    source order, carrying the name the message quotes; [RangeError] is the
    exception of [toISOString] on the Invalid Date. *)
Inductive Error : Type :=
| InvalidBalance
| BalanceTooLow
| BalanceTooHigh
| InvalidDailySpend
| NegativeDailySpend
| DailySpendTooHigh
| InvalidStartDate
| InvalidExpenseAmount (name : string)
| InvalidDueDay (name : string)
| InvalidIncomeAmount (source : string)
| InvalidIncomeDate (source : string)
| RangeError.

Definition isInvalidInput (e : Error) : bool :=
  match e with RangeError => false | _ => true end.

Inductive Outcome (A : Type) : Type :=
| Return (a : A)
| Throw (e : Error).
Arguments Return {A} a.
Arguments Throw {A} e.

Definition bind {A B : Type} (m : Outcome A) (k : A -> Outcome B) : Outcome B :=
  match m with
  | Return a => k a
  | Throw e => Throw e
  end.

Notation "x <- m ;; k" := (bind m (fun x => k))
  (at level 61, m at next level, right associativity).
Notation "m ;; k" := (bind m (fun _ => k))
  (at level 61, right associativity).

(** The value of a computation that returned. *)
Definition returned {A : Type} (m : Outcome A) : option A :=
  match m with
  | Return a => Some a
  | Throw _ => None
  end.

(** [if (c) throw e;] *)
Definition throwIf (c : bool) (e : Error) : Outcome unit :=
  if c then Throw e else Return tt.

(** [for (const x of xs) { body }] where the body only throws. *)
Fixpoint forOf {A : Type} (body : A -> Outcome unit) (xs : list A) : Outcome unit :=
  match xs with
  | [] => Return tt
  | x :: xs' => body x ;; forOf body xs'
  end.

(* ================================================================== *)
(** ** The engine ([logic.ts], class [RunwayLogic]) *)

Module RunwayLogic.

Import JS Cal.
Local Open Scope js_scope.

Definition maxDays : nat := 365.

(** [.reduce((sum, e) => sum + e.amount, 0)] *)
Definition sumBy {A : Type} (amount : A -> number) (xs : list A) : number :=
  fold_left (fun sum e => sum + amount e) xs (ofZ 0).

(** Income credited on [currentDate]. *)
Definition todaysIncome (incomeEvents : list IncomeEvent.t) (currentDate : Date) : number :=
  sumBy IncomeEvent.amount
    (filter (fun e => isSameDay (IncomeEvent.date e) currentDate) incomeEvents).

(** Fixed expenses debited on a day whose day of the month is
    [currentDayOfMonth]. *)
Definition todaysFixedExpenses (fixedExpenses : list FixedExpense.t)
    (currentDayOfMonth : number) : number :=
  sumBy FixedExpense.amount
    (filter (fun e => FixedExpense.dueDay e === currentDayOfMonth) fixedExpenses).

(** The loop [for (let i = 0; i < targetDays; i++)] of the helper below, with
    its variables [tempDate] and [totalFixed]; [n] iterations remain. *)
Fixpoint totalFixedLoop (fixedExpenses : list FixedExpense.t) (n : nat)
    (tempDate : Date) (totalFixed : number) : number :=
  match n with
  | O => totalFixed
  | S n' =>
      let dayOfMonth := getDate tempDate in
      let dailyFixed := todaysFixedExpenses fixedExpenses dayOfMonth in
      totalFixedLoop fixedExpenses n' (addDays tempDate 1) (totalFixed + dailyFixed)
  end.

(** Helper: calculates max daily spend to reach a target day count.
    [targetDays] is a loop bound and a day count; the only call passes 30. *)
Definition calculateSafeSpendForTarget (targetDays : nat) (params : Params) : number :=
  let availableMoney := currentBalance params in
  let targetDate := addDays (startDate params) (Z.of_nat targetDays) in
  let relevantIncome :=
    sumBy IncomeEvent.amount
      (filter (fun e =>
                 (getTime (IncomeEvent.date e) <=? getTime targetDate) &&
                 (getTime (IncomeEvent.date e) >=? getTime (startDate params)))
              (incomeEvents params)) in
  let availableMoney := availableMoney + relevantIncome in
  let totalFixed :=
    totalFixedLoop (fixedExpenses params) targetDays (startDate params) (ofZ 0) in
  let availableMoney := availableMoney - totalFixed in
  if availableMoney <=? ofZ 0 then ofZ 0
  else floor (availableMoney / ofZ (Z.of_nat targetDays)).

(** Validation of one fixed expense and of one income event. *)
Definition validateExpense (expense : FixedExpense.t) : Outcome unit :=
  throwIf (negb (isFinite (FixedExpense.amount expense))
           || (FixedExpense.amount expense <=? ofZ 0))
          (InvalidExpenseAmount (FixedExpense.name expense)) ;;
  throwIf (negb (isInteger (FixedExpense.dueDay expense))
           || (FixedExpense.dueDay expense <? ofZ 1)
           || (FixedExpense.dueDay expense >? ofZ 31))
          (InvalidDueDay (FixedExpense.name expense)).

Definition validateIncome (income : IncomeEvent.t) : Outcome unit :=
  throwIf (negb (isFinite (IncomeEvent.amount income))
           || (IncomeEvent.amount income <=? ofZ 0))
          (InvalidIncomeAmount (IncomeEvent.source income)) ;;
  throwIf (isInvalid (IncomeEvent.date income))
          (InvalidIncomeDate (IncomeEvent.source income)).

(** The input validation block. *)
Definition validate (params : Params) : Outcome unit :=
  throwIf (negb (isFinite (currentBalance params))) InvalidBalance ;;
  throwIf (currentBalance params <? ofZ (-1000000)) BalanceTooLow ;;
  throwIf (currentBalance params >? ofZ 100000000) BalanceTooHigh ;;
  throwIf (negb (isFinite (dailyVariableSpend params))) InvalidDailySpend ;;
  throwIf (dailyVariableSpend params <? ofZ 0) NegativeDailySpend ;;
  throwIf (dailyVariableSpend params >? ofZ 100000) DailySpendTooHigh ;;
  throwIf (isInvalid (startDate params)) InvalidStartDate ;;
  forOf validateExpense (fixedExpenses params) ;;
  forOf validateIncome (incomeEvents params).

(** State of the simulation loop: the variables [balance], [currentDate],
    [daysResult] and [projection]. *)
Record Loop : Type := mkLoop {
  balance : number;
  currentDate : Date;
  daysResult : nat;
  projection : list ProjectionPoint
}.

(** The loop [while (daysResult < maxDays) { ... }].  [daysResult] starts at 0
    and grows by one per completed iteration, so [remaining] counts the
    iterations the loop condition still allows ([maxDays - daysResult]). *)
Fixpoint simulate (params : Params) (remaining : nat) (st : Loop) : Outcome Loop :=
  match remaining with
  | O => Return st
  | S remaining' =>
      let balance := balance st + todaysIncome (incomeEvents params) (currentDate st) in
      let currentDayOfMonth := getDate (currentDate st) in
      let balance := balance - todaysFixedExpenses (fixedExpenses params) currentDayOfMonth in
      let balance := balance - dailyVariableSpend params in
      match toISOString (currentDate st) with
      | None => Throw RangeError
      | Some iso =>
          let projection := projection st ++ [mkPoint iso (floor balance)] in
          if balance <? ofZ 0 then
            Return (mkLoop balance (currentDate st) (daysResult st) projection)
          else
            simulate params remaining'
              (mkLoop balance (addDays (currentDate st) 1) (S (daysResult st)) projection)
      end
  end.

Definition statusOf (daysResult : nat) : Status :=
  if (daysResult <? 7)%nat then critical
  else if (daysResult <? 30)%nat then warning
  else good.

(** Calculates how long the student survives based on current spending. *)
Definition calculateRunway (params : Params) : Outcome RunwayResult :=
  validate params ;;
  if currentBalance params <? ofZ 0 then
    Return (mkResult 0 (startDate params) (ofZ 0) critical [])
  else
    st <- simulate params maxDays (mkLoop (currentBalance params) (startDate params) 0 []) ;;
    let status := statusOf (daysResult st) in
    let safeSpend := calculateSafeSpendForTarget 30 params in
    Return (mkResult (daysResult st) (currentDate st) safeSpend status (projection st)).

(** [calculateRunwaySafe]: the same, with the error as a value. *)
Definition calculateRunwaySafe (params : Params) : RunwayResult + Error :=
  match calculateRunway params with
  | Return result => inl result
  | Throw error => inr error
  end.

End RunwayLogic.

(* ================================================================== *)
(** ** The engine before validation ([logic.ts], earlier version) *)

Module RunwayLogicLegacy.

Import JS Cal.
Local Open Scope js_scope.

(** The earlier [calculateRunway]: the body of the current one without the
    validation block.  Its loop and its helper are the same text as
    [RunwayLogic.simulate] and [RunwayLogic.calculateSafeSpendForTarget]. *)
Definition calculateRunway (params : Params) : Outcome RunwayResult :=
  if currentBalance params <? ofZ 0 then
    Return (mkResult 0 (startDate params) (ofZ 0) critical [])
  else
    st <- RunwayLogic.simulate params RunwayLogic.maxDays
            (RunwayLogic.mkLoop (currentBalance params) (startDate params) 0 []) ;;
    let status := RunwayLogic.statusOf (RunwayLogic.daysResult st) in
    let safeSpend := RunwayLogic.calculateSafeSpendForTarget 30 params in
    Return (mkResult (RunwayLogic.daysResult st) (RunwayLogic.currentDate st)
              safeSpend status (RunwayLogic.projection st)).

End RunwayLogicLegacy.

(* ================================================================== *)
(** ** Financial data and its updates ([hooks.ts], [useFinancials]) *)

Module Financials.

Record FinancialData : Type := mk {
  fixedExpenses : list FixedExpense.t;
  incomeEvents : list IncomeEvent.t
}.

(** The initial value of the stored data. *)
Definition initialValue : FinancialData := mk [] [].

(** The updaters handed to [setData]: each maps the previous data to the
    next. *)
Definition addFixedExpense (expense : FixedExpense.t) (prev : FinancialData) : FinancialData :=
  mk (fixedExpenses prev ++ [expense]) (incomeEvents prev).

Definition removeFixedExpense (id : string) (prev : FinancialData) : FinancialData :=
  mk (filter (fun e => negb (String.eqb (FixedExpense.id e) id)) (fixedExpenses prev))
     (incomeEvents prev).

Definition addIncomeEvent (income : IncomeEvent.t) (prev : FinancialData) : FinancialData :=
  mk (fixedExpenses prev) (incomeEvents prev ++ [income]).

Definition removeIncomeEvent (id : string) (prev : FinancialData) : FinancialData :=
  mk (fixedExpenses prev)
     (filter (fun e => negb (String.eqb (IncomeEvent.id e) id)) (incomeEvents prev)).

End Financials.

(* ================================================================== *)
(** ** The student profile ([user-profile/types.ts]) *)

Module CampusType.
Inductive t : Type := rural | town | city.
End CampusType.

Module LivingArrangement.
Inductive t : Type := on_campus | off_campus_shared | off_campus_alone.
End LivingArrangement.

Module FoodHabit.
Inductive t : Type := mostly_cook | mostly_buy | mixed.
End FoodHabit.

Module TransportPattern.
Inductive t : Type := walking | public_transport | mixed.
End TransportPattern.

Module StudentProfile.
Record t : Type := mk {
  id : string;
  name : string;
  createdAt : Cal.Date;
  lastUpdated : Cal.Date;
  campusType : CampusType.t;
  livingArrangement : LivingArrangement.t;
  foodHabits : FoodHabit.t;
  transportPattern : TransportPattern.t;
  cheapestMealCost : JS.number;
  currentBalance : JS.number
}.
End StudentProfile.

(* ================================================================== *)
(** ** The runway hook ([hooks.ts], [useRunwayCalculation]) *)

Module Hooks.

Import JS Cal.
Local Open Scope js_scope.

(** What the hook returns when there is a profile: the fields of the result
    and [estimatedDailySpend]. *)
Record RunwayView : Type := mkView {
  result : RunwayResult;
  estimatedDailySpend : number
}.

Definition isMostlyCook (h : FoodHabit.t) : bool :=
  match h with FoodHabit.mostly_cook => true | _ => false end.

Definition isMostlyBuy (h : FoodHabit.t) : bool :=
  match h with FoodHabit.mostly_buy => true | _ => false end.

(** [useRunwayCalculation]; the profile and the financial data come from the
    two hooks it calls and [today] is [new Date()].  [None] is the [null]
    returned without a profile; an exception of [calculateRunway] is not
    caught. *)
Definition useRunwayCalculation (profile : option StudentProfile.t)
    (data : Financials.FinancialData) (today : Date) : option (Outcome RunwayView) :=
  match profile with
  | None => None
  | Some profile =>
      let dailyVariableMultiplier := Fin (5 # 2) in
      let dailyVariableMultiplier :=
        if isMostlyCook (StudentProfile.foodHabits profile) then Fin (9 # 5)
        else dailyVariableMultiplier in
      let dailyVariableMultiplier :=
        if isMostlyBuy (StudentProfile.foodHabits profile) then Fin 3
        else dailyVariableMultiplier in
      let estimatedDailySpend :=
        ceil (StudentProfile.cheapestMealCost profile * dailyVariableMultiplier) in
      Some (result <- RunwayLogic.calculateRunway
                        (mkParams (StudentProfile.currentBalance profile) today
                           (Financials.fixedExpenses data) (Financials.incomeEvents data)
                           estimatedDailySpend) ;;
            Return (mkView result estimatedDailySpend))
  end.

End Hooks.

(* ================================================================== *)
(** ** Onboarding form validation ([OnboardingFlow.tsx], [validateInputs]) *)

Module Onboarding.

Import JS.
Local Open Scope js_scope.

(** The [errors] state: a key is present when its field was rejected. *)
Record Errors : Type := mkErrors {
  name : option string;
  balance : option string;
  mealCost : option string
}.

Section WithTrim.

(** [String.prototype.trim] *)
Variable trim : string -> string.

(** [validateInputs]: the errors it stores and the boolean it returns.  The
    form state [currentBalance] and [cheapestMeal] are numbers, so [Number]
    leaves them as they are. *)
Definition validateInputs (name : string) (currentBalance cheapestMeal : number)
  : Errors * bool :=
  let newName :=
    if String.eqb name "" || String.eqb (trim name) "" then Some "Please enter your name"%string
    else None in
  let balanceNum := currentBalance in
  let newBalance :=
    if negb (isFinite balanceNum) then Some "Balance must be a valid number"%string
    else if balanceNum <? ofZ 0 then Some "Balance cannot be negative"%string
    else if balanceNum >? ofZ 10000000 then Some "Balance seems unrealistically high"%string
    else None in
  let mealNum := cheapestMeal in
  let newMealCost :=
    if negb (isFinite mealNum) then Some "Meal cost must be a valid number"%string
    else if mealNum <=? ofZ 0 then Some "Meal cost must be greater than 0"%string
    else if mealNum >? ofZ 5000 then Some "Meal cost seems very high (>5000 KSh)"%string
    else None in
  let newErrors := mkErrors newName newBalance newMealCost in
  (newErrors,
   match newName, newBalance, newMealCost with
   | None, None, None => true
   | _, _, _ => false
   end).

End WithTrim.

End Onboarding.

(* ================================================================== *)
(** ** Ordinal suffix ([FinancialManager.tsx], [getOrdinal]) *)

Module FinancialManager.

(** [a[i]] for an integer index: [None] is [undefined]. *)
Definition at_ (a : list string) (i : Z) : option string :=
  if i <? 0 then None else nth_error a (Z.to_nat i).

(** [x || y] on values that are strings or [undefined]. *)
Definition orElse (x y : option string) : option string :=
  match x with
  | Some v => if String.eqb v "" then y else x
  | None => y
  end.

(** [getOrdinal] on an integer; [%] is the remainder that takes the sign of
    the dividend. *)
Definition getOrdinal (n : Z) : option string :=
  let s := ["th"; "st"; "nd"; "rd"]%string in
  let v := Z.rem n 100 in
  orElse (at_ s (Z.rem (v - 20) 10)) (orElse (at_ s v) (at_ s 0)).

End FinancialManager.

(* ================================================================== *)
(** ** The error log ([ErrorBoundary.tsx], [componentDidCatch]) *)

Module ErrorBoundary.

Record ErrorLog : Type := mkLog {
  timestamp : string;
  message : string;
  stack : option string;
  componentStack : string
}.

(** The update of the stored log list: [logs.push(errorLog)], then
    [if (logs.length > 10) logs.shift()]. *)
Definition appendLog (logs : list ErrorLog) (errorLog : ErrorLog) : list ErrorLog :=
  let logs := logs ++ [errorLog] in
  if (10 <? List.length logs)%nat then tl logs else logs.

End ErrorBoundary.

(* ================================================================== *)
(** ** Clearing old data ([StorageQuotaWarning.tsx], [handleClearOldData]) *)

Module LocalStorage.

(** The storage area: its keys with their values. *)
Definition t : Type := list (string * string).

Definition getItem (key : string) (st : t) : option string :=
  match find (fun kv => String.eqb (fst kv) key) st with
  | Some kv => Some (snd kv)
  | None => None
  end.

Definition removeItem (key : string) (st : t) : t :=
  filter (fun kv => negb (String.eqb (fst kv) key)) st.

Section Keys.

(** The names that are properties of the prototype chain of the storage
    object ([length], [getItem], [key], [constructor], ...): a stored key with
    such a name is not an enumerable own property of the object. *)
Variable shadowed : string -> bool.

(** [Object.keys(localStorage)] *)
Definition keys (st : t) : list string :=
  filter (fun key => negb (shadowed key)) (map fst st).

End Keys.

End LocalStorage.

Module StorageQuotaWarning.

(** [essential.includes(key)] *)
Definition includes (xs : list string) (key : string) : bool :=
  existsb (String.eqb key) xs.

(** [handleClearOldData] on the storage area; [confirmed] is the answer to
    the [confirm] dialog. *)
Definition handleClearOldData (shadowed : string -> bool) (confirmed : bool)
    (localStorage : LocalStorage.t) : LocalStorage.t :=
  if confirmed then
    let essential := ["csc_student_profile_v1"; "csc_financials_v1"]%string in
    let allKeys := LocalStorage.keys shadowed localStorage in
    fold_left
      (fun st key => if negb (includes essential key) then LocalStorage.removeItem key st else st)
      allKeys localStorage
  else localStorage.

End StorageQuotaWarning.

(* ================================================================== *)
(** * Specification-level definitions *)

Import JS Cal RunwayLogic.

Section Definitions.

Local Open Scope Q_scope.

(** ** The preconditions, as the specification words them *)

(** [x] is finite and lies in the band [[lo, hi]]. *)
Definition FiniteWithin (lo hi : Q) (x : number) : Prop :=
  exists q, x = Fin q /\ lo <= q /\ q <= hi.

(** [x] is finite and strictly positive. *)
Definition FinitePositive (x : number) : Prop :=
  exists q, x = Fin q /\ 0 < q.

Definition ValidDate (d : Date) : Prop := exists t, d = DateOf t.

Definition ObligationOk (e : FixedExpense.t) : Prop :=
  FinitePositive (FixedExpense.amount e) /\
  exists (q : Q) (d : Z),
    FixedExpense.dueDay e = Fin q /\ q == inject_Z d /\ (1 <= d <= 31)%Z.

Definition IncomeOk (e : IncomeEvent.t) : Prop :=
  FinitePositive (IncomeEvent.amount e) /\ ValidDate (IncomeEvent.date e).

Definition Valid (p : Params) : Prop :=
  FiniteWithin (-1000000) 100000000 (currentBalance p) /\
  FiniteWithin 0 100000 (dailyVariableSpend p) /\
  ValidDate (startDate p) /\
  Forall ObligationOk (fixedExpenses p) /\
  Forall IncomeOk (incomeEvents p).

(** ** Room for the horizon *)

(** The date is a time value of the range of dates, at least 366 days before
    the largest one: the 365 days of the horizon and the day after them are
    dates, whatever the offset of local time. *)
Definition InHorizon (d : Date) : Prop :=
  exists t, d = DateOf t /\ (- maxTime <= t)%Z /\ (t + 366 * msPerDay <= maxTime)%Z.

Definition inHorizon (d : Date) : bool :=
  match d with
  | DateOf t => ((- maxTime <=? t) && (t + 366 * msPerDay <=? maxTime))%Z
  | InvalidDate => false
  end.

(** ** Whole amounts *)

(** [x] is a whole number. *)
Definition Whole (x : number) : Prop := exists z : Z, x = ofZ z.

(** ** The day-by-day balance *)

(** Balance at the end of a day [d] that started with balance [b]: income
    credited, fixed expenses and the daily spend debited, in the order of the
    loop body. *)
Definition dayEnd (p : Params) (b : number) (d : Date) : number :=
  (b + todaysIncome (incomeEvents p) d
     - todaysFixedExpenses (fixedExpenses p) (getDate d)
     - dailyVariableSpend p)%js.

(** Balance after [n] simulated days, whatever their outcome: the starting
    balance for [n = 0], the end-of-day balance of day [n - 1] otherwise. *)
Fixpoint balanceAfter (p : Params) (n : nat) : number :=
  match n with
  | O => currentBalance p
  | S k => dayEnd p (balanceAfter p k) (addDays (startDate p) (Z.of_nat k))
  end.

(** The loop state before the iteration of day [n]. *)
Definition AtDay (p : Params) (n : nat) (st : Loop) : Prop :=
  balance st = balanceAfter p n /\
  currentDate st = addDays (startDate p) (Z.of_nat n) /\
  daysResult st = n.

(** Replacing the starting balance of the parameters. *)
Definition setBalance (p : Params) (x : number) : Params :=
  mkParams x (startDate p) (fixedExpenses p) (incomeEvents p) (dailyVariableSpend p).


(** ** What the safe-spend helper computes, in closed form *)

(** Value of a finite number. *)
Definition toQ (x : number) : Q :=
  match x with Fin q => q | _ => 0 end.

Definition Qsum (xs : list Q) : Q := fold_right Qplus 0 xs.

(** Day of the month of the instant [t]. *)
Definition dayOfMonth (t : Z) : Z :=
  let '(_, _, dd) := civil (Day t) in dd.

(** Income dated within [[start, start + days]] (instants, both ends
    included). *)
Definition incomeWithin (start : Z) (days : Z) (incomes : list IncomeEvent.t) : Q :=
  Qsum (map (fun e => toQ (IncomeEvent.amount e))
          (filter (fun e => match IncomeEvent.date e with
                            | DateOf te => (start <=? te)%Z && (te <=? start + days * msPerDay)%Z
                            | InvalidDate => false
                            end) incomes)).

(** Obligations whose due day is the day of the month [dom], as the helper
    and the loop select them. *)
Definition dueOn (dom : Z) (obligations : list FixedExpense.t) : Q :=
  Qsum (map (fun e => toQ (FixedExpense.amount e))
          (filter (fun e => (FixedExpense.dueDay e === ofZ dom)%js) obligations)).

(** What the helper debits over the [days] days from [start]. *)
Definition obligationsOver (start : Z) (days : nat) (obligations : list FixedExpense.t) : Q :=
  Qsum (map (fun i => dueOn (dayOfMonth (start + Z.of_nat i * msPerDay)) obligations)
          (seq 0 days)).

Definition availableMoney (balance : Q) (start : Z)
    (obligations : list FixedExpense.t) (incomes : list IncomeEvent.t) : Q :=
  balance + incomeWithin start 30 incomes - obligationsOver start 30 obligations.

Definition safeSpendFormula (balance : Q) (start : Z)
    (obligations : list FixedExpense.t) (incomes : list IncomeEvent.t) : Z :=
  let available := availableMoney balance start obligations incomes in
  if Qle_bool available 0 then 0%Z else Qfloor (available / 30).

(** The balance, the daily spend and every amount are whole numbers, and the
    amounts of each list add up to at most 10^12: every sum the engine forms
    is a whole number below 2^53. *)
Definition WholeAmounts (p : Params) : Prop :=
  Whole (currentBalance p) /\ Whole (dailyVariableSpend p) /\
  Forall (fun e => Whole (FixedExpense.amount e)) (fixedExpenses p) /\
  Forall (fun e => Whole (IncomeEvent.amount e)) (incomeEvents p) /\
  Qsum (map (fun e => toQ (FixedExpense.amount e)) (fixedExpenses p)) <= 1000000000000 /\
  Qsum (map (fun e => toQ (IncomeEvent.amount e)) (incomeEvents p)) <= 1000000000000.

(** ** The calendar, by month lengths *)

Definition isLeapYear (y : Z) : bool :=
  ((y mod 4 =? 0)%Z && negb (y mod 100 =? 0)%Z) || (y mod 400 =? 0)%Z.

Definition daysInMonth (y m : Z) : Z :=
  if (m =? 2)%Z then (if isLeapYear y then 29%Z else 28%Z)
  else if ((m =? 4) || (m =? 6) || (m =? 9) || (m =? 11))%Z then 30%Z
  else 31%Z.

(** The civil date that follows [(y, m, d)]. *)
Definition nextDay (c : Z * Z * Z) : Z * Z * Z :=
  let '(y, m, d) := c in
  if (d <? daysInMonth y m)%Z then (y, m, d + 1)%Z
  else if (m <? 12)%Z then (y, m + 1, 1)%Z
  else (y + 1, 1, 1)%Z.

Definition sameCivil (a b : Z * Z * Z) : bool :=
  let '(y, m, d) := a in
  let '(y', m', d') := b in
  ((y =? y') && (m =? m') && (d =? d'))%Z.

(** [civil] steps like [nextDay] and is inverted by [daysFromCivil] on the
    [n] days from [day]. *)
Fixpoint calendarAgrees (n : nat) (day : Z) : bool :=
  match n with
  | O => true
  | S n' =>
      let '(y, m, d) := civil day in
      sameCivil (civil (day + 1)) (nextDay (y, m, d)) &&
      (daysFromCivil y m d =? day)%Z &&
      calendarAgrees n' (day + 1)
  end.

(** ** The safe daily spend, as the specification words it *)

(** The due day of an obligation in month [m] of year [y]: its due day,
    clamped to the last day of the month. *)
Definition clampedDueDay (y m : Z) (dueDay : Q) : Q :=
  if Qle_bool dueDay (inject_Z (daysInMonth y m)) then dueDay
  else inject_Z (daysInMonth y m).

(** The obligation falls due on the day of number [day]. *)
Definition fallsDueOn (day : Z) (e : FixedExpense.t) : bool :=
  let '(y, m, dd) := civil day in
  match FixedExpense.dueDay e with
  | Fin q => Qeq_bool (clampedDueDay y m q) (inject_Z dd)
  | _ => false
  end.

(** Step 3: for each of the [days] calendar days from the start day, the
    obligations whose clamped due day is that day. *)
Definition obligationsFallingDue (startDay : Z) (days : nat)
    (obligations : list FixedExpense.t) : Q :=
  Qsum (map (fun i =>
               Qsum (map (fun e => toQ (FixedExpense.amount e))
                       (filter (fallsDueOn (startDay + Z.of_nat i)) obligations)))
          (seq 0 days)).

(** Step 2: the income events dated from the start day to the day [days]
    days later, both included. *)
Definition incomeDatedWithin (startDay : Z) (days : Z) (incomes : list IncomeEvent.t) : Q :=
  Qsum (map (fun e => toQ (IncomeEvent.amount e))
          (filter (fun e => match IncomeEvent.date e with
                            | DateOf te =>
                                (startDay <=? Day te)%Z && (Day te <=? startDay + days)%Z
                            | InvalidDate => false
                            end) incomes)).

(** Steps 1 to 5, with [targetDays = 30]. *)
Definition specSafeDailySpend (balance : Q) (start : Z)
    (obligations : list FixedExpense.t) (incomes : list IncomeEvent.t) : Z :=
  let available :=
    balance + incomeDatedWithin (Day start) 30 incomes
    - obligationsFallingDue (Day start) 30 obligations in
  if Qle_bool available 0 then 0%Z else Qfloor (available / 30).

(** The same on the balance, the start date and the lists of the
    parameters. *)
Definition specSafeDailySpendOf (p : Params) : option Z :=
  match currentBalance p, startDate p with
  | Fin b, DateOf t => Some (specSafeDailySpend b t (fixedExpenses p) (incomeEvents p))
  | _, _ => None
  end.

(** ** Sample inputs *)

(** Noon (UTC) of a civil date. *)
Definition noon (y m d : Z) : Date := mkDate y m d 12 0 0.

(** Scenario A of the specification: 1000 in hand, 100 a day. *)
Definition scenarioA : Params :=
  mkParams (ofZ 1000) (noon 2024 1 15) [] [] (ofZ 100).

(** A negative starting balance inside the accepted band. *)
Definition overdrawn : Params :=
  mkParams (ofZ (-50)) (noon 2024 1 15) [] [] (ofZ 100).


(** Scenario B of the specification, for any start instant [t]: 100 in hand,
    100 a day, 500 coming in the day after. *)
Definition scenarioB (t : Z) : Params :=
  mkParams (ofZ 100) (DateOf t) []
    [IncomeEvent.mk "1" (ofZ 500) (addDays (DateOf t) 1) "Mom" certain false]
    (ofZ 100).

(** Scenario C of the specification: 3000 in hand, any daily spend. *)
Definition scenarioC (spend : Z) : Params :=
  mkParams (ofZ 3000) (noon 2024 1 15) [] [] (ofZ spend).

(** Rent of 500 due on the 31st, 10000 in hand, no daily spend, starting on
    1 February 2023 (not a leap year). *)
Definition rentOn31 : Params :=
  mkParams (ofZ 10000) (noon 2023 2 1)
    [FixedExpense.mk "rent" "Rent" (ofZ 500) (ofZ 31) housing] [] (ofZ 0).

(** 50000 in hand, 100 a day, rent of 1000 on the 1st and 20000 coming in
    mid-March. *)
Definition wellFunded : Params :=
  mkParams (ofZ 50000) (noon 2024 1 15)
    [FixedExpense.mk "rent" "Rent" (ofZ 1000) (ofZ 1) housing]
    [IncomeEvent.mk "1" (ofZ 20000) (mkDate 2024 3 15 9 30 0) "Loan" likely false]
    (ofZ 100).

(** An income of 3000 dated the morning of the start day, the start being at
    noon; nothing in hand, 100 a day. *)
Definition morningIncome : IncomeEvent.t :=
  IncomeEvent.mk "1" (ofZ 3000) (mkDate 2024 1 15 8 0 0) "Mom" certain false.

Definition sameDayEarlier : Params :=
  mkParams (ofZ 0) (noon 2024 1 15) [] [morningIncome] (ofZ 100).

(** The largest date, [new Date(8640000000000000)]. *)
Definition largestDate : Date := DateOf maxTime.

(** 1000 in hand and 100 a day, starting on the largest date. *)
Definition startsOnLargestDate : Params :=
  mkParams (ofZ 1000) largestDate [] [] (ofZ 100).

(** Nothing in hand and 100 a day, starting on the largest date. *)
Definition brokeOnLargestDate : Params :=
  mkParams (ofZ 0) largestDate [] [] (ofZ 100).

(** 500 in hand and no daily spend, starting three days before the largest
    date. *)
Definition threeDaysBeforeLargestDate : Params :=
  mkParams (ofZ 500) (DateOf (maxTime - 3 * msPerDay)) [] [] (ofZ 0).

End Definitions.

(* ================================================================== *)
(** * Further specification-level definitions *)

Section FurtherDefinitions.

Local Open Scope Q_scope.

(** The point the loop records for simulated day [i] of a run that starts at
    instant [t]. *)
Definition dayPoint (p : Params) (t : Z) (i : nat) : ProjectionPoint :=
  mkPoint (isoString (t + Z.of_nat i * msPerDay)) (floor (balanceAfter p (S i))).

(** Number of recorded points for a run that survived [days] days. *)
Definition recordedDays (days : nat) : nat :=
  (days + (if (days <? 365)%nat then 1 else 0))%nat.

(** Replacing the daily spend of the parameters. *)
Definition setSpend (p : Params) (x : number) : Params :=
  mkParams (currentBalance p) (startDate p) (fixedExpenses p) (incomeEvents p) x.

(** The parameters the hook builds from the stored financial data. *)
Definition paramsOf (balance : number) (today : Date) (data : Financials.FinancialData)
    (spend : number) : Params :=
  mkParams balance today (Financials.fixedExpenses data) (Financials.incomeEvents data) spend.

(** Income credited on day [i] of a run that starts at instant [t]. *)
Definition creditedOn (t : Z) (incomes : list IncomeEvent.t) (i : nat) : Q :=
  Qsum (map (fun e => toQ (IncomeEvent.amount e))
          (filter (fun e => isSameDay (IncomeEvent.date e) (DateOf (t + Z.of_nat i * msPerDay)))
                  incomes)).

(** Every day treats a balance under [p2] at least as well as a balance that
    is not larger under [p1]. *)
Definition NoWorseDay (p1 p2 : Params) : Prop :=
  forall d b1 b2 q1 q2,
    b1 <= b2 ->
    dayEnd p1 (Fin b1) d = Fin q1 -> dayEnd p2 (Fin b2) d = Fin q2 -> q1 <= q2.

(** What the engine reads of an obligation and of an income event. *)
Definition obligationView (e : FixedExpense.t) : string * number * number :=
  (FixedExpense.name e, FixedExpense.amount e, FixedExpense.dueDay e).

Definition incomeView (e : IncomeEvent.t) : string * number * Date :=
  (IncomeEvent.source e, IncomeEvent.amount e, IncomeEvent.date e).

(** The English ordinal suffix of a non-negative integer. *)
Definition englishSuffix (n : Z) : string :=
  if ((11 <=? n mod 100) && (n mod 100 <=? 13))%Z then "th"
  else if (n mod 10 =? 1)%Z then "st"
  else if (n mod 10 =? 2)%Z then "nd"
  else if (n mod 10 =? 3)%Z then "rd"
  else "th".

(** The last [k] elements of a list. *)
Definition lastN {A : Type} (k : nat) (xs : list A) : list A :=
  skipn (List.length xs - k) xs.

(** 1000 in hand at noon, 2000 coming in that evening, rent of 600 on the
    20th. *)
Definition eveningIncome : Params :=
  mkParams (ofZ 1000) (noon 2024 1 15)
    [FixedExpense.mk "rent" "Rent" (ofZ 600) (ofZ 20) housing]
    [IncomeEvent.mk "1" (ofZ 2000) (mkDate 2024 1 15 18 0 0) "Job" certain false]
    (ofZ 100).

(** The event of [sameDayEarlier] under another id, flagged as received and
    uncertain. *)
Definition morningIncomeReceived : IncomeEvent.t :=
  IncomeEvent.mk "2" (ofZ 3000) (mkDate 2024 1 15 8 0 0) "Mom" uncertain true.

(** A stored profile as onboarding submits it. *)
Definition sampleProfile (habit : FoodHabit.t) (meal balance : number) : StudentProfile.t :=
  StudentProfile.mk "user-1" "Alex" (noon 2024 1 15) (noon 2024 1 15)
    CampusType.town LivingArrangement.off_campus_shared habit
    TransportPattern.walking meal balance.

End FurtherDefinitions.

(* ================================================================== *)
(** * Properties *)

(** ** The calendar *)

Example civil_2023_02_28 : Cal.civil (Cal.daysFromCivil 2023 2 28) = (2023, 2, 28).
Proof. reflexivity. Qed.

Example iso_example :
  Cal.toISOString (Cal.mkDate 2024 2 29 13 5 9) = Some "2024-02-29T13:05:09.000Z"%string.
Proof. reflexivity. Qed.

Example epoch_day : Cal.civil 0 = (1970, 1, 1).
Proof. reflexivity. Qed.

Example day_before_epoch : Cal.civil (-1) = (1969, 12, 31).
Proof. reflexivity. Qed.

(** Over a whole 400-year cycle from 1 January 1900, [civil] follows the
    month lengths of the Gregorian calendar. *)
Example civil_follows_month_lengths :
  calendarAgrees (Z.to_nat 146097) (Cal.daysFromCivil 1900 1 1) = true.
Proof. vm_compute. reflexivity. Qed.

(** ** Comparisons on finite numbers *)

Section NumberFacts.

Local Open Scope Q_scope.

Lemma Qltb_true (a b : Q) : Qltb a b = true <-> a < b.
Proof.
  unfold Qltb. rewrite negb_true_iff.
  split; intro H.
  - apply Qnot_le_lt. intro L. apply Qle_bool_iff in L. congruence.
  - destruct (Qle_bool b a) eqn:E; [|reflexivity].
    apply Qle_bool_iff in E. lra.
Qed.

Lemma Qltb_false (a b : Q) : Qltb a b = false <-> b <= a.
Proof.
  unfold Qltb. rewrite negb_false_iff. apply Qle_bool_iff.
Qed.

Lemma Qle_bool_false (a b : Q) : Qle_bool a b = false <-> b < a.
Proof.
  rewrite <- Qltb_true. unfold Qltb.
  destruct (Qle_bool a b); simpl; intuition congruence.
Qed.

Lemma isFinite_true (x : number) : isFinite x = true <-> exists q, x = Fin q.
Proof.
  destruct x; simpl; split; intro H; try discriminate; try (destruct H; discriminate);
    eauto.
Qed.

(** [Number.isInteger] holds of the finite numbers that equal an integer. *)
Lemma isInteger_true (x : number) :
  isInteger x = true <-> exists (q : Q) (z : Z), x = Fin q /\ q == inject_Z z.
Proof.
  destruct x as [| | |q]; simpl;
    try (split; [discriminate | intros (q & z & H & _); discriminate]).
  rewrite Qeq_bool_iff. split.
  - intro H. exists q, (Qfloor q). split; [reflexivity | symmetry; exact H].
  - intros (q' & z & E & H). injection E as <-.
    rewrite (Qfloor_comp _ _ H), Qfloor_Z. symmetry. exact H.
Qed.

End NumberFacts.

(** ** Validation accepts exactly the preconditions *)

Section Preconditions.

Local Open Scope Q_scope.

Lemma isInvalid_false (d : Date) : isInvalid d = false <-> ValidDate d.
Proof.
  unfold ValidDate. destruct d as [|t]; simpl; split; intro H.
  - discriminate.
  - destruct H as [t H]. discriminate.
  - exists t. reflexivity.
  - reflexivity.
Qed.

Lemma amount_check (x : number) :
  negb (isFinite x) || (x <=? ofZ 0)%js = false <-> FinitePositive x.
Proof.
  unfold FinitePositive.
  destruct x as [| | |q]; simpl;
    try (split; [discriminate | intros (q & H & _); discriminate]).
  rewrite Qle_bool_false. split.
  - intro H. exists q. split; [reflexivity | exact H].
  - intros (q' & E & H). injection E as <-. exact H.
Qed.

Lemma dueDay_check (x : number) :
  negb (isInteger x) || (x <? ofZ 1)%js || (x >? ofZ 31)%js = false <->
  exists (q : Q) (d : Z), x = Fin q /\ q == inject_Z d /\ (1 <= d <= 31)%Z.
Proof.
  rewrite !orb_false_iff, negb_false_iff, isInteger_true. split.
  - intros [[(q & z & -> & Hz) H1] H31]. simpl in H1, H31.
    unfold JS.gt in H31. simpl in H31.
    apply Qltb_false in H1, H31.
    exists q, z. split; [reflexivity|]. split; [exact Hz|].
    rewrite Hz in H1, H31.
    rewrite <- Zle_Qle in H1, H31. lia.
  - intros (q & d & -> & Hq & Hd). split; [split|].
    + exists q, d. split; [reflexivity | exact Hq].
    + simpl. apply Qltb_false. rewrite Hq, <- Zle_Qle. lia.
    + unfold JS.gt. simpl. apply Qltb_false. rewrite Hq, <- Zle_Qle. lia.
Qed.

Lemma throwIf_Return (c : bool) (e : Error) :
  throwIf c e = Return tt <-> c = false.
Proof. destruct c; simpl; split; congruence. Qed.

Lemma bind_Return {A B : Type} (m : Outcome A) (k : A -> Outcome B) (b : B) :
  bind m k = Return b <-> exists a, m = Return a /\ k a = Return b.
Proof.
  destruct m; simpl; split.
  - intro H. eauto.
  - intros (a' & E & H). congruence.
  - discriminate.
  - intros (a' & E & _). discriminate.
Qed.

Lemma bind_unit_Return {B : Type} (m : Outcome unit) (k : unit -> Outcome B) (b : B) :
  bind m k = Return b <-> m = Return tt /\ k tt = Return b.
Proof.
  rewrite bind_Return. split.
  - intros ([] & E & H). auto.
  - intros [E H]. eauto.
Qed.

Lemma forOf_Return {A : Type} (body : A -> Outcome unit) (xs : list A) :
  forOf body xs = Return tt <-> Forall (fun x => body x = Return tt) xs.
Proof.
  induction xs as [|x xs IH]; simpl.
  - split; [constructor | reflexivity].
  - rewrite bind_unit_Return, IH. split.
    + intros [H1 H2]. constructor; assumption.
    + intro H. inversion H; subst. auto.
Qed.

Lemma validateExpense_Return (e : FixedExpense.t) :
  validateExpense e = Return tt <-> ObligationOk e.
Proof.
  unfold validateExpense, ObligationOk.
  rewrite bind_unit_Return, !throwIf_Return, amount_check, dueDay_check.
  reflexivity.
Qed.

Lemma validateIncome_Return (e : IncomeEvent.t) :
  validateIncome e = Return tt <-> IncomeOk e.
Proof.
  unfold validateIncome, IncomeOk.
  rewrite bind_unit_Return, !throwIf_Return, amount_check, isInvalid_false.
  reflexivity.
Qed.

Lemma balance_check (x : number) :
  negb (isFinite x) = false /\ (x <? ofZ (-1000000))%js = false /\
  (x >? ofZ 100000000)%js = false <->
  FiniteWithin (-1000000) 100000000 x.
Proof.
  unfold FiniteWithin, JS.gt.
  destruct x as [| | |q]; simpl;
    try (split; [intros (H & _); discriminate | intros (q & H & _); discriminate]);
    try (split; [intros (_ & H & _); discriminate | intros (q & H & _); discriminate]);
    try (split; [intros (_ & _ & H); discriminate | intros (q & H & _); discriminate]).
  rewrite !Qltb_false. split.
  - intros (_ & H1 & H2). exists q. auto.
  - intros (q' & E & H1 & H2). injection E as <-. auto.
Qed.

Lemma spend_check (x : number) :
  negb (isFinite x) = false /\ (x <? ofZ 0)%js = false /\
  (x >? ofZ 100000)%js = false <->
  FiniteWithin 0 100000 x.
Proof.
  unfold FiniteWithin, JS.gt.
  destruct x as [| | |q]; simpl;
    try (split; [intros (H & _); discriminate | intros (q & H & _); discriminate]);
    try (split; [intros (_ & H & _); discriminate | intros (q & H & _); discriminate]);
    try (split; [intros (_ & _ & H); discriminate | intros (q & H & _); discriminate]).
  rewrite !Qltb_false. split.
  - intros (_ & H1 & H2). exists q. auto.
  - intros (q' & E & H1 & H2). injection E as <-. auto.
Qed.

Lemma Forall_pointwise_iff {A : Type} (P R : A -> Prop) (xs : list A) :
  (forall x, P x <-> R x) -> (Forall P xs <-> Forall R xs).
Proof.
  intro H. split; apply Forall_impl; intros x Hx; apply H; exact Hx.
Qed.

(** Validation passes exactly on the inputs that meet every precondition. *)
Lemma validate_Return (p : Params) : validate p = Return tt <-> Valid p.
Proof.
  unfold validate, Valid.
  rewrite !bind_unit_Return, !throwIf_Return, !forOf_Return.
  rewrite <- balance_check, <- spend_check, isInvalid_false.
  rewrite (Forall_pointwise_iff _ _ _ validateExpense_Return).
  rewrite (Forall_pointwise_iff _ _ _ validateIncome_Return).
  tauto.
Qed.

Lemma bind_Throw {A B : Type} (m : Outcome A) (k : A -> Outcome B) (e : Error) :
  bind m k = Throw e -> m = Throw e \/ exists a, m = Return a /\ k a = Throw e.
Proof.
  destruct m as [a|e']; simpl; intro H.
  - right. exists a. auto.
  - left. congruence.
Qed.

Lemma throwIf_Throw (c : bool) (e' e : Error) : throwIf c e' = Throw e -> e = e'.
Proof. destruct c; simpl; congruence. Qed.

Lemma forOf_Throw {A : Type} (body : A -> Outcome unit) (xs : list A) (e : Error) :
  forOf body xs = Throw e -> exists x, In x xs /\ body x = Throw e.
Proof.
  induction xs as [|x xs IH]; simpl; intro H.
  - discriminate.
  - apply bind_Throw in H. destruct H as [H | (_ & _ & H)].
    + exists x. auto.
    + destruct (IH H) as (y & Hy & Hb). exists y. auto.
Qed.

(** Validation never raises anything but its own input errors. *)
Lemma validate_Throw (p : Params) (e : Error) :
  validate p = Throw e -> isInvalidInput e = true.
Proof.
  unfold validate. intro H.
  repeat (apply bind_Throw in H;
          destruct H as [H | (_ & _ & H)];
          [try (apply throwIf_Throw in H; subst e; reflexivity) | ]).
  - apply forOf_Throw in H. destruct H as (x & _ & H).
    unfold validateExpense in H. apply bind_Throw in H.
    destruct H as [H | (_ & _ & H)]; apply throwIf_Throw in H; subst e; reflexivity.
  - apply forOf_Throw in H. destruct H as (x & _ & H).
    unfold validateIncome in H. apply bind_Throw in H.
    destruct H as [H | (_ & _ & H)]; apply throwIf_Throw in H; subst e; reflexivity.
Qed.

End Preconditions.

(** ** Dates within the range *)

Section Dates.

Lemma addDays_in_range (t n : Z) :
  - maxTime <= t + n * msPerDay <= maxTime ->
  addDays (DateOf t) n = DateOf (t + n * msPerDay).
Proof.
  intro H. unfold addDays, TimeClip.
  destruct (Z.eqb_spec n 0) as [-> | Hn].
  - f_equal. lia.
  - replace (Z.abs (t + n * msPerDay) <=? maxTime) with true; [reflexivity|].
    symmetry. apply Z.leb_le. lia.
Qed.

Lemma addDays_0 (d : Date) : addDays d 0 = d.
Proof. destruct d as [|t]; reflexivity. Qed.

Lemma InHorizon_DateOf (t : Z) :
  InHorizon (DateOf t) <-> - maxTime <= t /\ t + 366 * msPerDay <= maxTime.
Proof.
  unfold InHorizon. split.
  - intros (t' & E & H). injection E as <-. exact H.
  - intro H. exists t. split; [reflexivity | exact H].
Qed.

Lemma inHorizon_true (d : Date) : inHorizon d = true -> InHorizon d.
Proof.
  destruct d as [|t]; simpl; [discriminate|].
  rewrite andb_true_iff, !Z.leb_le. apply InHorizon_DateOf.
Qed.

Lemma InHorizon_ValidDate (d : Date) : InHorizon d -> ValidDate d.
Proof. intros (t & E & _). exists t. exact E. Qed.

(** Within the horizon, [addDays] is the addition of whole days. *)
Lemma InHorizon_addDays (t k : Z) :
  InHorizon (DateOf t) -> 0 <= k <= 366 ->
  addDays (DateOf t) k = DateOf (t + k * msPerDay).
Proof.
  intros H Hk. apply InHorizon_DateOf in H. apply addDays_in_range.
  unfold msPerDay, maxTime in *. lia.
Qed.

(** One more day from a day of the horizon. *)
Lemma InHorizon_next (t : Z) (n : nat) :
  InHorizon (DateOf t) -> (n <= 365)%nat ->
  addDays (DateOf (t + Z.of_nat n * msPerDay)) 1 = DateOf (t + Z.of_nat (S n) * msPerDay).
Proof.
  intros H Hn. apply InHorizon_DateOf in H.
  rewrite addDays_in_range; [f_equal; lia|].
  unfold msPerDay, maxTime in *. lia.
Qed.

End Dates.

(** ** The simulation loop *)

Section Simulation.

Local Open Scope Q_scope.

(** One iteration of the loop. *)
Lemma simulate_unfold (p : Params) (r : nat) (st : Loop) :
  simulate p (S r) st =
  match toISOString (currentDate st) with
  | None => Throw RangeError
  | Some iso =>
      let b := dayEnd p (balance st) (currentDate st) in
      let proj := (projection st ++ [mkPoint iso (floor b)])%list in
      if (b <? ofZ 0)%js then Return (mkLoop b (currentDate st) (daysResult st) proj)
      else simulate p r (mkLoop b (addDays (currentDate st) 1) (S (daysResult st)) proj)
  end.
Proof. reflexivity. Qed.

(** One iteration of the loop on a valid date. *)
Lemma simulate_step (p : Params) (r : nat) (st : Loop) (t : Z) :
  currentDate st = DateOf t ->
  simulate p (S r) st =
  let b := dayEnd p (balance st) (currentDate st) in
  let proj := (projection st ++ [mkPoint (isoString t) (floor b)])%list in
  if (b <? ofZ 0)%js then Return (mkLoop b (currentDate st) (daysResult st) proj)
  else simulate p r (mkLoop b (addDays (currentDate st) 1) (S (daysResult st)) proj).
Proof.
  intro H. rewrite simulate_unfold, H. reflexivity.
Qed.

(** On the Invalid Date the iteration throws. *)
Lemma simulate_invalid (p : Params) (r : nat) (st : Loop) :
  currentDate st = InvalidDate -> simulate p (S r) st = Throw RangeError.
Proof.
  intro H. rewrite simulate_unfold, H. reflexivity.
Qed.

(** The recorded balance is negative exactly when the balance is. *)
Lemma floor_negative (x : number) : (floor x <? ofZ 0)%js = (x <? ofZ 0)%js.
Proof.
  destruct x as [| | |q]; try reflexivity.
  cbn [floor ofZ JS.lt].
  destruct (Qltb q (inject_Z 0)) eqn:L.
  - apply Qltb_true. apply Qltb_true in L.
    eapply Qle_lt_trans; [apply Qfloor_le | exact L].
  - apply Qltb_false. apply Qltb_false in L.
    rewrite <- Zle_Qle. change 0%Z with (Qfloor (inject_Z 0)).
    apply Qfloor_resp_le. exact L.
Qed.

(** What a run of the loop that returns has done: it counted between 0 and
    [remaining] further days and recorded one point per counted day, none of
    them negative, plus a negative one for the day that broke it. *)
Lemma simulate_shape (p : Params) (r : nat) :
  forall st s, simulate p r st = Return s ->
  exists added,
    projection s = (projection st ++ added)%list /\
    (daysResult st <= daysResult s <= daysResult st + r)%nat /\
    List.length added =
      (daysResult s - daysResult st +
       (if (daysResult s <? daysResult st + r)%nat then 1 else 0))%nat /\
    forall k pt, nth_error added k = Some pt ->
      ((pointBalance pt <? ofZ 0)%js = true <-> k = (daysResult s - daysResult st)%nat).
Proof.
  induction r as [|r IH]; intros st s E.
  - simpl in E. injection E as <-. exists []. rewrite app_nil_r.
    split; [reflexivity|]. split; [lia|]. split.
    + rewrite Nat.sub_diag, Nat.add_0_r, Nat.ltb_irrefl. reflexivity.
    + intros [|k] pt H; discriminate.
  - rewrite simulate_unfold in E.
    destruct (toISOString (currentDate st)) as [iso|]; [|discriminate].
    cbv zeta in E.
    destruct (dayEnd p (balance st) (currentDate st) <? ofZ 0)%js eqn:L.
    + injection E as <-. cbn [projection daysResult].
      eexists. split; [reflexivity|]. split; [lia|]. split.
      * rewrite Nat.sub_diag.
        replace (daysResult st <? daysResult st + S r)%nat with true
          by (symmetry; apply Nat.ltb_lt; lia).
        reflexivity.
      * rewrite Nat.sub_diag. intros [|k] pt H.
        -- injection H as <-. cbn [pointBalance]. rewrite floor_negative, L. tauto.
        -- destruct k; discriminate.
    + destruct (IH _ _ E) as (added & Hp & B & Hl & Hk).
      cbn [projection daysResult] in Hp, B, Hl, Hk.
      eexists (_ :: added). split; [rewrite Hp, <- app_assoc; reflexivity|].
      split; [lia|]. split.
      * cbn [List.length]. rewrite Hl.
        replace (daysResult st + S r)%nat with (S (daysResult st) + r)%nat by lia.
        destruct (daysResult s <? S (daysResult st) + r)%nat; lia.
      * intros [|k] pt H.
        -- injection H as <-. cbn [pointBalance]. rewrite floor_negative, L.
           split; [discriminate | lia].
        -- cbn [nth_error] in H. rewrite (Hk k pt H). lia.
Qed.

Lemma AtDay_start (p : Params) :
  AtDay p 0 (mkLoop (currentBalance p) (startDate p) 0 []).
Proof.
  repeat split; simpl. symmetry. apply addDays_0.
Qed.

(** What [calculateRunway] returns once validation has passed. *)
Lemma calculateRunway_valid (p : Params) :
  Valid p ->
  calculateRunway p =
  if (currentBalance p <? ofZ 0)%js then
    Return (mkResult 0 (startDate p) (ofZ 0) critical [])
  else
    st <- simulate p maxDays (mkLoop (currentBalance p) (startDate p) 0 []) ;;
    Return (mkResult (daysResult st) (currentDate st)
              (calculateSafeSpendForTarget 30 p) (statusOf (daysResult st))
              (projection st)).
Proof.
  intro H. apply validate_Return in H.
  unfold calculateRunway. rewrite H. reflexivity.
Qed.

(** What is known of a result that [calculateRunway] returned. *)
Lemma calculateRunway_Return (p : Params) (r : RunwayResult) :
  calculateRunway p = Return r ->
  Valid p /\
  (((currentBalance p <? ofZ 0)%js = true /\
    r = mkResult 0 (startDate p) (ofZ 0) critical []) \/
   ((currentBalance p <? ofZ 0)%js = false /\
    exists st,
      simulate p maxDays (mkLoop (currentBalance p) (startDate p) 0 []) = Return st /\
      r = mkResult (daysResult st) (currentDate st)
            (calculateSafeSpendForTarget 30 p) (statusOf (daysResult st))
            (projection st))).
Proof.
  intro H.
  destruct (validate p) as [[]|e] eqn:V.
  - apply validate_Return in V. split; [exact V|].
    rewrite (calculateRunway_valid p V) in H.
    destruct (currentBalance p <? ofZ 0)%js.
    + left. split; [reflexivity|]. congruence.
    + right. split; [reflexivity|].
      apply bind_Return in H. destruct H as (st & E & H).
      exists st. split; [exact E|]. congruence.
  - unfold calculateRunway in H. rewrite V in H. discriminate.
Qed.

(** The shape of every result: the bound, the status, and, when days were
    simulated, the length of the projection and the place of its only
    negative balance. *)
Lemma calculateRunway_shape (p : Params) (r : RunwayResult) :
  calculateRunway p = Return r ->
  (daysRemaining r <= 365)%nat /\
  status r = statusOf (daysRemaining r) /\
  ((currentBalance p <? ofZ 0)%js = false ->
   List.length (projectedBalance r) = recordedDays (daysRemaining r) /\
   forall k pt, nth_error (projectedBalance r) k = Some pt ->
     ((pointBalance pt <? ofZ 0)%js = true <-> k = daysRemaining r)).
Proof.
  intro H. destruct (calculateRunway_Return p r H) as (_ & [(L & ->) | (L & st & E & ->)]).
  - cbn [daysRemaining status projectedBalance]. split; [lia|]. split; [reflexivity|].
    intro L'. congruence.
  - cbn [daysRemaining status projectedBalance].
    destruct (simulate_shape p maxDays _ _ E) as (added & Hp & B & Hl & Hk).
    cbn [projection daysResult app] in Hp, B, Hl, Hk. unfold maxDays in B, Hl.
    rewrite Nat.sub_0_r, Nat.add_0_l in Hl.
    split; [lia|]. split; [reflexivity|]. intros _. rewrite Hp. split.
    + exact Hl.
    + intros k pt Hn. rewrite (Hk k pt Hn). lia.
Qed.

End Simulation.

(** ** Finite data keeps the balance finite *)

Section Finiteness.

Local Open Scope Q_scope.

Lemma Forall_filter {A : Type} (P : A -> Prop) (f : A -> bool) (xs : list A) :
  Forall P xs -> Forall P (filter f xs).
Proof.
  rewrite !Forall_forall. intros H x Hx. apply filter_In in Hx. apply H, Hx.
Qed.

Lemma fold_amounts_Fin {A : Type} (amount : A -> number) (xs : list A) :
  Forall (fun e => FinitePositive (amount e)) xs ->
  forall acc, 0 <= acc ->
  exists q, fold_left (fun sum e => (sum + amount e)%js) xs (Fin acc) = Fin q /\ 0 <= q.
Proof.
  induction 1 as [|x xs (a & Ha & Hpos) _ IH]; intros acc Hacc; simpl.
  - exists acc. auto.
  - rewrite Ha. simpl. apply IH. lra.
Qed.

(** A sum of finite positive amounts is a finite, non-negative number. *)
Lemma sumBy_Fin {A : Type} (amount : A -> number) (xs : list A) :
  Forall (fun e => FinitePositive (amount e)) xs ->
  exists q, sumBy amount xs = Fin q /\ 0 <= q.
Proof.
  intro H. apply (fold_amounts_Fin amount xs H). unfold inject_Z. lra.
Qed.

Lemma incomes_finite (p : Params) :
  Valid p -> Forall (fun e => FinitePositive (IncomeEvent.amount e)) (incomeEvents p).
Proof.
  intros (_ & _ & _ & _ & H). eapply Forall_impl; [|exact H].
  intros e [He _]. exact He.
Qed.

Lemma expenses_finite (p : Params) :
  Valid p -> Forall (fun e => FinitePositive (FixedExpense.amount e)) (fixedExpenses p).
Proof.
  intros (_ & _ & _ & H & _). eapply Forall_impl; [|exact H].
  intros e [He _]. exact He.
Qed.

Lemma todaysIncome_Fin (p : Params) (d : Date) :
  Valid p -> exists q, todaysIncome (incomeEvents p) d = Fin q /\ 0 <= q.
Proof.
  intro H. apply sumBy_Fin, Forall_filter, incomes_finite, H.
Qed.

Lemma todaysFixedExpenses_Fin (p : Params) (dom : number) :
  Valid p -> exists q, todaysFixedExpenses (fixedExpenses p) dom = Fin q /\ 0 <= q.
Proof.
  intro H. apply sumBy_Fin, Forall_filter, expenses_finite, H.
Qed.

(** On valid data a day moves a finite balance by an amount that does not
    depend on the balance. *)
Lemma dayEnd_Fin (p : Params) (d : Date) :
  Valid p ->
  exists delta, forall b, exists q, dayEnd p (Fin b) d = Fin q /\ q == b + delta.
Proof.
  intro H.
  destruct (todaysIncome_Fin p d H) as (i & Hi & _).
  destruct (todaysFixedExpenses_Fin p (getDate d) H) as (f & Hf & _).
  destruct H as (_ & (s & Hs & _) & _).
  exists (i - f - s). intro b. exists (b + i - f - s).
  unfold dayEnd. rewrite Hi, Hf, Hs. simpl. split; [reflexivity | ring].
Qed.

Lemma balanceAfter_Fin (p : Params) (n : nat) :
  Valid p -> exists q, balanceAfter p n = Fin q.
Proof.
  intro H. induction n as [|n (q & IH)]; simpl.
  - destruct H as ((q & Hq & _) & _). eauto.
  - rewrite IH. destruct (dayEnd_Fin p (addDays (startDate p) (Z.of_nat n)) H) as (dl & Hd).
    destruct (Hd q) as (q' & E & _). eauto.
Qed.

Lemma lt0_true (q : Q) : (Fin q <? ofZ 0)%js = true <-> q < 0.
Proof. simpl. apply Qltb_true. Qed.

Lemma lt0_false (q : Q) : (Fin q <? ofZ 0)%js = false <-> 0 <= q.
Proof. simpl. apply Qltb_false. Qed.

Lemma Valid_balance (p : Params) : Valid p -> exists q, currentBalance p = Fin q.
Proof. intros ((q & Hq & _) & _). eauto. Qed.

(** The loop reads the parameters only for the income events, the fixed
    expenses and the daily spend. *)
Lemma simulate_setBalance (p : Params) (x : number) (r : nat) :
  forall st, simulate (setBalance p x) r st = simulate p r st.
Proof.
  induction r as [|r IH]; intro st; simpl; [reflexivity|].
  destruct (toISOString (currentDate st)); [|reflexivity].
  rewrite IH. reflexivity.
Qed.

End Finiteness.

(** ** The run of the loop within the horizon *)

Section Run.

Local Open Scope Q_scope.

(** The whole run of the loop from the state before day [n]: it returns,
    and which days are survived, where it stops and what it records are read
    off the day-by-day balance. *)
Lemma simulate_run (p : Params) (t : Z) :
  startDate p = DateOf t -> InHorizon (DateOf t) ->
  forall r n st, AtDay p n st -> (n + r <= 365)%nat ->
  exists st',
    simulate p r st = Return st' /\
    (n <= daysResult st' <= n + r)%nat /\
    (forall k, (n < k <= daysResult st')%nat -> (balanceAfter p k <? ofZ 0)%js = false) /\
    ((daysResult st' < n + r)%nat ->
     (balanceAfter p (S (daysResult st')) <? ofZ 0)%js = true) /\
    projection st' =
      (projection st ++
       map (dayPoint p t)
         (List.seq n (daysResult st' - n +
                      (if (daysResult st' <? n + r)%nat then 1 else 0))))%list /\
    currentDate st' = addDays (startDate p) (Z.of_nat (daysResult st')).
Proof.
  intros Ht Hh r. induction r as [|r IH]; intros n st (Hb & Hd & Hn) Hr.
  - exists st. simpl. rewrite Hn, Nat.sub_diag, Nat.add_0_r, Nat.ltb_irrefl. simpl.
    rewrite app_nil_r.
    split; [reflexivity|]. split; [lia|]. split; [intros k Hk; lia|].
    split; [intros Hk; lia|]. split; [reflexivity | exact Hd].
  - assert (Hc : currentDate st = DateOf (t + Z.of_nat n * msPerDay)).
    { rewrite Hd, Ht. apply InHorizon_addDays; [exact Hh | lia]. }
    rewrite (simulate_step p r st _ Hc). cbv zeta.
    assert (Hday : dayEnd p (balance st) (currentDate st) = balanceAfter p (S n)).
    { simpl. rewrite Hb, Hd. reflexivity. }
    rewrite Hday.
    destruct (balanceAfter p (S n) <? ofZ 0)%js eqn:L.
    + eexists. split; [reflexivity|]. cbn [daysResult projection currentDate].
      rewrite Hn, Nat.sub_diag.
      replace (n <? n + S r)%nat with true by (symmetry; apply Nat.ltb_lt; lia).
      split; [lia|]. split; [intros k Hk; lia|]. split; [intros _; exact L|].
      split; [reflexivity | exact Hd].
    + match goal with |- context [simulate p r ?s] =>
        destruct (IH (S n) s) as (st' & E & B & Hs & Hf & Hp & Hcd) end.
      { repeat split; cbn [balance currentDate daysResult].
        - rewrite Hc, Ht, (InHorizon_next t n Hh) by lia.
          symmetry. apply InHorizon_addDays; [exact Hh | lia].
        - congruence. }
      { lia. }
      cbn [projection] in Hp.
      exists st'. split; [exact E|]. split; [lia|]. split; [|split; [|split]].
      * intros k Hk. destruct (Nat.eq_dec k (S n)) as [-> | Hne]; [exact L|].
        apply Hs. lia.
      * intro Hlt. apply Hf. lia.
      * rewrite Hp, <- app_assoc. f_equal.
        replace (n + S r)%nat with (S n + r)%nat by lia.
        replace (daysResult st' - n + (if (daysResult st' <? S n + r)%nat then 1 else 0))%nat
          with (S (daysResult st' - S n +
                   (if (daysResult st' <? S n + r)%nat then 1 else 0)))%nat by lia.
        reflexivity.
      * exact Hcd.
Qed.

(** The same at the level of [calculateRunway], for a valid input with a
    non-negative balance. *)
Lemma calculateRunway_run (p : Params) (q : Q) (t : Z) :
  Valid p -> currentBalance p = Fin q -> 0 <= q ->
  startDate p = DateOf t -> InHorizon (DateOf t) ->
  exists r,
    calculateRunway p = Return r /\
    (daysRemaining r <= 365)%nat /\
    (forall k, (k <= daysRemaining r)%nat -> (balanceAfter p k <? ofZ 0)%js = false) /\
    ((daysRemaining r < 365)%nat ->
     (balanceAfter p (S (daysRemaining r)) <? ofZ 0)%js = true) /\
    projectedBalance r = map (dayPoint p t) (List.seq 0 (recordedDays (daysRemaining r))) /\
    brokeDate r = addDays (startDate p) (Z.of_nat (daysRemaining r)) /\
    status r = statusOf (daysRemaining r) /\
    safeDailySpend r = calculateSafeSpendForTarget 30 p.
Proof.
  intros Hp Hq Hpos Ht Hh.
  destruct (simulate_run p t Ht Hh maxDays 0 _ (AtDay_start p))
    as (st & E & B & Hs & Hf & Hpr & Hcd).
  { unfold maxDays. lia. }
  eexists. split.
  { rewrite (calculateRunway_valid p Hp), Hq.
    replace (Fin q <? ofZ 0)%js with false by (symmetry; apply lt0_false; exact Hpos).
    rewrite <- Hq, E. reflexivity. }
  cbn [daysRemaining projectedBalance brokeDate status safeDailySpend].
  cbn [projection app] in Hpr. unfold maxDays in B, Hf, Hpr.
  rewrite Nat.add_0_l in B, Hf, Hpr. rewrite Nat.sub_0_r in Hpr.
  unfold recordedDays.
  split; [lia|]. split; [|split; [exact Hf|]].
  - intros k Hk. destruct k as [|k].
    + simpl. rewrite Hq. apply lt0_false. exact Hpos.
    + apply Hs. lia.
  - split; [exact Hpr|]. split; [exact Hcd|]. split; reflexivity.
Qed.

(** The short-circuit taken on a negative balance. *)
Lemma calculateRunway_negative (p : Params) (q : Q) :
  Valid p -> currentBalance p = Fin q -> q < 0 ->
  calculateRunway p = Return (mkResult 0 (startDate p) (ofZ 0) critical []).
Proof.
  intros Hp Hq Hneg.
  rewrite (calculateRunway_valid p Hp), Hq.
  replace (Fin q <? ofZ 0)%js with true by (symmetry; apply lt0_true; exact Hneg).
  reflexivity.
Qed.

(** Every valid input whose start date leaves room for the horizon yields a
    result. *)
Lemma calculateRunway_returns (p : Params) :
  Valid p -> InHorizon (startDate p) -> exists r, calculateRunway p = Return r.
Proof.
  intros Hp Hh. destruct (Valid_balance p Hp) as (q & Hq).
  destruct (Qlt_le_dec q 0) as [Hneg | Hpos].
  - eexists. apply (calculateRunway_negative p q Hp Hq Hneg).
  - assert (Hh' := Hh). destruct Hh' as (t & Ht & _). rewrite Ht in Hh.
    destruct (calculateRunway_run p q t Hp Hq Hpos Ht Hh) as (r & E & _).
    exists r. exact E.
Qed.

Lemma statusOf_bands (d : nat) :
  ((d < 7)%nat -> statusOf d = critical) /\
  ((7 <= d < 30)%nat -> statusOf d = warning) /\
  ((30 <= d)%nat -> statusOf d = good).
Proof.
  unfold statusOf.
  destruct (Nat.ltb_spec d 7); destruct (Nat.ltb_spec d 30);
    repeat split; intros; try reflexivity; lia.
Qed.

(** Survival of a prefix of days whose balances are not negative. *)
Lemma calculateRunway_prefix (p : Params) (m : nat) :
  Valid p -> InHorizon (startDate p) -> (m <= 365)%nat ->
  (forall k q, (k <= m)%nat -> balanceAfter p k = Fin q -> 0 <= q) ->
  exists r,
    calculateRunway p = Return r /\ (m <= daysRemaining r <= 365)%nat.
Proof.
  intros Hp Hh Hm H.
  destruct (Valid_balance p Hp) as (q & Hq).
  assert (Hpos : 0 <= q) by (apply (H 0%nat q); [lia | exact Hq]).
  assert (Hh' := Hh). destruct Hh' as (t & Ht & _). rewrite Ht in Hh.
  destruct (calculateRunway_run p q t Hp Hq Hpos Ht Hh) as (r & E & B & _ & Hf & _).
  exists r. split; [exact E|]. split; [|exact B].
  destruct (Nat.le_gt_cases m (daysRemaining r)) as [L | L]; [exact L|].
  exfalso. assert (Hn := Hf ltac:(lia)).
  destruct (balanceAfter_Fin p (S (daysRemaining r)) Hp) as (x & Hx).
  rewrite Hx in Hn. apply lt0_true in Hn.
  assert (0 <= x) by (apply (H (S (daysRemaining r)) x); [lia | exact Hx]). lra.
Qed.

(** A bounded "never negative" hypothesis can be checked by evaluation. *)
Lemma never_negative_by_evaluation (p : Params) (n : nat) :
  forallb (fun k => negb (balanceAfter p k <? ofZ 0)%js) (List.seq 0 (S n)) = true ->
  forall k q, (k <= n)%nat -> balanceAfter p k = Fin q -> 0 <= q.
Proof.
  intros H k q Hk Hq. rewrite forallb_forall in H.
  assert (Hin : In k (List.seq 0 (S n))) by (apply in_seq; lia).
  apply H in Hin. rewrite Hq in Hin. apply negb_true_iff in Hin.
  apply lt0_false. exact Hin.
Qed.

End Run.

(** ** Two runs, one no worse than the other *)

Section Dominance.

Local Open Scope Q_scope.

(** If every day is no worse under [p2], a run of the loop under [p2] from a
    balance that is not smaller counts no fewer days, whenever both runs
    return. *)
Lemma simulate_dominated (p1 p2 : Params) :
  Valid p1 -> Valid p2 -> NoWorseDay p1 p2 ->
  forall r st1 st2 a b,
    balance st1 = Fin a -> balance st2 = Fin b -> a <= b ->
    currentDate st1 = currentDate st2 ->
    daysResult st1 = daysResult st2 ->
    forall s1 s2,
      simulate p1 r st1 = Return s1 -> simulate p2 r st2 = Return s2 ->
      (daysResult s1 <= daysResult s2)%nat.
Proof.
  intros H1 H2 Hw r. induction r as [|r IH]; intros st1 st2 a b Ha Hb Hab Hd Hn s1 s2 E1 E2.
  - simpl in E1, E2. injection E1 as <-. injection E2 as <-. lia.
  - rewrite simulate_unfold in E1, E2. rewrite <- Hd in E2.
    destruct (toISOString (currentDate st1)) as [iso|]; [|discriminate].
    cbv zeta in E1, E2. rewrite Ha in E1. rewrite Hb in E2.
    destruct (dayEnd_Fin p1 (currentDate st1) H1) as (d1 & Hd1).
    destruct (dayEnd_Fin p2 (currentDate st1) H2) as (d2 & Hd2).
    destruct (Hd1 a) as (a' & Ea & _). destruct (Hd2 b) as (b' & Eb & _).
    assert (Hab' : a' <= b') by (apply (Hw (currentDate st1) a b a' b' Hab Ea Eb)).
    rewrite Ea in E1. rewrite Eb in E2.
    destruct (Fin a' <? ofZ 0)%js eqn:La.
    + injection E1 as <-. cbn [daysResult].
      destruct (Fin b' <? ofZ 0)%js eqn:Lb.
      * injection E2 as <-. cbn [daysResult]. lia.
      * destruct (simulate_shape p2 r _ _ E2) as (_ & _ & B & _).
        cbn [daysResult] in B. lia.
    + assert (Lb : (Fin b' <? ofZ 0)%js = false).
      { apply lt0_false. apply lt0_false in La. lra. }
      rewrite Lb in E2.
      refine (IH _ _ a' b' _ _ Hab' _ _ s1 s2 E1 E2).
      * reflexivity.
      * reflexivity.
      * reflexivity.
      * cbn [daysResult]. congruence.
Qed.

(** The same at the level of [calculateRunway]. *)
Lemma runway_dominated (p1 p2 : Params) (b1 b2 : Q) :
  Valid p1 -> Valid p2 -> NoWorseDay p1 p2 ->
  startDate p1 = startDate p2 ->
  currentBalance p1 = Fin b1 -> currentBalance p2 = Fin b2 -> b1 <= b2 ->
  forall r1 r2,
    calculateRunway p1 = Return r1 -> calculateRunway p2 = Return r2 ->
    (daysRemaining r1 <= daysRemaining r2)%nat.
Proof.
  intros H1 H2 Hw Hs Hb1 Hb2 Hle r1 r2 E1 E2.
  destruct (calculateRunway_Return p1 r1 E1) as (_ & [(L1 & ->) | (L1 & s1 & S1 & ->)]).
  - cbn [daysRemaining]. lia.
  - destruct (calculateRunway_Return p2 r2 E2) as (_ & [(L2 & ->) | (L2 & s2 & S2 & ->)]).
    + exfalso. rewrite Hb1 in L1. rewrite Hb2 in L2.
      apply lt0_false in L1. apply lt0_true in L2. lra.
    + cbn [daysRemaining].
      refine (simulate_dominated p1 p2 H1 H2 Hw maxDays _ _ b1 b2 _ _ Hle _ _ s1 s2 S1 S2);
        cbn [balance currentDate daysResult]; try assumption; reflexivity.
Qed.

Lemma Qsum_app (xs ys : list Q) : Qsum (xs ++ ys) == Qsum xs + Qsum ys.
Proof.
  induction xs as [|x xs IH]; simpl.
  - ring.
  - rewrite IH. ring.
Qed.

Lemma Qsum_nonneg (xs : list Q) : Forall (fun x => 0 <= x) xs -> 0 <= Qsum xs.
Proof.
  induction 1 as [|x xs Hx _ IH]; simpl; lra.
Qed.

(** Keeping fewer of the entries of a list of non-negative amounts does not
    raise the sum. *)
Lemma Qsum_filter_le {A : Type} (a : A -> Q) (g k : A -> bool) (xs : list A) :
  Forall (fun e => 0 <= a e) xs ->
  (forall e, In e xs -> k e = true -> g e = true) ->
  Qsum (map a (filter k xs)) <= Qsum (map a (filter g xs)).
Proof.
  induction 1 as [|x xs Hx _ IH]; intro Hsub; simpl.
  - lra.
  - assert (IH' := IH (fun e He => Hsub e (or_intror He))).
    destruct (k x) eqn:Kx.
    + rewrite (Hsub x (or_introl eq_refl) Kx). simpl. lra.
    + destruct (g x); simpl; lra.
Qed.

Lemma amounts_nonneg {A : Type} (amount : A -> number) (xs : list A) :
  Forall (fun e => FinitePositive (amount e)) xs ->
  Forall (fun e => 0 <= toQ (amount e)) xs.
Proof.
  apply Forall_impl. intros e (q & -> & Hq). simpl. lra.
Qed.

Lemma fold_amounts_Qsum {A : Type} (amount : A -> number) (xs : list A) :
  Forall (fun e => FinitePositive (amount e)) xs ->
  forall acc,
  exists q, fold_left (fun sum e => (sum + amount e)%js) xs (Fin acc) = Fin q /\
            q == acc + Qsum (map (fun e => toQ (amount e)) xs).
Proof.
  induction 1 as [|x xs (a & Ha & _) _ IH]; intro acc; simpl.
  - exists acc. split; [reflexivity | ring].
  - rewrite Ha. simpl. destruct (IH (acc + a)) as (q & E & Hq).
    exists q. split; [exact E|]. rewrite Hq. ring.
Qed.

Lemma sumBy_Qsum {A : Type} (amount : A -> number) (xs : list A) :
  Forall (fun e => FinitePositive (amount e)) xs ->
  exists q, sumBy amount xs = Fin q /\ q == Qsum (map (fun e => toQ (amount e)) xs).
Proof.
  intro H. destruct (fold_amounts_Qsum amount xs H (inject_Z 0)) as (q & E & Hq).
  exists q. split; [exact E|]. rewrite Hq. unfold inject_Z. ring.
Qed.

(** The three parts of a day on valid data. *)
Lemma dayEnd_parts (p : Params) (d : Date) :
  Valid p ->
  exists i f s,
    i == Qsum (map (fun e => toQ (IncomeEvent.amount e))
                 (filter (fun e => isSameDay (IncomeEvent.date e) d) (incomeEvents p))) /\
    f == Qsum (map (fun e => toQ (FixedExpense.amount e))
                 (filter (fun e => (FixedExpense.dueDay e === getDate d)%js) (fixedExpenses p))) /\
    dailyVariableSpend p = Fin s /\
    forall b, dayEnd p (Fin b) d = Fin (b + i - f - s).
Proof.
  intro Hp.
  destruct (sumBy_Qsum IncomeEvent.amount
              (filter (fun e => isSameDay (IncomeEvent.date e) d) (incomeEvents p)))
    as (i & Ei & Hi).
  { apply Forall_filter, incomes_finite, Hp. }
  destruct (sumBy_Qsum FixedExpense.amount
              (filter (fun e => (FixedExpense.dueDay e === getDate d)%js) (fixedExpenses p)))
    as (f & Ef & Hf).
  { apply Forall_filter, expenses_finite, Hp. }
  destruct Hp as (_ & (s & Hs & _) & _).
  exists i, f, s. split; [exact Hi|]. split; [exact Hf|]. split; [exact Hs|].
  intro b. unfold dayEnd, todaysIncome, todaysFixedExpenses.
  rewrite Ei, Ef, Hs. reflexivity.
Qed.

(** A day is no worse when it brings no less income, no more fixed expenses
    and no more spend. *)
Lemma NoWorseDay_by_parts (p1 p2 : Params) :
  Valid p1 -> Valid p2 ->
  (forall d,
     Qsum (map (fun e => toQ (IncomeEvent.amount e))
             (filter (fun e => isSameDay (IncomeEvent.date e) d) (incomeEvents p1))) <=
     Qsum (map (fun e => toQ (IncomeEvent.amount e))
             (filter (fun e => isSameDay (IncomeEvent.date e) d) (incomeEvents p2)))) ->
  (forall d,
     Qsum (map (fun e => toQ (FixedExpense.amount e))
             (filter (fun e => (FixedExpense.dueDay e === getDate d)%js) (fixedExpenses p2))) <=
     Qsum (map (fun e => toQ (FixedExpense.amount e))
             (filter (fun e => (FixedExpense.dueDay e === getDate d)%js) (fixedExpenses p1)))) ->
  toQ (dailyVariableSpend p2) <= toQ (dailyVariableSpend p1) ->
  NoWorseDay p1 p2.
Proof.
  intros H1 H2 Hi Hf Hs d b1 b2 q1 q2 Hb E1 E2.
  destruct (dayEnd_parts p1 d H1) as (i1 & f1 & s1 & Hi1 & Hf1 & Hs1 & D1).
  destruct (dayEnd_parts p2 d H2) as (i2 & f2 & s2 & Hi2 & Hf2 & Hs2 & D2).
  rewrite D1 in E1. rewrite D2 in E2. injection E1 as <-. injection E2 as <-.
  rewrite Hs1, Hs2 in Hs. simpl in Hs.
  specialize (Hi d). specialize (Hf d).
  rewrite <- Hi1, <- Hi2 in Hi. rewrite <- Hf1, <- Hf2 in Hf. lra.
Qed.

Lemma Qsum_filter_removed {A : Type} (a : A -> Q) (g keep : A -> bool) (xs : list A) :
  Forall (fun e => 0 <= a e) xs ->
  Qsum (map a (filter g (filter keep xs))) <= Qsum (map a (filter g xs)).
Proof.
  induction 1 as [|x xs Hx _ IH]; simpl.
  - lra.
  - destruct (keep x); simpl; destruct (g x); simpl; lra.
Qed.

Lemma Qsum_filter_added {A : Type} (a : A -> Q) (g : A -> bool) (xs : list A) (e : A) :
  0 <= a e ->
  Qsum (map a (filter g xs)) <= Qsum (map a (filter g (xs ++ [e]))).
Proof.
  intro He. rewrite filter_app, map_app, Qsum_app. simpl.
  destruct (g e); simpl; lra.
Qed.

Lemma Valid_with_lists (p : Params) (expenses : list FixedExpense.t)
    (incomes : list IncomeEvent.t) :
  Valid p -> Forall ObligationOk expenses -> Forall IncomeOk incomes ->
  Valid (mkParams (currentBalance p) (startDate p) expenses incomes (dailyVariableSpend p)).
Proof.
  intros (Hb & Hs & Hd & _ & _) He Hi. unfold Valid. simpl. auto.
Qed.

(** A larger starting balance alone makes no day worse. *)
Lemma NoWorseDay_setBalance (p : Params) (x : number) :
  Valid p -> Valid (setBalance p x) -> NoWorseDay p (setBalance p x).
Proof.
  intros H1 H2. apply NoWorseDay_by_parts; try assumption.
  - intro d. simpl. lra.
  - intro d. simpl. lra.
  - simpl. lra.
Qed.

End Dominance.

(* ================================================================== *)
(** * The claims *)

Section Claims.

Local Open Scope Q_scope.

Ltac evaluate :=
  repeat match goal with |- _ /\ _ => split end;
  try (apply validate_Return);
  vm_compute; reflexivity.

(** C5. Negative-start short-circuit: an input that passes validation with
    [currentBalance < 0] returns [daysRemaining = 0], [safeDailySpend = 0],
    [brokeDate = startDate], [status = critical] and an empty projection; no
    day is simulated. *)
Theorem negative_start_short_circuit (p : Params) (q : Q) :
  Valid p -> currentBalance p = Fin q -> q < 0 ->
  calculateRunway p =
  Return {| daysRemaining := 0;
            brokeDate := startDate p;
            safeDailySpend := ofZ 0;
            status := critical;
            projectedBalance := [] |}.
Proof. exact (calculateRunway_negative p q). Qed.

Lemma negative_start_short_circuit_witness :
  Valid overdrawn /\
  calculateRunway overdrawn =
  Return (mkResult 0 (noon 2024 1 15) (ofZ 0) critical []).
Proof.
  assert (V : Valid overdrawn) by (apply validate_Return; reflexivity).
  split; [exact V|].
  apply (negative_start_short_circuit overdrawn (inject_Z (-50)) V).
  - reflexivity.
  - reflexivity.
Defined.

(** *** What the engine throws *)

(** The loop throws nothing but the RangeError of [toISOString]. *)
Lemma simulate_Throw (p : Params) (r : nat) :
  forall st e, simulate p r st = Throw e -> e = RangeError.
Proof.
  induction r as [|r IH]; intros st e H.
  - discriminate.
  - rewrite simulate_unfold in H.
    destruct (toISOString (currentDate st)); [|congruence].
    cbv zeta in H.
    destruct (dayEnd p (balance st) (currentDate st) <? ofZ 0)%js; [discriminate|].
    apply (IH _ _ H).
Qed.

(** On an input that meets the preconditions nothing but that RangeError is
    thrown. *)
Lemma calculateRunway_Throw_valid (p : Params) (e : Error) :
  Valid p -> calculateRunway p = Throw e -> e = RangeError.
Proof.
  intros Hp H. rewrite (calculateRunway_valid p Hp) in H.
  destruct (currentBalance p <? ofZ 0)%js; [discriminate|].
  apply bind_Throw in H. destruct H as [H | (st & _ & H)]; [|discriminate].
  apply (simulate_Throw _ _ _ _ H).
Qed.

(** C6. [calculateRunway] throws a validation error if and only if some
    precondition is violated (balance not finite or outside [-1,000,000,
    100,000,000]; daily spend not finite, negative or above 100,000; invalid
    start date; an obligation whose amount is not finite or not positive or
    whose due day is not an integer in [1, 31]; an income event whose amount
    is not finite or not positive or whose date is invalid).  On every input
    that meets the preconditions and whose start date is at least 366 days
    before the largest date it returns a result; on an input that meets the
    preconditions the only exception left is the RangeError that
    [toISOString] throws once the simulated date has passed the largest
    date. *)
Theorem invalid_input_iff (p : Params) :
  ((exists e, calculateRunway p = Throw e /\ isInvalidInput e = true) <-> ~ Valid p) /\
  (Valid p -> InHorizon (startDate p) -> exists r, calculateRunway p = Return r) /\
  (Valid p -> forall e, calculateRunway p = Throw e -> e = RangeError).
Proof.
  split; [|split].
  - destruct (validate p) as [[]|e0] eqn:V.
    + apply validate_Return in V. split.
      * intros (e & He & Hi).
        rewrite (calculateRunway_Throw_valid p e V He) in Hi. discriminate.
      * intro H. contradiction.
    + assert (NV : ~ Valid p).
      { intro H. apply validate_Return in H. congruence. }
      split; [intros _; exact NV|]. intros _. exists e0. split.
      * unfold calculateRunway. rewrite V. reflexivity.
      * apply (validate_Throw p e0 V).
  - apply calculateRunway_returns.
  - intros Hp e. apply calculateRunway_Throw_valid, Hp.
Qed.

Lemma invalid_input_iff_witness :
  exists r, calculateRunway scenarioA = Return r.
Proof.
  apply (proj1 (proj2 (invalid_input_iff scenarioA))).
  - apply validate_Return. reflexivity.
  - apply inHorizon_true. reflexivity.
Defined.

(** The input [startsOnLargestDate] meets every precondition and
    [calculateRunway] throws on it: day 0 is simulated, the next date is the
    Invalid Date, and [toISOString] throws the RangeError on the second
    iteration.  So "throws if and only if a precondition is violated" fails
    there. *)
Lemma valid_input_raises_RangeError :
  Valid startsOnLargestDate /\
  calculateRunway startsOnLargestDate = Throw RangeError /\
  ~ ((exists e, calculateRunway startsOnLargestDate = Throw e) <->
     ~ Valid startsOnLargestDate).
Proof.
  assert (V : Valid startsOnLargestDate) by (apply validate_Return; reflexivity).
  assert (T : calculateRunway startsOnLargestDate = Throw RangeError) by reflexivity.
  split; [exact V|]. split; [exact T|].
  intros [H _]. apply H; [|exact V]. exists RangeError. exact T.
Qed.

(** The rejections the specification lists, evaluated. *)
Example rejects_NaN_balance :
  calculateRunway (mkParams NaN (noon 2024 1 15) [] [] (ofZ 100)) = Throw InvalidBalance.
Proof. reflexivity. Qed.

Example rejects_Infinity_balance :
  calculateRunway (mkParams PosInf (noon 2024 1 15) [] [] (ofZ 100)) = Throw InvalidBalance.
Proof. reflexivity. Qed.

Example rejects_too_high_balance :
  calculateRunway (mkParams (ofZ 200000000) (noon 2024 1 15) [] [] (ofZ 100))
  = Throw BalanceTooHigh.
Proof. reflexivity. Qed.

Example rejects_negative_spend :
  calculateRunway (mkParams (ofZ 1000) (noon 2024 1 15) [] [] (ofZ (-100)))
  = Throw NegativeDailySpend.
Proof. reflexivity. Qed.

Example rejects_dueDay_55 :
  calculateRunway
    (mkParams (ofZ 1000) (noon 2024 1 15)
       [FixedExpense.mk "test-id" "Rent" (ofZ 500) (ofZ 55) housing] [] (ofZ 100))
  = Throw (InvalidDueDay "Rent").
Proof. reflexivity. Qed.

Example rejects_dueDay_0 :
  calculateRunway
    (mkParams (ofZ 1000) (noon 2024 1 15)
       [FixedExpense.mk "test-id" "Rent" (ofZ 500) (ofZ 0) housing] [] (ofZ 100))
  = Throw (InvalidDueDay "Rent").
Proof. reflexivity. Qed.

Example rejects_fractional_dueDay :
  calculateRunway
    (mkParams (ofZ 1000) (noon 2024 1 15)
       [FixedExpense.mk "test-id" "Rent" (ofZ 500) (Fin (3 # 2)) housing] [] (ofZ 100))
  = Throw (InvalidDueDay "Rent").
Proof. reflexivity. Qed.

(** C8. For every input that passes validation and whose start date is at
    least 366 days before the largest date, [calculateRunway] returns a
    result; its [daysRemaining] is an integer between 0 and 365, and its
    [status] is [critical] when [daysRemaining < 7], [warning] when
    [7 <= daysRemaining < 30] and [good] otherwise. *)
Theorem daysRemaining_bound_and_status (p : Params) :
  Valid p -> InHorizon (startDate p) ->
  exists r,
    calculateRunway p = Return r /\
    (0 <= daysRemaining r <= 365)%nat /\
    ((daysRemaining r < 7)%nat -> status r = critical) /\
    ((7 <= daysRemaining r < 30)%nat -> status r = warning) /\
    ((30 <= daysRemaining r)%nat -> status r = good).
Proof.
  intros Hp Hh. destruct (calculateRunway_returns p Hp Hh) as (r & E).
  destruct (calculateRunway_shape p r E) as (B & S & _).
  exists r. split; [exact E|]. split; [lia|].
  rewrite S. apply statusOf_bands.
Qed.

Lemma daysRemaining_bound_and_status_witness :
  exists r,
    calculateRunway scenarioA = Return r /\
    (0 <= daysRemaining r <= 365)%nat /\
    ((daysRemaining r < 7)%nat -> status r = critical) /\
    ((7 <= daysRemaining r < 30)%nat -> status r = warning) /\
    ((30 <= daysRemaining r)%nat -> status r = good).
Proof.
  apply (daysRemaining_bound_and_status scenarioA).
  - apply validate_Return. reflexivity.
  - apply inHorizon_true. reflexivity.
Defined.

(** The input [threeDaysBeforeLargestDate] passes validation and
    [calculateRunway] returns nothing on it: four days are simulated, the
    fifth date is the Invalid Date and [toISOString] throws. *)
Lemma no_result_three_days_before_largest_date :
  Valid threeDaysBeforeLargestDate /\
  calculateRunway threeDaysBeforeLargestDate = Throw RangeError /\
  ~ (exists r,
       calculateRunway threeDaysBeforeLargestDate = Return r /\
       (0 <= daysRemaining r <= 365)%nat).
Proof.
  assert (T : calculateRunway threeDaysBeforeLargestDate = Throw RangeError)
    by (vm_compute; reflexivity).
  split; [apply validate_Return; reflexivity|]. split; [exact T|].
  intros (r & E & _). congruence.
Qed.

(** Scenario A of the specification: 1000 at 100 a day lasts 10 days. *)
Example scenarioA_result :
  option_map (fun r => (daysRemaining r, status r)) (returned (calculateRunway scenarioA))
  = Some (10%nat, warning).
Proof. vm_compute. reflexivity. Qed.

(** *** The horizon *)






(** The input [wellFunded] is one whose balance is never negative. *)
Example wellFunded_result :
  option_map (fun r => (daysRemaining r,
                        forallb (fun pt => negb (pointBalance pt <? ofZ 0)%js)
                          (projectedBalance r)))
    (returned (calculateRunway wellFunded)) = Some (365%nat, true).
Proof. vm_compute. reflexivity. Qed.


(** *** A balance of zero *)

Lemma Day_addDays (t n : Z) : Day (t + n * msPerDay) = (Day t + n)%Z.
Proof. unfold Day. apply Z.div_add. discriminate. Qed.

Lemma scenarioB_income (t : Z) :
  InHorizon (DateOf t) ->
  incomeEvents (scenarioB t) =
  [IncomeEvent.mk "1" (ofZ 500) (DateOf (t + 1 * msPerDay)) "Mom" certain false].
Proof.
  intro Hh. unfold scenarioB. cbn [incomeEvents].
  rewrite (InHorizon_addDays t 1 Hh) by lia. reflexivity.
Qed.

Lemma scenarioB_Valid (t : Z) : InHorizon (DateOf t) -> Valid (scenarioB t).
Proof.
  intro Hh. unfold Valid. rewrite (scenarioB_income t Hh).
  unfold scenarioB; simpl. repeat split.
  - exists (inject_Z 100). unfold inject_Z. repeat split; lra.
  - exists (inject_Z 100). unfold inject_Z. repeat split; lra.
  - exists t. reflexivity.
  - constructor.
  - constructor; [|constructor]. split; simpl.
    + exists (inject_Z 500). unfold inject_Z. split; [reflexivity | lra].
    + eexists. reflexivity.
Qed.

Lemma scenarioB_day0 (t : Z) :
  InHorizon (DateOf t) ->
  balanceAfter (scenarioB t) 1 = Fin (inject_Z 100 + inject_Z 0 - inject_Z 0 - inject_Z 100).
Proof.
  intro Hh.
  unfold balanceAfter, dayEnd, todaysIncome, todaysFixedExpenses.
  rewrite (scenarioB_income t Hh).
  cbn [scenarioB fixedExpenses dailyVariableSpend currentBalance startDate
       filter IncomeEvent.date addDays isSameDay Z.of_nat Z.eqb].
  rewrite Day_addDays.
  replace (Day t + 1 =? Day t)%Z with false by (symmetry; apply Z.eqb_neq; lia).
  reflexivity.
Qed.

(** A recorded balance of zero is not negative. *)
Lemma zero_not_negative (x : number) : (x === ofZ 0)%js = true -> (x <? ofZ 0)%js = false.
Proof.
  destruct x as [| | |q]; try discriminate.
  cbn [JS.strictEq ofZ JS.lt]. intro H. apply Qeq_bool_iff in H.
  apply Qltb_false. rewrite H. apply Qle_refl.
Qed.

(** C4. Zero balance is still solvent, for start dates at least 366 days
    before the largest date: a valid input is simulated to a result in which
    every day whose recorded end-of-day balance is 0 is counted as survived
    and, unless it was the last day of the horizon, is followed by the point
    of the next day; in scenario B (balance 100, daily spend 100, no
    obligation, one income of 500 the day after the start)
    [calculateRunway] returns, with [daysRemaining >= 1]. *)
Theorem zero_balance_is_solvent :
  (forall p : Params,
     Valid p -> InHorizon (startDate p) ->
     exists r,
       calculateRunway p = Return r /\
       forall k pt,
         nth_error (projectedBalance r) k = Some pt ->
         (pointBalance pt === ofZ 0)%js = true ->
         (S k <= daysRemaining r)%nat /\
         ((S k < 365)%nat -> (S (S k) <= List.length (projectedBalance r))%nat)) /\
  (forall t : Z,
     InHorizon (DateOf t) ->
     exists r,
       calculateRunway (scenarioB t) = Return r /\ (1 <= daysRemaining r)%nat).
Proof.
  split.
  - intros p Hp Hh. destruct (calculateRunway_returns p Hp Hh) as (r & E).
    exists r. split; [exact E|]. intros k pt N Z0.
    destruct (calculateRunway_Return p r E) as (_ & [(L & Hr) | (L & _)]).
    + rewrite Hr in N. destruct k; discriminate.
    + destruct (calculateRunway_shape p r E) as (B & _ & S).
      destruct (S L) as (Hl & Hk).
      assert (Hlen : (k < List.length (projectedBalance r))%nat).
      { apply nth_error_Some. rewrite N. discriminate. }
      assert (Hne : k <> daysRemaining r).
      { intro Hkd. apply (Hk k pt N) in Hkd.
        rewrite (zero_not_negative _ Z0) in Hkd. discriminate. }
      rewrite Hl in *. unfold recordedDays in *.
      destruct (Nat.ltb_spec (daysRemaining r) 365); lia.
  - intros t Hh.
    destruct (calculateRunway_prefix (scenarioB t) 1 (scenarioB_Valid t Hh) Hh) as (r & E & B).
    + lia.
    + intros k q Hk Hq.
      assert (Hk' : k = 0%nat \/ k = 1%nat) by lia. destruct Hk' as [-> | ->].
      * simpl in Hq. injection Hq as <-. discriminate.
      * rewrite (scenarioB_day0 t Hh) in Hq. injection Hq as <-. discriminate.
    + exists r. split; [exact E | lia].
Qed.

Lemma zero_balance_is_solvent_witness :
  (exists r,
     calculateRunway (scenarioB 1705320000000) = Return r /\
     forall k pt,
       nth_error (projectedBalance r) k = Some pt ->
       (pointBalance pt === ofZ 0)%js = true ->
       (S k <= daysRemaining r)%nat /\
       ((S k < 365)%nat -> (S (S k) <= List.length (projectedBalance r))%nat)) /\
  (exists r,
     calculateRunway (scenarioB 1705320000000) = Return r /\ (1 <= daysRemaining r)%nat).
Proof.
  split.
  - apply (proj1 zero_balance_is_solvent (scenarioB 1705320000000)).
    + apply validate_Return. vm_compute. reflexivity.
    + apply inHorizon_true. vm_compute. reflexivity.
  - apply (proj2 zero_balance_is_solvent).
    apply inHorizon_true. vm_compute. reflexivity.
Defined.

(** Scenario B evaluated at a sample date: day 0 ends on a balance of 0 and
    six days are survived. *)
Example scenarioB_result :
  option_map (fun r => (daysRemaining r, option_map pointBalance (nth_error (projectedBalance r) 0)))
    (returned (calculateRunway (scenarioB 1705320000000)))
  = Some (6%nat, Some (ofZ 0)).
Proof. vm_compute. reflexivity. Qed.

(** Scenario B started one day before the largest date: the income is dated
    on the largest date, days 0 and 1 are simulated, and the third iteration
    throws. *)
Lemma scenarioB_raises_a_day_before_largest_date :
  Valid (scenarioB (maxTime - msPerDay)) /\
  calculateRunway (scenarioB (maxTime - msPerDay)) = Throw RangeError /\
  ~ (exists r,
       calculateRunway (scenarioB (maxTime - msPerDay)) = Return r /\
       (1 <= daysRemaining r)%nat).
Proof.
  assert (T : calculateRunway (scenarioB (maxTime - msPerDay)) = Throw RangeError)
    by (vm_compute; reflexivity).
  split; [apply validate_Return; vm_compute; reflexivity|]. split; [exact T|].
  intros (r & E & _). congruence.
Qed.

(** *** More money *)

(** C3. Monotonicity in the starting balance: with the start date, the
    obligations, the income events and the daily spend fixed, raising a valid
    balance by [extra >= 0] to a balance that is still valid never lowers
    [daysRemaining]: whenever both calls return, the larger balance has the
    larger or equal [daysRemaining], and both calls return when the start
    date is at least 366 days before the largest date. *)
Theorem more_money_no_less_runway (p : Params) (balanceA extra : Q) :
  currentBalance p = Fin balanceA -> 0 <= extra ->
  Valid p -> Valid (setBalance p (Fin (balanceA + extra))) ->
  (forall rA rB,
     calculateRunway p = Return rA ->
     calculateRunway (setBalance p (Fin (balanceA + extra))) = Return rB ->
     (daysRemaining rA <= daysRemaining rB)%nat) /\
  (InHorizon (startDate p) ->
   exists rA rB,
     calculateRunway p = Return rA /\
     calculateRunway (setBalance p (Fin (balanceA + extra))) = Return rB /\
     (daysRemaining rA <= daysRemaining rB)%nat).
Proof.
  intros Ha Hextra HA HB.
  assert (G : forall rA rB,
     calculateRunway p = Return rA ->
     calculateRunway (setBalance p (Fin (balanceA + extra))) = Return rB ->
     (daysRemaining rA <= daysRemaining rB)%nat).
  { apply (runway_dominated p _ balanceA (balanceA + extra) HA HB);
      [apply NoWorseDay_setBalance; assumption | reflexivity | exact Ha | reflexivity | lra]. }
  split; [exact G|]. intro Hh.
  destruct (calculateRunway_returns p HA Hh) as (rA & EA).
  destruct (calculateRunway_returns _ HB Hh) as (rB & EB).
  exists rA, rB. split; [exact EA|]. split; [exact EB|]. apply (G rA rB EA EB).
Qed.

Lemma more_money_no_less_runway_witness :
  exists rA rB,
    calculateRunway scenarioA = Return rA /\
    calculateRunway (setBalance scenarioA (Fin (inject_Z 1000 + inject_Z 250))) = Return rB /\
    (daysRemaining rA <= daysRemaining rB)%nat.
Proof.
  apply (more_money_no_less_runway scenarioA (inject_Z 1000) (inject_Z 250)).
  - reflexivity.
  - discriminate.
  - apply validate_Return. reflexivity.
  - apply validate_Return. reflexivity.
  - apply inHorizon_true. reflexivity.
Defined.

(** Scenario A with 1000 and with 1250 in hand: 10 and 12 days. *)
Example more_money_result :
  (option_map daysRemaining (returned (calculateRunway scenarioA)),
   option_map daysRemaining
     (returned (calculateRunway (setBalance scenarioA (Fin (inject_Z 1000 + inject_Z 250))))))
  = (Some 10%nat, Some 12%nat).
Proof. vm_compute. reflexivity. Qed.

(** Started on the largest date with 100 a day, a balance of 0 returns
    [daysRemaining = 0] (day 0 breaks it) and a balance of 1000 returns
    nothing: day 0 is survived and the next iteration throws. *)
Lemma more_money_raises_on_largest_date :
  Valid brokeOnLargestDate /\
  Valid (setBalance brokeOnLargestDate (Fin (0 + 1000))) /\
  option_map daysRemaining (returned (calculateRunway brokeOnLargestDate)) = Some 0%nat /\
  calculateRunway (setBalance brokeOnLargestDate (Fin (0 + 1000))) = Throw RangeError /\
  ~ (exists rA rB,
       calculateRunway brokeOnLargestDate = Return rA /\
       calculateRunway (setBalance brokeOnLargestDate (Fin (0 + 1000))) = Return rB /\
       (daysRemaining rA <= daysRemaining rB)%nat).
Proof.
  assert (T : calculateRunway (setBalance brokeOnLargestDate (Fin (0 + 1000)))
              = Throw RangeError) by (vm_compute; reflexivity).
  split; [apply validate_Return; reflexivity|].
  split; [apply validate_Return; reflexivity|].
  split; [vm_compute; reflexivity|]. split; [exact T|].
  intros (rA & rB & _ & E & _). congruence.
Qed.

(** *** Evaluations of the engine *)

(** C1. Month-end clamping.  The engine compares [dueDay] with the day of
    the month as it is, without clamping: at the valid input [rentOn31] the
    obligation due on the 31st is not debited on 28 February 2023 (nor on any
    day of that February, nor in the 30 days the safe spend looks at); the
    first debit is on 31 March. *)
Theorem dueDay_31_not_charged_in_february :
  Valid rentOn31 /\
  todaysFixedExpenses (fixedExpenses rentOn31) (getDate (noon 2023 2 28)) = ofZ 0 /\
  option_map (fun r => map pointBalance (firstn 28 (projectedBalance r)))
    (returned (calculateRunway rentOn31)) = Some (repeat (ofZ 10000) 28) /\
  option_map (fun r => nth_error (projectedBalance r) 27)
    (returned (calculateRunway rentOn31))
  = Some (Some (mkPoint "2023-02-28T12:00:00.000Z" (ofZ 10000))) /\
  option_map (fun r => nth_error (projectedBalance r) 58)
    (returned (calculateRunway rentOn31))
  = Some (Some (mkPoint "2023-03-31T12:00:00.000Z" (ofZ 9500))) /\
  option_map safeDailySpend (returned (calculateRunway rentOn31)) = Some (ofZ 333).
Proof.
  evaluate.
Qed.

(** C2. Result length.  The loop records the day on which the balance goes
    negative before it stops, and does not count it: at the valid input
    [scenarioA] (1000 in hand, 100 a day) the result has [daysRemaining = 10]
    and 11 projected balances, the last one negative. *)
Theorem projection_longer_than_daysRemaining :
  Valid scenarioA /\
  option_map (fun r => (daysRemaining r, List.length (projectedBalance r)))
    (returned (calculateRunway scenarioA)) = Some (10%nat, 11%nat) /\
  option_map (fun r => nth_error (projectedBalance r) 10)
    (returned (calculateRunway scenarioA))
  = Some (Some (mkPoint "2024-01-25T12:00:00.000Z" (ofZ (-100)))).
Proof.
  evaluate.
Qed.

(** The length of the projection in general: one entry per survived day, and
    one more whenever the horizon was not reached. *)
Lemma projection_length (p : Params) (r : RunwayResult) :
  calculateRunway p = Return r -> (currentBalance p <? ofZ 0)%js = false ->
  List.length (projectedBalance r) =
    (daysRemaining r + (if (daysRemaining r <? 365)%nat then 1 else 0))%nat.
Proof.
  intros E L. destruct (calculateRunway_shape p r E) as (_ & _ & S).
  apply (S L).
Qed.

(** C9. Safe-spend formula.  The helper selects the obligations of a day by
    comparing [dueDay] with the day of the month as it is, where the formula
    takes the obligations falling due, with the due day clamped to the last
    day of the month: at the valid input [rentOn31] (10000 in hand on
    1 February 2023, rent of 500 due on the 31st) the rent falls due on
    28 February, the formula gives [floor ((10000 - 500) / 30) = 316], and
    [safeDailySpend] is [floor (10000 / 30) = 333].  With no obligation the
    two agree: a balance of 3000 with no income gives 100. *)
Theorem safe_spend_misses_clamped_due_day :
  Valid rentOn31 /\
  option_map safeDailySpend (returned (calculateRunway rentOn31)) = Some (ofZ 333) /\
  specSafeDailySpendOf rentOn31 = Some 316%Z /\
  startDate rentOn31 = DateOf 1675252800000 /\
  obligationsFallingDue (Day 1675252800000) 30 (fixedExpenses rentOn31) == 500 /\
  obligationsOver 1675252800000 30 (fixedExpenses rentOn31) == 0 /\
  option_map safeDailySpend (returned (calculateRunway (scenarioC 250))) = Some (ofZ 100) /\
  specSafeDailySpendOf (scenarioC 250) = Some 100%Z.
Proof.
  evaluate.
Qed.


End Claims.

(* ================================================================== *)
(** * Further properties of the code *)

Section RunTheorems.

Local Open Scope Q_scope.

(** X1.  [calculateRunwaySafe] reports what [calculateRunway] does: success
    with the result it returns, failure with the error it throws.  It fails
    with a validation error exactly on the inputs that violate a
    precondition; on an input that meets them it succeeds when the start
    date is at least 366 days before the largest date, and can otherwise only
    fail with the RangeError of [toISOString]. *)
Theorem calculateRunwaySafe_reports_the_outcome (p : Params) :
  (forall r, calculateRunwaySafe p = inl r <-> calculateRunway p = Return r) /\
  ((exists e, calculateRunwaySafe p = inr e /\ isInvalidInput e = true) <-> ~ Valid p) /\
  (Valid p -> InHorizon (startDate p) -> exists r, calculateRunwaySafe p = inl r) /\
  (Valid p -> forall e, calculateRunwaySafe p = inr e -> e = RangeError).
Proof.
  assert (R : forall r, calculateRunwaySafe p = inl r <-> calculateRunway p = Return r).
  { intro r. unfold calculateRunwaySafe.
    destruct (calculateRunway p); split; congruence. }
  assert (T : forall e, calculateRunwaySafe p = inr e <-> calculateRunway p = Throw e).
  { intro e. unfold calculateRunwaySafe.
    destruct (calculateRunway p); split; congruence. }
  split; [exact R|]. split; [|split].
  - destruct (validate p) as [[]|e0] eqn:V.
    + apply validate_Return in V. split.
      * intros (e & He & Hi). apply T in He.
        rewrite (calculateRunway_Throw_valid p e V He) in Hi. discriminate.
      * intro H. contradiction.
    + assert (NV : ~ Valid p).
      { intro H. apply validate_Return in H. congruence. }
      split; [intros _; exact NV|]. intros _. exists e0. split.
      * apply T. unfold calculateRunway. rewrite V. reflexivity.
      * apply (validate_Throw p e0 V).
  - intros Hp Hh. destruct (calculateRunway_returns p Hp Hh) as (r & E).
    exists r. apply R, E.
  - intros Hp e He. apply T in He. apply (calculateRunway_Throw_valid p e Hp He).
Qed.

Lemma calculateRunwaySafe_reports_the_outcome_witness :
  exists r, calculateRunwaySafe scenarioA = inl r.
Proof.
  apply (proj1 (proj2 (proj2 (calculateRunwaySafe_reports_the_outcome scenarioA)))).
  - apply validate_Return. reflexivity.
  - apply inHorizon_true. reflexivity.
Defined.

(** On the largest date the failure is the RangeError. *)
Example calculateRunwaySafe_on_largest_date :
  calculateRunwaySafe startsOnLargestDate = inr RangeError.
Proof. reflexivity. Qed.

(** X2.  On a valid input with a balance that is not negative and a start
    date at least 366 days before the largest date, the recorded balances
    tell where the run ended: the point of index [k] is negative exactly
    when [k = daysRemaining], so every counted day has a recorded balance
    that is not negative and, below the 365-day cap, the point that follows
    them is the negative balance of the day that ended the run. *)
Theorem negative_balance_is_recorded_last (p : Params) :
  Valid p -> InHorizon (startDate p) -> (currentBalance p <? ofZ 0)%js = false ->
  exists r,
    calculateRunway p = Return r /\
    (forall k pt, nth_error (projectedBalance r) k = Some pt ->
       ((pointBalance pt <? ofZ 0)%js = true <-> k = daysRemaining r)) /\
    ((daysRemaining r < 365)%nat ->
     exists pt, nth_error (projectedBalance r) (daysRemaining r) = Some pt /\
                (pointBalance pt <? ofZ 0)%js = true).
Proof.
  intros Hp Hh L. destruct (calculateRunway_returns p Hp Hh) as (r & E).
  destruct (calculateRunway_shape p r E) as (B & _ & S). destruct (S L) as (Hl & Hk).
  exists r. split; [exact E|]. split; [exact Hk|]. intro Hlt.
  destruct (nth_error (projectedBalance r) (daysRemaining r)) as [pt|] eqn:N.
  - exists pt. split; [reflexivity|]. apply (Hk _ _ N). reflexivity.
  - exfalso. apply nth_error_None in N. rewrite Hl in N. unfold recordedDays in N.
    replace (daysRemaining r <? 365)%nat with true in N
      by (symmetry; apply Nat.ltb_lt; lia).
    lia.
Qed.

Lemma negative_balance_is_recorded_last_witness :
  exists r,
    calculateRunway scenarioA = Return r /\
    (forall k pt, nth_error (projectedBalance r) k = Some pt ->
       ((pointBalance pt <? ofZ 0)%js = true <-> k = daysRemaining r)) /\
    ((daysRemaining r < 365)%nat ->
     exists pt, nth_error (projectedBalance r) (daysRemaining r) = Some pt /\
                (pointBalance pt <? ofZ 0)%js = true).
Proof.
  apply (negative_balance_is_recorded_last scenarioA).
  - apply validate_Return. reflexivity.
  - apply inHorizon_true. reflexivity.
  - reflexivity.
Defined.

(** X3.  On a valid input with a balance that is not negative and a start
    date at least 366 days before the largest date, the projection has
    [daysRemaining + 1] points below the 365-day cap and 365 at the cap. *)
Theorem projection_has_one_more_point_below_the_cap (p : Params) :
  Valid p -> InHorizon (startDate p) -> (currentBalance p <? ofZ 0)%js = false ->
  exists r,
    calculateRunway p = Return r /\
    ((daysRemaining r < 365)%nat ->
     List.length (projectedBalance r) = S (daysRemaining r)) /\
    (daysRemaining r = 365%nat -> List.length (projectedBalance r) = 365%nat).
Proof.
  intros Hp Hh L. destruct (calculateRunway_returns p Hp Hh) as (r & E).
  exists r. split; [exact E|].
  rewrite (projection_length p r E L).
  destruct (Nat.ltb_spec (daysRemaining r) 365); split; intros; lia.
Qed.

Lemma projection_has_one_more_point_below_the_cap_witness :
  exists r,
    calculateRunway wellFunded = Return r /\
    ((daysRemaining r < 365)%nat ->
     List.length (projectedBalance r) = S (daysRemaining r)) /\
    (daysRemaining r = 365%nat -> List.length (projectedBalance r) = 365%nat).
Proof.
  apply (projection_has_one_more_point_below_the_cap wellFunded).
  - apply validate_Return. vm_compute. reflexivity.
  - apply inHorizon_true. vm_compute. reflexivity.
  - reflexivity.
Defined.

(** Balance after [n] days with no obligation and no income. *)
Lemma balanceAfter_spend_only (b s : Q) (t : Z) (n : nat) :
  exists q, balanceAfter (mkParams (Fin b) (DateOf t) [] [] (Fin s)) n = Fin q /\
            q == b - inject_Z (Z.of_nat n) * s.
Proof.
  induction n as [|n (q & Hq & Hb)].
  - exists b. split; [reflexivity|]. simpl. unfold inject_Z. ring.
  - cbn [balanceAfter]. rewrite Hq. eexists. split; [reflexivity|].
    rewrite Hb, Nat2Z.inj_succ. unfold Z.succ. rewrite inject_Z_plus.
    unfold inject_Z at 1 2 4. ring.
Qed.

Lemma runway_without_events_Q (b s : Q) (t : Z) :
  0 <= b -> b <= 100000000 -> 0 < s -> s <= 100000 -> InHorizon (DateOf t) ->
  exists r,
    calculateRunway (mkParams (Fin b) (DateOf t) [] [] (Fin s)) = Return r /\
    Z.of_nat (daysRemaining r) = Z.min 365 (Qfloor (b / s)).
Proof.
  intros Hb0 Hb1 Hs0 Hs1 Hh.
  set (p := mkParams (Fin b) (DateOf t) [] [] (Fin s)).
  assert (Hp : Valid p).
  { unfold Valid, p; simpl. split; [|split; [|split; [|split]]].
    - exists b. repeat split; lra.
    - exists s. repeat split; lra.
    - exists t. reflexivity.
    - constructor.
    - constructor. }
  destruct (calculateRunway_run p b t Hp eq_refl Hb0 eq_refl Hh)
    as (r & E & B & Hsurv & Hfail & _).
  exists r. split; [exact E|].
  assert (Hle : (Z.of_nat (daysRemaining r) <= Qfloor (b / s))%Z).
  { assert (Hk := Hsurv (daysRemaining r) (le_n _)).
    destruct (balanceAfter_spend_only b s t (daysRemaining r)) as (x & Hx & Hxq).
    fold p in Hx. rewrite Hx in Hk. apply lt0_false in Hk.
    rewrite <- (Qfloor_Z (Z.of_nat (daysRemaining r))).
    apply Qfloor_resp_le. apply Qle_shift_div_l; lra. }
  destruct (Nat.eq_dec (daysRemaining r) 365) as [H365 | Hne].
  - rewrite H365 in *. lia.
  - assert (Hk := Hfail ltac:(lia)).
    destruct (balanceAfter_spend_only b s t (S (daysRemaining r))) as (x & Hx & Hxq).
    fold p in Hx. rewrite Hx in Hk. apply lt0_true in Hk.
    assert (Hlt : (Qfloor (b / s) < Z.of_nat (S (daysRemaining r)))%Z).
    { rewrite Zlt_Qlt. eapply Qle_lt_trans; [apply Qfloor_le|].
      apply Qlt_shift_div_r; lra. }
    lia.
Qed.

Lemma Qfloor_div_Z (b s : Z) : (0 < s)%Z -> Qfloor (inject_Z b / inject_Z s) = (b / s)%Z.
Proof.
  intro Hs. destruct s as [|sp|sp]; try lia.
  unfold Qdiv, Qinv, Qmult, Qfloor, inject_Z. simpl.
  rewrite Z.mul_1_r. reflexivity.
Qed.

(** X4.  With no obligation and no income, a whole balance [b], from 0 to
    100,000,000, spent at a whole [s] a day, from 1 to 100,000, lasts
    [b / s] days (integer division), capped at 365, when the start date is
    at least 366 days before the largest date. *)
Theorem runway_without_events (b s t : Z) :
  (0 <= b <= 100000000)%Z -> (1 <= s <= 100000)%Z -> InHorizon (DateOf t) ->
  exists r,
    calculateRunway (mkParams (ofZ b) (DateOf t) [] [] (ofZ s)) = Return r /\
    Z.of_nat (daysRemaining r) = Z.min 365 (b / s).
Proof.
  intros Hb Hs Hh.
  destruct (runway_without_events_Q (inject_Z b) (inject_Z s) t) as (r & E & Hd).
  - change 0 with (inject_Z 0). rewrite <- Zle_Qle. lia.
  - change 100000000 with (inject_Z 100000000). rewrite <- Zle_Qle. lia.
  - change 0 with (inject_Z 0). rewrite <- Zlt_Qlt. lia.
  - change 100000 with (inject_Z 100000). rewrite <- Zle_Qle. lia.
  - exact Hh.
  - exists r. split; [exact E|]. rewrite Hd, Qfloor_div_Z by lia. reflexivity.
Qed.

Lemma runway_without_events_witness :
  exists r,
    calculateRunway (mkParams (ofZ 1000) (DateOf 1705320000000) [] [] (ofZ 300)) = Return r /\
    Z.of_nat (daysRemaining r) = Z.min 365 (1000 / 300).
Proof.
  apply (runway_without_events 1000 300 1705320000000).
  - lia.
  - lia.
  - apply inHorizon_true. vm_compute. reflexivity.
Defined.

End RunTheorems.

Section Monotonicity.

Local Open Scope Q_scope.

(** X5.  Spending less a day never shortens the runway: with everything else
    fixed and a start date at least 366 days before the largest date, a
    valid daily spend [s2 <= s1] gives a [daysRemaining] at least as large as
    [s1] does. *)
Theorem lower_spend_no_less_runway (p : Params) (s1 s2 : Q) :
  dailyVariableSpend p = Fin s1 -> s2 <= s1 ->
  Valid p -> Valid (setSpend p (Fin s2)) -> InHorizon (startDate p) ->
  exists r1 r2,
    calculateRunway p = Return r1 /\
    calculateRunway (setSpend p (Fin s2)) = Return r2 /\
    (daysRemaining r1 <= daysRemaining r2)%nat.
Proof.
  intros Hs Hle H1 H2 Hh.
  destruct (Valid_balance p H1) as (b & Hb).
  destruct (calculateRunway_returns p H1 Hh) as (r1 & E1).
  destruct (calculateRunway_returns _ H2 Hh) as (r2 & E2).
  exists r1, r2. split; [exact E1|]. split; [exact E2|].
  apply (runway_dominated p (setSpend p (Fin s2)) b b H1 H2) with (6 := E1) (7 := E2);
    try assumption; try reflexivity; try lra.
  apply NoWorseDay_by_parts; try assumption.
  - intro d. simpl. lra.
  - intro d. simpl. lra.
  - simpl. rewrite Hs. simpl. exact Hle.
Qed.

Lemma lower_spend_no_less_runway_witness :
  exists r1 r2,
    calculateRunway scenarioA = Return r1 /\
    calculateRunway (setSpend scenarioA (Fin (inject_Z 40))) = Return r2 /\
    (daysRemaining r1 <= daysRemaining r2)%nat.
Proof.
  apply (lower_spend_no_less_runway scenarioA (inject_Z 100) (inject_Z 40)).
  - reflexivity.
  - discriminate.
  - apply validate_Return. reflexivity.
  - apply validate_Return. reflexivity.
  - apply inHorizon_true. reflexivity.
Defined.

(** X6.  Income events and the runway: on valid data and a current date at
    least 366 days before the largest date, after [addIncomeEvent] of a
    well-formed event [daysRemaining] is no smaller, and after
    [removeIncomeEvent] of any id it is no larger. *)
Theorem income_updates_and_runway (balance : number) (today : Date) (spend : number)
    (data : Financials.FinancialData) (income : IncomeEvent.t) (id : string) :
  Valid (paramsOf balance today data spend) -> IncomeOk income -> InHorizon today ->
  exists r rAdded rRemoved,
    calculateRunway (paramsOf balance today data spend) = Return r /\
    calculateRunway (paramsOf balance today (Financials.addIncomeEvent income data) spend)
      = Return rAdded /\
    calculateRunway (paramsOf balance today (Financials.removeIncomeEvent id data) spend)
      = Return rRemoved /\
    (daysRemaining rRemoved <= daysRemaining r <= daysRemaining rAdded)%nat.
Proof.
  intros Hp Hinc Hh.
  set (p := paramsOf balance today data spend) in *.
  set (pA := paramsOf balance today (Financials.addIncomeEvent income data) spend).
  set (pR := paramsOf balance today (Financials.removeIncomeEvent id data) spend).
  assert (HA : Valid pA).
  { apply (Valid_with_lists p); [exact Hp | apply Hp |].
    apply Forall_app. split; [apply Hp | constructor; [exact Hinc | constructor]]. }
  assert (HR : Valid pR).
  { apply (Valid_with_lists p); [exact Hp | apply Hp |].
    apply Forall_filter. apply Hp. }
  destruct (Valid_balance p Hp) as (b & Hb).
  destruct (calculateRunway_returns p Hp Hh) as (r & E).
  destruct (calculateRunway_returns pA HA Hh) as (rA & EA).
  destruct (calculateRunway_returns pR HR Hh) as (rR & ER).
  assert (LA : (daysRemaining r <= daysRemaining rA)%nat).
  { apply (runway_dominated p pA b b Hp HA) with (6 := E) (7 := EA);
      try reflexivity; try exact Hb; try lra.
    apply NoWorseDay_by_parts; try assumption.
    - intro d. cbn [pA paramsOf incomeEvents Financials.addIncomeEvent Financials.incomeEvents].
      apply Qsum_filter_added. destruct Hinc as ((q & -> & Hq) & _). simpl. lra.
    - intro d. simpl. lra.
    - simpl. lra. }
  assert (LR : (daysRemaining rR <= daysRemaining r)%nat).
  { apply (runway_dominated pR p b b HR Hp) with (6 := ER) (7 := E);
      try reflexivity; try exact Hb; try lra.
    apply NoWorseDay_by_parts; try assumption.
    - intro d. cbn [pR paramsOf incomeEvents Financials.removeIncomeEvent Financials.incomeEvents].
      apply Qsum_filter_removed. apply amounts_nonneg, incomes_finite, Hp.
    - intro d. simpl. lra.
    - simpl. lra. }
  exists r, rA, rR. repeat split; try assumption; lia.
Qed.

Lemma income_updates_and_runway_witness :
  exists r rAdded rRemoved,
    calculateRunway (paramsOf (ofZ 0) (noon 2024 1 15)
                       (Financials.mk [] [morningIncome]) (ofZ 100)) = Return r /\
    calculateRunway (paramsOf (ofZ 0) (noon 2024 1 15)
                       (Financials.addIncomeEvent morningIncome
                          (Financials.mk [] [morningIncome])) (ofZ 100)) = Return rAdded /\
    calculateRunway (paramsOf (ofZ 0) (noon 2024 1 15)
                       (Financials.removeIncomeEvent "1"
                          (Financials.mk [] [morningIncome])) (ofZ 100)) = Return rRemoved /\
    (daysRemaining rRemoved <= daysRemaining r <= daysRemaining rAdded)%nat.
Proof.
  apply (income_updates_and_runway (ofZ 0) (noon 2024 1 15) (ofZ 100)
           (Financials.mk [] [morningIncome]) morningIncome "1").
  - apply validate_Return. reflexivity.
  - split.
    + exists (inject_Z 3000). split; [reflexivity | reflexivity].
    + eexists. reflexivity.
  - apply inHorizon_true. reflexivity.
Defined.

(** X7.  Fixed expenses and the runway: on valid data and a current date at
    least 366 days before the largest date, after [removeFixedExpense] of
    any id [daysRemaining] is no smaller, and after [addFixedExpense] of a
    well-formed obligation it is no larger. *)
Theorem expense_updates_and_runway (balance : number) (today : Date) (spend : number)
    (data : Financials.FinancialData) (expense : FixedExpense.t) (id : string) :
  Valid (paramsOf balance today data spend) -> ObligationOk expense -> InHorizon today ->
  exists r rAdded rRemoved,
    calculateRunway (paramsOf balance today data spend) = Return r /\
    calculateRunway (paramsOf balance today (Financials.addFixedExpense expense data) spend)
      = Return rAdded /\
    calculateRunway (paramsOf balance today (Financials.removeFixedExpense id data) spend)
      = Return rRemoved /\
    (daysRemaining rAdded <= daysRemaining r <= daysRemaining rRemoved)%nat.
Proof.
  intros Hp Hexp Hh.
  set (p := paramsOf balance today data spend) in *.
  set (pA := paramsOf balance today (Financials.addFixedExpense expense data) spend).
  set (pR := paramsOf balance today (Financials.removeFixedExpense id data) spend).
  assert (HA : Valid pA).
  { apply (Valid_with_lists p); [exact Hp | | apply Hp].
    apply Forall_app. split; [apply Hp | constructor; [exact Hexp | constructor]]. }
  assert (HR : Valid pR).
  { apply (Valid_with_lists p); [exact Hp | | apply Hp].
    apply Forall_filter. apply Hp. }
  destruct (Valid_balance p Hp) as (b & Hb).
  destruct (calculateRunway_returns p Hp Hh) as (r & E).
  destruct (calculateRunway_returns pA HA Hh) as (rA & EA).
  destruct (calculateRunway_returns pR HR Hh) as (rR & ER).
  assert (LA : (daysRemaining rA <= daysRemaining r)%nat).
  { apply (runway_dominated pA p b b HA Hp) with (6 := EA) (7 := E);
      try reflexivity; try exact Hb; try lra.
    apply NoWorseDay_by_parts; try assumption.
    - intro d. simpl. lra.
    - intro d. cbn [pA paramsOf fixedExpenses Financials.addFixedExpense Financials.fixedExpenses].
      apply Qsum_filter_added. destruct Hexp as ((q & -> & Hq) & _). simpl. lra.
    - simpl. lra. }
  assert (LR : (daysRemaining r <= daysRemaining rR)%nat).
  { apply (runway_dominated p pR b b Hp HR) with (6 := E) (7 := ER);
      try reflexivity; try exact Hb; try lra.
    apply NoWorseDay_by_parts; try assumption.
    - intro d. simpl. lra.
    - intro d. cbn [pR paramsOf fixedExpenses Financials.removeFixedExpense Financials.fixedExpenses].
      apply Qsum_filter_removed. apply amounts_nonneg, expenses_finite, Hp.
    - simpl. lra. }
  exists r, rA, rR. repeat split; try assumption; lia.
Qed.

Lemma expense_updates_and_runway_witness :
  exists r rAdded rRemoved,
    calculateRunway (paramsOf (ofZ 10000) (noon 2023 2 1)
                       (Financials.mk (fixedExpenses rentOn31) []) (ofZ 100)) = Return r /\
    calculateRunway (paramsOf (ofZ 10000) (noon 2023 2 1)
                       (Financials.addFixedExpense
                          (FixedExpense.mk "tv" "Netflix" (ofZ 1100) (ofZ 5) subscriptions)
                          (Financials.mk (fixedExpenses rentOn31) [])) (ofZ 100))
      = Return rAdded /\
    calculateRunway (paramsOf (ofZ 10000) (noon 2023 2 1)
                       (Financials.removeFixedExpense "rent"
                          (Financials.mk (fixedExpenses rentOn31) [])) (ofZ 100))
      = Return rRemoved /\
    (daysRemaining rAdded <= daysRemaining r <= daysRemaining rRemoved)%nat.
Proof.
  apply (expense_updates_and_runway (ofZ 10000) (noon 2023 2 1) (ofZ 100)
           (Financials.mk (fixedExpenses rentOn31) [])
           (FixedExpense.mk "tv" "Netflix" (ofZ 1100) (ofZ 5) subscriptions) "rent").
  - apply validate_Return. reflexivity.
  - split.
    + exists (inject_Z 1100). split; reflexivity.
    + exists (inject_Z 5), 5%Z. split; [reflexivity|]. split; [reflexivity | lia].
  - apply inHorizon_true. reflexivity.
Defined.

End Monotonicity.

Section SafeSpend.

Local Open Scope Q_scope.

Lemma Qle_bool_inject_Z (a b : Z) : Qle_bool (inject_Z a) (inject_Z b) = (a <=? b)%Z.
Proof.
  unfold Qle_bool, inject_Z. simpl. rewrite !Z.mul_1_r. reflexivity.
Qed.

Lemma Qle_bool_compat (a b : Q) : a == b -> Qle_bool a 0 = Qle_bool b 0.
Proof.
  intro H. destruct (Qle_bool b 0) eqn:E.
  - apply Qle_bool_iff. apply Qle_bool_iff in E. rewrite H. exact E.
  - apply Qle_bool_false. apply Qle_bool_false in E. rewrite H. exact E.
Qed.

(** Within the horizon the window test of the helper is a test on the time
    value of the event. *)
Lemma window_filter (t : Z) (incomes : list IncomeEvent.t) :
  InHorizon (DateOf t) ->
  filter (fun e =>
            (getTime (IncomeEvent.date e) <=? getTime (addDays (DateOf t) (Z.of_nat 30)))%js &&
            (getTime (IncomeEvent.date e) >=? getTime (DateOf t))%js) incomes =
  filter (fun e => match IncomeEvent.date e with
                   | DateOf te => (t <=? te)%Z && (te <=? t + 30 * msPerDay)%Z
                   | InvalidDate => false
                   end) incomes.
Proof.
  intro Hh. rewrite (InHorizon_addDays t (Z.of_nat 30) Hh) by lia.
  apply filter_ext. intro e. destruct (IncomeEvent.date e) as [|te].
  - reflexivity.
  - unfold JS.ge. cbn [getTime JS.le ofZ Z.of_nat].
    rewrite !Qle_bool_inject_Z. apply andb_comm.
Qed.

Lemma relevantIncome_Qsum (p : Params) (t : Z) :
  Valid p -> InHorizon (DateOf t) ->
  exists q,
    sumBy IncomeEvent.amount
      (filter (fun e =>
                 (getTime (IncomeEvent.date e) <=? getTime (addDays (DateOf t) (Z.of_nat 30)))%js &&
                 (getTime (IncomeEvent.date e) >=? getTime (DateOf t))%js)
              (incomeEvents p)) = Fin q /\
    q == incomeWithin t 30 (incomeEvents p).
Proof.
  intros Hp Hh. rewrite (window_filter t _ Hh). unfold incomeWithin.
  apply sumBy_Qsum, Forall_filter, incomes_finite, Hp.
Qed.

Lemma todaysFixedExpenses_Qsum (p : Params) (t : Z) :
  Valid p ->
  exists q, todaysFixedExpenses (fixedExpenses p) (getDate (DateOf t)) = Fin q /\
            q == dueOn (dayOfMonth t) (fixedExpenses p).
Proof.
  intro Hp. unfold todaysFixedExpenses, dueOn, getDate, dayOfMonth.
  destruct (civil (Day t)) as [[y m] dd].
  apply sumBy_Qsum, Forall_filter, expenses_finite, Hp.
Qed.

(** The [for] loop adds up the obligations due on each of its days. *)
Lemma totalFixedLoop_Qsum (p : Params) (t : Z) :
  Valid p -> InHorizon (DateOf t) ->
  forall (n k : nat) (acc : Q), (k + n <= 365)%nat ->
  exists q,
    totalFixedLoop (fixedExpenses p) n (DateOf (t + Z.of_nat k * msPerDay)) (Fin acc) = Fin q /\
    q == acc + Qsum (map (fun i => dueOn (dayOfMonth (t + Z.of_nat i * msPerDay))
                                     (fixedExpenses p)) (seq k n)).
Proof.
  intros Hp Hh. induction n as [|n IH]; intros k acc Hk.
  - exists acc. split; [reflexivity | simpl; ring].
  - cbn [totalFixedLoop].
    destruct (todaysFixedExpenses_Qsum p (t + Z.of_nat k * msPerDay) Hp) as (f & Ef & Hf).
    rewrite Ef. cbn [JS.add]. rewrite (InHorizon_next t k Hh) by lia.
    destruct (IH (S k) (acc + f)) as (q & E & Hq); [lia|].
    exists q. split; [exact E|].
    rewrite Hq, Hf. simpl. ring.
Qed.

(** Within the horizon, [calculateSafeSpendForTarget 30] computes the closed
    form. *)
Lemma calculateSafeSpendForTarget_formula (p : Params) (b : Q) (t : Z) :
  Valid p -> currentBalance p = Fin b -> startDate p = DateOf t -> InHorizon (DateOf t) ->
  calculateSafeSpendForTarget 30 p =
  ofZ (safeSpendFormula b t (fixedExpenses p) (incomeEvents p)).
Proof.
  intros Hp Hb Ht Hh. unfold calculateSafeSpendForTarget. rewrite Hb, Ht.
  destruct (relevantIncome_Qsum p t Hp Hh) as (i & Ei & Hi). rewrite Ei.
  destruct (totalFixedLoop_Qsum p t Hp Hh 30 0 (inject_Z 0)) as (f & Ef & Hf); [lia|].
  change (t + Z.of_nat 0 * msPerDay)%Z with (t + 0)%Z in Ef.
  rewrite Z.add_0_r in Ef. unfold ofZ. rewrite Ef.
  cbn [JS.add JS.sub JS.le ofZ JS.div JS.floor].
  assert (Hav : b + i - f == availableMoney b t (fixedExpenses p) (incomeEvents p)).
  { unfold availableMoney, obligationsOver. rewrite Hi, Hf. unfold inject_Z. ring. }
  unfold safeSpendFormula.
  change (inject_Z 0) with 0.
  rewrite (Qle_bool_compat _ _ Hav).
  destruct (Qle_bool (availableMoney b t (fixedExpenses p) (incomeEvents p)) 0);
    [reflexivity|].
  change (Qeq_bool (inject_Z (Z.of_nat 30)) 0) with false. cbn [JS.floor ofZ].
  change (inject_Z (Z.of_nat 30)) with 30.
  rewrite Hav. reflexivity.
Qed.

Lemma safeSpendFormula_nonneg (b : Q) (t : Z) obligations incomes :
  (0 <= safeSpendFormula b t obligations incomes)%Z.
Proof.
  unfold safeSpendFormula. cbv zeta.
  destruct (Qle_bool (availableMoney b t obligations incomes) 0) eqn:E; [lia|].
  apply Qle_bool_false in E.
  change 0%Z with (Qfloor 0). apply Qfloor_resp_le.
  apply Qle_shift_div_l; lra.
Qed.

Lemma getDate_dayOfMonth (x : Z) : getDate (DateOf x) = ofZ (dayOfMonth x).
Proof.
  unfold getDate, dayOfMonth. destruct (civil (Day x)) as [[y m] dd]. reflexivity.
Qed.

Lemma Qsum_map_nonneg {A : Type} (f : A -> Q) (xs : list A) :
  (forall x, 0 <= f x) -> 0 <= Qsum (map f xs).
Proof.
  intro H. induction xs as [|x xs IH]; simpl; [lra|]. specialize (H x). lra.
Qed.

Lemma Qsum_prefix_le (f : nat -> Q) (n m : nat) :
  (forall i, 0 <= f i) -> (n <= m)%nat ->
  Qsum (map f (List.seq 0 n)) <= Qsum (map f (List.seq 0 m)).
Proof.
  intros Hf Hnm. replace m with (n + (m - n))%nat by lia.
  rewrite seq_app, map_app, Qsum_app.
  assert (0 <= Qsum (map f (List.seq (0 + n) (m - n)))) by (apply Qsum_map_nonneg, Hf).
  lra.
Qed.

Lemma creditedOn_nonneg (p : Params) (t : Z) (i : nat) :
  Valid p -> 0 <= creditedOn t (incomeEvents p) i.
Proof.
  intro Hp. unfold creditedOn. apply Qsum_nonneg.
  apply Forall_map. apply Forall_filter.
  apply (amounts_nonneg IncomeEvent.amount), incomes_finite, Hp.
Qed.

Lemma dueOn_nonneg (p : Params) (dom : Z) :
  Valid p -> 0 <= dueOn dom (fixedExpenses p).
Proof.
  intro Hp. unfold dueOn. apply Qsum_nonneg.
  apply Forall_map. apply Forall_filter.
  apply (amounts_nonneg FixedExpense.amount), expenses_finite, Hp.
Qed.

(** Within the horizon, the balance after [n] days in closed form: the
    starting balance plus the income credited, minus the obligations debited
    and [n] times the daily spend. *)
Lemma balanceAfter_closed (p : Params) (b s : Q) (t : Z) :
  Valid p -> currentBalance p = Fin b -> dailyVariableSpend p = Fin s ->
  startDate p = DateOf t -> InHorizon (DateOf t) ->
  forall n, (n <= 365)%nat -> exists q,
    balanceAfter p n = Fin q /\
    q == b + Qsum (map (creditedOn t (incomeEvents p)) (List.seq 0 n))
           - obligationsOver t n (fixedExpenses p)
           - inject_Z (Z.of_nat n) * s.
Proof.
  intros Hp Hb Hs Ht Hh n. induction n as [|n IH]; intro Hn.
  - exists b. split; [exact Hb|]. unfold obligationsOver. simpl. unfold inject_Z. ring.
  - destruct IH as (q & Hq & Hcl); [lia|].
    cbn [balanceAfter]. rewrite Hq, Ht.
    rewrite (InHorizon_addDays t (Z.of_nat n) Hh) by lia.
    destruct (dayEnd_parts p (DateOf (t + Z.of_nat n * msPerDay)) Hp)
      as (i & f & s' & Hi & Hf & Hs' & D).
    assert (s' = s) by congruence. subst s'.
    rewrite D. eexists. split; [reflexivity|].
    rewrite getDate_dayOfMonth in Hf.
    unfold obligationsOver. rewrite !seq_S, !map_app, !Qsum_app. cbn [map Qsum plus].
    fold (creditedOn t (incomeEvents p) n) in Hi.
    fold (dueOn (dayOfMonth (t + Z.of_nat n * msPerDay)) (fixedExpenses p)) in Hf.
    unfold obligationsOver in Hcl.
    rewrite Hcl, Hi, Hf, Nat2Z.inj_succ. unfold Z.succ. rewrite inject_Z_plus.
    change (inject_Z 1) with 1.
    change (Qsum [creditedOn t (incomeEvents p) n])
      with (creditedOn t (incomeEvents p) n + 0).
    change (Qsum [dueOn (dayOfMonth (t + Z.of_nat n * msPerDay)) (fixedExpenses p)])
      with (dueOn (dayOfMonth (t + Z.of_nat n * msPerDay)) (fixedExpenses p) + 0).
    ring.
Qed.

Lemma thirty_safe_spends_fit (b : Q) (t : Z) obligations incomes :
  0 <= availableMoney b t obligations incomes ->
  30 * inject_Z (safeSpendFormula b t obligations incomes)
  <= availableMoney b t obligations incomes.
Proof.
  intro H. unfold safeSpendFormula. cbv zeta.
  destruct (Qle_bool (availableMoney b t obligations incomes) 0) eqn:E.
  - unfold inject_Z. lra.
  - assert (L := Qfloor_le (availableMoney b t obligations incomes / 30)).
    assert (D : availableMoney b t obligations incomes / 30 * 30
                == availableMoney b t obligations incomes).
    { field. }
    lra.
Qed.

Lemma ofZ_positive (z : Z) : (ofZ 0 <? ofZ z)%js = true <-> (0 < z)%Z.
Proof.
  cbn [ofZ JS.lt]. rewrite Qltb_true, <- Zlt_Qlt. reflexivity.
Qed.

Lemma ofZ_le (a b : Z) : (ofZ a <=? ofZ b)%js = true <-> (a <= b)%Z.
Proof.
  cbn [ofZ JS.le]. rewrite Qle_bool_inject_Z. apply Z.leb_le.
Qed.

(** X8.  The safe daily spend is safe when no income is expected: on a valid
    input with whole amounts, no income event and a start date at least 366
    days before the largest date, whenever [safeDailySpend] is positive and
    at most 100,000 (the largest daily spend the engine accepts), running
    the projection with [safeDailySpend] as the daily spend survives at
    least 30 days. *)
Theorem safe_spend_lasts_thirty_days (p : Params) :
  Valid p -> InHorizon (startDate p) -> WholeAmounts p -> incomeEvents p = [] ->
  exists r0,
    calculateRunway p = Return r0 /\
    ((ofZ 0 <? safeDailySpend r0)%js = true ->
     (safeDailySpend r0 <=? ofZ 100000)%js = true ->
     exists r,
       calculateRunway (setSpend p (safeDailySpend r0)) = Return r /\
       (30 <= daysRemaining r)%nat).
Proof.
  intros Hp Hh _ Hinc.
  destruct (Valid_balance p Hp) as (b & Hb).
  destruct (Qlt_le_dec b 0) as [Hneg | Hpos].
  { eexists. split; [apply (calculateRunway_negative p b Hp Hb Hneg)|].
    cbn [safeDailySpend]. intro H. discriminate. }
  assert (Hh' := Hh). destruct Hh' as (t & Ht & _). rewrite Ht in Hh.
  destruct (calculateRunway_run p b t Hp Hb Hpos Ht Hh)
    as (r0 & E0 & _ & _ & _ & _ & _ & _ & Hss).
  exists r0. split; [exact E0|]. rewrite Hss.
  rewrite (calculateSafeSpendForTarget_formula p b t Hp Hb Ht Hh).
  set (safe := safeSpendFormula b t (fixedExpenses p) (incomeEvents p)).
  intros Hgt Hcap. apply ofZ_positive in Hgt. apply ofZ_le in Hcap.
  assert (Hav : 0 <= availableMoney b t (fixedExpenses p) (incomeEvents p)).
  { unfold safe, safeSpendFormula in Hgt. cbv zeta in Hgt.
    destruct (Qle_bool (availableMoney b t (fixedExpenses p) (incomeEvents p)) 0) eqn:L;
      [lia|].
    apply Qle_bool_false in L. lra. }
  set (p' := setSpend p (ofZ safe)).
  assert (Hp' : Valid p').
  { destruct Hp as (H1 & _ & H3 & H4 & H5). unfold Valid, p'. simpl.
    split; [exact H1|]. split; [|auto].
    exists (inject_Z safe). split; [reflexivity|].
    split; [change 0 with (inject_Z 0) | change 100000 with (inject_Z 100000)];
      rewrite <- Zle_Qle; lia. }
  assert (Hh2 : InHorizon (startDate p')) by (unfold p'; cbn [setSpend startDate]; rewrite Ht; exact Hh).
  destruct (calculateRunway_prefix p' 30 Hp' Hh2) as (r & E & B).
  - lia.
  - intros k q Hk Hq.
    destruct (balanceAfter_closed p' b (inject_Z safe) t Hp' Hb eq_refl Ht Hh k) as (q' & Hq' & Hcl);
      [lia|].
    assert (q' = q) by congruence. subst q'.
    cbn [p' setSpend incomeEvents fixedExpenses] in Hcl.
    assert (HI : 0 <= Qsum (map (creditedOn t (incomeEvents p)) (List.seq 0 k))).
    { apply Qsum_map_nonneg. intro i. apply creditedOn_nonneg, Hp. }
    assert (HF : obligationsOver t k (fixedExpenses p)
                 <= obligationsOver t 30 (fixedExpenses p)).
    { unfold obligationsOver. apply Qsum_prefix_le; [|lia].
      intro i. apply dueOn_nonneg, Hp. }
    assert (HK : inject_Z (Z.of_nat k) * inject_Z safe <= 30 * inject_Z safe).
    { apply Qmult_le_compat_r.
      - change 30 with (inject_Z 30). rewrite <- Zle_Qle. lia.
      - change 0 with (inject_Z 0). rewrite <- Zle_Qle. lia. }
    assert (HT := thirty_safe_spends_fit b t (fixedExpenses p) (incomeEvents p) Hav).
    fold safe in HT. unfold availableMoney in HT, Hav.
    rewrite Hinc in HT, Hav. unfold incomeWithin in HT, Hav. simpl in HT, Hav. lra.
  - exists r. split; [exact E | lia].
Qed.

End SafeSpend.

Section SafeSpendWitness.

Local Open Scope Q_scope.

Lemma safe_spend_lasts_thirty_days_witness :
  exists r0,
    calculateRunway rentOn31 = Return r0 /\
    ((ofZ 0 <? safeDailySpend r0)%js = true ->
     (safeDailySpend r0 <=? ofZ 100000)%js = true ->
     exists r,
       calculateRunway (setSpend rentOn31 (safeDailySpend r0)) = Return r /\
       (30 <= daysRemaining r)%nat).
Proof.
  apply (safe_spend_lasts_thirty_days rentOn31).
  - apply validate_Return. vm_compute. reflexivity.
  - apply inHorizon_true. vm_compute. reflexivity.
  - unfold WholeAmounts, rentOn31. cbn [currentBalance dailyVariableSpend fixedExpenses
                                         incomeEvents].
    split; [eexists; reflexivity|]. split; [eexists; reflexivity|].
    split; [constructor; [eexists; reflexivity | constructor]|].
    split; [constructor|]. split; vm_compute; discriminate.
  - reflexivity.
Defined.

(** At [rentOn31] the safe daily spend is 333, and spending it daily lasts
    30 days. *)
Example safe_spend_of_rentOn31 :
  option_map daysRemaining
    (returned (calculateRunway (setSpend rentOn31 (ofZ 333)))) = Some 30%nat.
Proof. vm_compute. reflexivity. Qed.

(** X9.  The safe daily spend does not decrease when the balance grows: for
    two valid balances [b1 <= b2], the same obligations and income and a
    start date at least 366 days before the largest date, [safeDailySpend]
    for [b2] is not below [safeDailySpend] for [b1]. *)
Theorem safe_spend_monotone_in_balance (p : Params) (b1 b2 : Q) :
  Valid p -> currentBalance p = Fin b1 -> b1 <= b2 ->
  Valid (setBalance p (Fin b2)) -> InHorizon (startDate p) ->
  exists r1 r2,
    calculateRunway p = Return r1 /\
    calculateRunway (setBalance p (Fin b2)) = Return r2 /\
    (safeDailySpend r2 <? safeDailySpend r1)%js = false.
Proof.
  intros H1 Hb1 Hle H2 Hh.
  assert (Hh' := Hh). destruct Hh' as (t & Ht & _). rewrite Ht in Hh.
  assert (F : forall (x : Params) (b : Q),
            Valid x -> currentBalance x = Fin b -> startDate x = DateOf t ->
            exists r, calculateRunway x = Return r /\
              safeDailySpend r =
                ofZ (if Qle_bool 0 b
                     then safeSpendFormula b t (fixedExpenses x) (incomeEvents x)
                     else 0%Z)).
  { intros x b Hx Hb Hxt. destruct (Qle_bool 0 b) eqn:L.
    - apply Qle_bool_iff in L.
      destruct (calculateRunway_run x b t Hx Hb L Hxt Hh)
        as (r & E & _ & _ & _ & _ & _ & _ & Hss).
      exists r. split; [exact E|]. rewrite Hss.
      apply (calculateSafeSpendForTarget_formula x b t Hx Hb Hxt Hh).
    - apply Qle_bool_false in L. eexists.
      split; [apply (calculateRunway_negative x b Hx Hb L) | reflexivity]. }
  destruct (F p b1 H1 Hb1 Ht) as (r1 & E1 & S1).
  destruct (F (setBalance p (Fin b2)) b2 H2 eq_refl Ht) as (r2 & E2 & S2).
  cbn [setBalance fixedExpenses incomeEvents] in S2.
  exists r1, r2. split; [exact E1|]. split; [exact E2|].
  rewrite S1, S2. cbn [ofZ JS.lt]. apply Qltb_false. rewrite <- Zle_Qle.
  assert (N2 := safeSpendFormula_nonneg b2 t (fixedExpenses p) (incomeEvents p)).
  destruct (Qle_bool 0 b1) eqn:L1.
  - apply Qle_bool_iff in L1.
    replace (Qle_bool 0 b2) with true by (symmetry; apply Qle_bool_iff; lra).
    unfold safeSpendFormula. cbv zeta.
    assert (Hav : availableMoney b1 t (fixedExpenses p) (incomeEvents p)
                  <= availableMoney b2 t (fixedExpenses p) (incomeEvents p)).
    { unfold availableMoney. lra. }
    destruct (Qle_bool (availableMoney b1 t (fixedExpenses p) (incomeEvents p)) 0) eqn:A1;
      destruct (Qle_bool (availableMoney b2 t (fixedExpenses p) (incomeEvents p)) 0) eqn:A2.
    + lia.
    + apply Qle_bool_false in A2. change 0%Z with (Qfloor 0). apply Qfloor_resp_le.
      apply Qle_shift_div_l; lra.
    + apply Qle_bool_iff in A2. apply Qle_bool_false in A1. lra.
    + apply Qfloor_resp_le. apply Qmult_le_compat_r; [exact Hav|].
      apply Qinv_le_0_compat. lra.
  - destruct (Qle_bool 0 b2); [exact N2 | lia].
Qed.

Lemma safe_spend_monotone_in_balance_witness :
  exists r1 r2,
    calculateRunway eveningIncome = Return r1 /\
    calculateRunway (setBalance eveningIncome (Fin (inject_Z 4000))) = Return r2 /\
    (safeDailySpend r2 <? safeDailySpend r1)%js = false.
Proof.
  apply (safe_spend_monotone_in_balance eveningIncome (inject_Z 1000) (inject_Z 4000)).
  - apply validate_Return. vm_compute. reflexivity.
  - reflexivity.
  - discriminate.
  - apply validate_Return. vm_compute. reflexivity.
  - apply inHorizon_true. vm_compute. reflexivity.
Defined.

End SafeSpendWitness.
Section WhatTheEngineReads.

Local Open Scope Q_scope.

(** A filtered sum that only looks at a view of the entries is the same on
    two lists with the same views. *)
Lemma sumBy_filter_view {A V : Type} (view : A -> V)
    (amount : A -> number) (pred : A -> bool) (am : V -> number) (pr : V -> bool) :
  (forall e, amount e = am (view e)) -> (forall e, pred e = pr (view e)) ->
  forall xs' xs, map view xs' = map view xs ->
  sumBy amount (filter pred xs') = sumBy amount (filter pred xs).
Proof.
  intros Ham Hpr. unfold sumBy. generalize (ofZ 0).
  intros acc xs'. revert acc.
  induction xs' as [|x' xs' IH]; intros acc [|x xs] H; simpl in H; try discriminate.
  - reflexivity.
  - injection H as Hx Hxs. simpl.
    rewrite (Hpr x'), (Hpr x), Hx.
    destruct (pr (view x)); simpl.
    + rewrite (Ham x'), (Ham x), Hx. apply IH, Hxs.
    + apply IH, Hxs.
Qed.

Lemma forOf_view {A V : Type} (view : A -> V) (body : A -> Outcome unit)
    (bd : V -> Outcome unit) :
  (forall e, body e = bd (view e)) ->
  forall xs' xs, map view xs' = map view xs -> forOf body xs' = forOf body xs.
Proof.
  intros Hb xs'. induction xs' as [|x' xs' IH]; intros [|x xs] H; simpl in H;
    try discriminate.
  - reflexivity.
  - injection H as Hx Hxs. simpl. rewrite (Hb x'), (Hb x), Hx, (IH xs Hxs). reflexivity.
Qed.

Lemma todaysIncome_view (xs' xs : list IncomeEvent.t) (d : Date) :
  map incomeView xs' = map incomeView xs -> todaysIncome xs' d = todaysIncome xs d.
Proof.
  apply (sumBy_filter_view incomeView IncomeEvent.amount _
           (fun v => snd (fst v)) (fun v => isSameDay (snd v) d)); reflexivity.
Qed.

Lemma todaysFixedExpenses_view (xs' xs : list FixedExpense.t) (dom : number) :
  map obligationView xs' = map obligationView xs ->
  todaysFixedExpenses xs' dom = todaysFixedExpenses xs dom.
Proof.
  apply (sumBy_filter_view obligationView FixedExpense.amount _
           (fun v => snd (fst v)) (fun v => (snd v === dom)%js)); reflexivity.
Qed.

Lemma simulate_view (p' p : Params) :
  map obligationView (fixedExpenses p') = map obligationView (fixedExpenses p) ->
  map incomeView (incomeEvents p') = map incomeView (incomeEvents p) ->
  dailyVariableSpend p' = dailyVariableSpend p ->
  forall r st, simulate p' r st = simulate p r st.
Proof.
  intros He Hi Hs r. induction r as [|r IH]; intro st; simpl; [reflexivity|].
  rewrite (todaysIncome_view _ _ _ Hi), (todaysFixedExpenses_view _ _ _ He), Hs.
  destruct (toISOString (currentDate st)); [|reflexivity].
  rewrite IH. reflexivity.
Qed.

Lemma totalFixedLoop_view (xs' xs : list FixedExpense.t) :
  map obligationView xs' = map obligationView xs ->
  forall n d acc, totalFixedLoop xs' n d acc = totalFixedLoop xs n d acc.
Proof.
  intros He n. induction n as [|n IH]; intros d acc; simpl; [reflexivity|].
  rewrite (todaysFixedExpenses_view _ _ _ He). apply IH.
Qed.

(** X10.  The engine reads an obligation only for its name, amount and due
    day, and an income event only for its source, amount and date: replacing
    the lists by lists that agree on these gives the same outcome, result or
    error.  In particular [isReceived], [reliability], [category] and the
    ids change nothing. *)
Theorem engine_ignores_metadata (p : Params)
    (expenses' : list FixedExpense.t) (incomes' : list IncomeEvent.t) :
  map obligationView expenses' = map obligationView (fixedExpenses p) ->
  map incomeView incomes' = map incomeView (incomeEvents p) ->
  calculateRunway (mkParams (currentBalance p) (startDate p) expenses' incomes'
                     (dailyVariableSpend p))
  = calculateRunway p.
Proof.
  intros He Hi.
  set (p' := mkParams (currentBalance p) (startDate p) expenses' incomes'
               (dailyVariableSpend p)).
  assert (Hv : validate p' = validate p).
  { unfold validate. cbn [p' currentBalance dailyVariableSpend startDate fixedExpenses
                          incomeEvents].
    rewrite (forOf_view obligationView validateExpense
               (fun v => throwIf (negb (isFinite (snd (fst v))) || (snd (fst v) <=? ofZ 0)%js)
                           (InvalidExpenseAmount (fst (fst v))) ;;
                         throwIf (negb (isInteger (snd v)) || (snd v <? ofZ 1)%js
                                  || (snd v >? ofZ 31)%js)
                           (InvalidDueDay (fst (fst v))))
               (fun e => eq_refl) _ _ He).
    rewrite (forOf_view incomeView validateIncome
               (fun v => throwIf (negb (isFinite (snd (fst v))) || (snd (fst v) <=? ofZ 0)%js)
                           (InvalidIncomeAmount (fst (fst v))) ;;
                         throwIf (isInvalid (snd v)) (InvalidIncomeDate (fst (fst v))))
               (fun e => eq_refl) _ _ Hi).
    reflexivity. }
  assert (Hs : calculateSafeSpendForTarget 30 p' = calculateSafeSpendForTarget 30 p).
  { unfold calculateSafeSpendForTarget.
    cbn [p' currentBalance startDate fixedExpenses incomeEvents].
    rewrite (totalFixedLoop_view _ _ He).
    assert (Hinc :
      sumBy IncomeEvent.amount
        (filter (fun e =>
                   (getTime (IncomeEvent.date e) <=?
                    getTime (addDays (startDate p) (Z.of_nat 30)))%js &&
                   (getTime (IncomeEvent.date e) >=? getTime (startDate p))%js) incomes')
      = sumBy IncomeEvent.amount
          (filter (fun e =>
                     (getTime (IncomeEvent.date e) <=?
                      getTime (addDays (startDate p) (Z.of_nat 30)))%js &&
                     (getTime (IncomeEvent.date e) >=? getTime (startDate p))%js)
                  (incomeEvents p))).
    { apply (sumBy_filter_view incomeView IncomeEvent.amount _
               (fun v => snd (fst v))
               (fun v => (getTime (snd v) <=?
                          getTime (addDays (startDate p) (Z.of_nat 30)))%js
                         && (getTime (snd v) >=? getTime (startDate p))%js));
        [reflexivity | reflexivity | exact Hi]. }
    rewrite Hinc. reflexivity. }
  unfold calculateRunway. rewrite Hv, Hs.
  rewrite (simulate_view p' p He Hi eq_refl).
  reflexivity.
Qed.

Lemma engine_ignores_metadata_witness :
  calculateRunway (mkParams (currentBalance sameDayEarlier) (startDate sameDayEarlier)
                     [] [morningIncomeReceived] (dailyVariableSpend sameDayEarlier))
  = calculateRunway sameDayEarlier.
Proof.
  apply (engine_ignores_metadata sameDayEarlier [] [morningIncomeReceived]); reflexivity.
Defined.

End WhatTheEngineReads.

Section Legacy.

Local Open Scope Q_scope.

Lemma dayEnd_NaN (p : Params) (d : Date) : dayEnd p NaN d = NaN.
Proof. reflexivity. Qed.

(** A balance that is NaN stays NaN and is never below zero: while the
    dates stay in the range, the loop runs all its iterations. *)
Lemma simulate_NaN (p : Params) (r : nat) :
  forall st t, balance st = NaN -> currentDate st = DateOf t ->
  (- maxTime <= t)%Z -> (t + Z.of_nat r * msPerDay <= maxTime)%Z ->
  exists st',
    simulate p r st = Return st' /\
    daysResult st' = (daysResult st + r)%nat /\
    (forall pt, In pt (projection st') ->
                In pt (projection st) \/ pointBalance pt = NaN).
Proof.
  induction r as [|r IH]; intros st t Hb Ht Hlo Hhi.
  - exists st. simpl. repeat split; [lia | auto].
  - rewrite (simulate_step p r st t Ht). cbv zeta. rewrite Hb, dayEnd_NaN.
    cbn [JS.lt floor].
    match goal with |- context [simulate p r ?s] =>
      destruct (IH s (t + 1 * msPerDay)%Z) as (st' & E & D & P) end.
    + reflexivity.
    + cbn [currentDate]. rewrite Ht. apply addDays_in_range.
      unfold msPerDay, maxTime in *. lia.
    + unfold msPerDay, maxTime in *. lia.
    + unfold msPerDay, maxTime in *. lia.
    + exists st'. split; [exact E|]. split; [simpl in D; lia|].
      intros pt Hin. destruct (P pt Hin) as [H | H]; [|auto].
      cbn [projection] in H. apply in_app_or in H. destruct H as [H | [<- | []]]; auto.
Qed.

(** X11.  The earlier [calculateRunway], which has no validation block,
    does what the current one does on every input that meets the
    preconditions; on a NaN balance with a start date at least 366 days
    before the largest date, whatever the rest of the input, it returns
    [daysRemaining = 365], [status = good], a NaN [safeDailySpend] and NaN
    projected balances, where the current one throws. *)
Theorem legacy_calculateRunway :
  (forall p, Valid p -> RunwayLogicLegacy.calculateRunway p = calculateRunway p) /\
  (forall p, currentBalance p = NaN -> InHorizon (startDate p) ->
     calculateRunway p = Throw InvalidBalance /\
     exists r,
       RunwayLogicLegacy.calculateRunway p = Return r /\
       daysRemaining r = 365%nat /\ status r = good /\ safeDailySpend r = NaN /\
       forall pt, In pt (projectedBalance r) -> pointBalance pt = NaN).
Proof.
  split.
  - intros p Hp. rewrite (calculateRunway_valid p Hp). reflexivity.
  - intros p Hb Hd. split.
    + unfold calculateRunway, validate. rewrite Hb. reflexivity.
    + unfold RunwayLogicLegacy.calculateRunway. rewrite Hb. cbn [JS.lt].
      destruct Hd as (t & Ht & Hlo & Hhi).
      destruct (simulate_NaN p maxDays (mkLoop NaN (startDate p) 0 []) t eq_refl Ht Hlo)
        as (st & E & D & P).
      { unfold maxDays, msPerDay, maxTime in *. lia. }
      rewrite E. eexists. split; [reflexivity|].
      cbn [daysRemaining status safeDailySpend projectedBalance].
      simpl in D. rewrite D. split; [reflexivity|]. split; [reflexivity|]. split.
      * unfold calculateSafeSpendForTarget. rewrite Hb. reflexivity.
      * intros pt Hin. destruct (P pt Hin) as [[] | H]. exact H.
Qed.

Lemma legacy_calculateRunway_witness :
  RunwayLogicLegacy.calculateRunway scenarioA = calculateRunway scenarioA /\
  exists r,
    RunwayLogicLegacy.calculateRunway (setBalance rentOn31 NaN) = Return r /\
    daysRemaining r = 365%nat /\ status r = good /\ safeDailySpend r = NaN /\
    forall pt, In pt (projectedBalance r) -> pointBalance pt = NaN.
Proof.
  split.
  - apply (proj1 legacy_calculateRunway). apply validate_Return. reflexivity.
  - apply (proj2 legacy_calculateRunway (setBalance rentOn31 NaN)).
    + reflexivity.
    + apply inHorizon_true. reflexivity.
Defined.

End Legacy.

Section Surroundings.

Local Open Scope Z_scope.

(** *** [getOrdinal] *)

Lemma getOrdinal_below_100 :
  forallb (fun i =>
             let v := Z.of_nat i in
             match FinancialManager.getOrdinal v with
             | Some s => String.eqb s (englishSuffix v)
             | None => false
             end) (List.seq 0 100) = true.
Proof. vm_compute. reflexivity. Qed.

(** X12.  For every integer [n >= 0], [getOrdinal n] is the English ordinal
    suffix of [n]: "th" when [n mod 100] is 11, 12 or 13, otherwise "st",
    "nd", "rd" for a last digit of 1, 2, 3 and "th" for the others. *)
Theorem getOrdinal_is_english_suffix (n : Z) :
  0 <= n -> FinancialManager.getOrdinal n = Some (englishSuffix n).
Proof.
  intro Hn.
  assert (Hv : 0 <= n mod 100 < 100) by (apply Z.mod_pos_bound; lia).
  assert (E1 : FinancialManager.getOrdinal n = FinancialManager.getOrdinal (n mod 100)).
  { unfold FinancialManager.getOrdinal.
    rewrite (Z.rem_mod_nonneg n 100) by lia.
    rewrite (Z.rem_mod_nonneg (n mod 100) 100) by lia.
    rewrite Z.mod_mod by lia. reflexivity. }
  assert (E2 : englishSuffix n = englishSuffix (n mod 100)).
  { unfold englishSuffix. rewrite Z.mod_mod by lia.
    rewrite (Z.mod_mod_divide n 100 10) by (exists 10; reflexivity).
    reflexivity. }
  rewrite E1, E2.
  assert (H := getOrdinal_below_100). rewrite forallb_forall in H.
  specialize (H (Z.to_nat (n mod 100))).
  rewrite Z2Nat.id in H by lia.
  assert (Hin : In (Z.to_nat (n mod 100)) (List.seq 0 100)) by (apply in_seq; lia).
  specialize (H Hin). cbv zeta in H.
  destruct (FinancialManager.getOrdinal (n mod 100)) as [s|]; [|discriminate].
  apply String.eqb_eq in H. congruence.
Qed.

Lemma getOrdinal_is_english_suffix_witness :
  FinancialManager.getOrdinal 112 = Some "th"%string.
Proof.
  apply (getOrdinal_is_english_suffix 112). lia.
Defined.

(** *** [useFinancials] *)

Lemma filter_all {A : Type} (f : A -> bool) (xs : list A) :
  (forall x, In x xs -> f x = true) -> filter f xs = xs.
Proof.
  induction xs as [|x xs IH]; intro H; simpl; [reflexivity|].
  rewrite (H x (or_introl eq_refl)). f_equal. apply IH. intros y Hy. apply H. right. exact Hy.
Qed.

(** X13.  Removing what was just added restores the stored data: if no
    stored expense has the id of [expense], then [removeFixedExpense] of that
    id after [addFixedExpense expense] gives back the previous data, and
    likewise for income events; neither touches the other list. *)
Theorem remove_after_add_restores :
  (forall (data : Financials.FinancialData) (expense : FixedExpense.t),
     (forall e, In e (Financials.fixedExpenses data) ->
                FixedExpense.id e <> FixedExpense.id expense) ->
     Financials.removeFixedExpense (FixedExpense.id expense)
       (Financials.addFixedExpense expense data) = data) /\
  (forall (data : Financials.FinancialData) (income : IncomeEvent.t),
     (forall e, In e (Financials.incomeEvents data) ->
                IncomeEvent.id e <> IncomeEvent.id income) ->
     Financials.removeIncomeEvent (IncomeEvent.id income)
       (Financials.addIncomeEvent income data) = data).
Proof.
  split; intros [expenses incomes] x Hfresh;
    unfold Financials.removeFixedExpense, Financials.addFixedExpense,
           Financials.removeIncomeEvent, Financials.addIncomeEvent;
    cbn [Financials.fixedExpenses Financials.incomeEvents] in *;
    rewrite filter_app; cbn [filter]; rewrite String.eqb_refl; cbn [negb];
    rewrite app_nil_r; f_equal; apply filter_all; intros e He;
    apply negb_true_iff, String.eqb_neq, Hfresh, He.
Qed.

Lemma remove_after_add_restores_witness :
  Financials.removeFixedExpense "tv"
    (Financials.addFixedExpense
       (FixedExpense.mk "tv" "Netflix" (JS.ofZ 1100) (JS.ofZ 5) subscriptions)
       (Financials.mk (fixedExpenses rentOn31) [morningIncome]))
  = Financials.mk (fixedExpenses rentOn31) [morningIncome].
Proof.
  apply (proj1 remove_after_add_restores
           (Financials.mk (fixedExpenses rentOn31) [morningIncome])
           (FixedExpense.mk "tv" "Netflix" (JS.ofZ 1100) (JS.ofZ 5) subscriptions)).
  intros e [<- | []]. discriminate.
Defined.

(** *** The error log *)

Lemma lastN_all {A : Type} (k : nat) (xs : list A) :
  (List.length xs <= k)%nat -> lastN k xs = xs.
Proof.
  intro H. unfold lastN. replace (List.length xs - k)%nat with 0%nat by lia. reflexivity.
Qed.

Lemma lastN_length {A : Type} (k : nat) (xs : list A) :
  List.length (lastN k xs) = Nat.min k (List.length xs).
Proof. unfold lastN. rewrite length_skipn. lia. Qed.

Lemma lastN_app_lastN {A : Type} (k : nat) (xs ys : list A) :
  lastN k (lastN k xs ++ ys) = lastN k (xs ++ ys).
Proof.
  destruct (Nat.le_gt_cases (List.length xs) k) as [H | H].
  - rewrite (lastN_all k xs H). reflexivity.
  - unfold lastN at 1 3. rewrite !length_app, lastN_length.
    replace (Nat.min k (List.length xs)) with k by lia.
    rewrite !skipn_app, lastN_length.
    replace (Nat.min k (List.length xs)) with k by lia.
    unfold lastN. rewrite skipn_skipn.
    replace (k + List.length ys - k + (List.length xs - k))%nat
      with (List.length xs + List.length ys - k)%nat by lia.
    replace (k + List.length ys - k - k)%nat
      with (List.length xs + List.length ys - k - List.length xs)%nat by lia.
    reflexivity.
Qed.

Lemma appendLog_lastN (logs : list ErrorBoundary.ErrorLog) (e : ErrorBoundary.ErrorLog) :
  (List.length logs <= 10)%nat ->
  ErrorBoundary.appendLog logs e = lastN 10 (logs ++ [e]).
Proof.
  intro H. unfold ErrorBoundary.appendLog. cbv zeta.
  destruct (Nat.ltb_spec 10 (List.length (logs ++ [e]))) as [L | L].
  - rewrite length_app in L. simpl in L.
    unfold lastN. rewrite length_app. simpl.
    replace (List.length logs + 1 - 10)%nat with 1%nat by lia.
    destruct (logs ++ [e]); reflexivity.
  - symmetry. apply lastN_all. exact L.
Qed.

(** X14.  The stored error log keeps the last 10 entries: starting from a
    log of at most 10 entries, after recording the errors [es] one by one the
    log is the last 10 entries of the old log followed by [es], the newest
    last. *)
Theorem error_log_keeps_last_ten (es logs : list ErrorBoundary.ErrorLog) :
  (List.length logs <= 10)%nat ->
  fold_left ErrorBoundary.appendLog es logs = lastN 10 (logs ++ es).
Proof.
  revert logs. induction es as [|e es IH]; intros logs H; simpl.
  - rewrite app_nil_r. symmetry. apply lastN_all. exact H.
  - rewrite IH.
    + rewrite (appendLog_lastN logs e H), lastN_app_lastN, <- app_assoc. reflexivity.
    + rewrite (appendLog_lastN logs e H), lastN_length. lia.
Qed.

Lemma error_log_keeps_last_ten_witness :
  fold_left ErrorBoundary.appendLog
    (repeat (ErrorBoundary.mkLog "2024-01-15T12:00:00.000Z" "boom" None "at App") 12) []
  = lastN 10
      ([] ++ repeat (ErrorBoundary.mkLog "2024-01-15T12:00:00.000Z" "boom" None "at App") 12).
Proof.
  apply (error_log_keeps_last_ten _ []). simpl. lia.
Defined.

(** *** Clearing old data *)

Lemma clear_fold (essential : string -> bool) (ks : list string) :
  forall st : LocalStorage.t,
    fold_left (fun st key => if negb (essential key) then LocalStorage.removeItem key st else st)
              ks st
    = filter (fun kv => forallb (fun k => essential k || negb (String.eqb (fst kv) k)) ks) st.
Proof.
  induction ks as [|k ks IH]; intro st; simpl.
  - symmetry. apply filter_all. reflexivity.
  - rewrite IH. destruct (essential k); simpl.
    + reflexivity.
    + unfold LocalStorage.removeItem. clear IH.
      induction st as [|kv st IHst]; simpl; [reflexivity|].
      destruct (String.eqb (fst kv) k); simpl.
      * exact IHst.
      * destruct (forallb _ ks); simpl; rewrite IHst; reflexivity.
Qed.

Lemma getItem_filter (keep : string -> bool) (key : string) (st : LocalStorage.t) :
  LocalStorage.getItem key (filter (fun kv => keep (fst kv)) st)
  = if keep key then LocalStorage.getItem key st else None.
Proof.
  unfold LocalStorage.getItem. induction st as [|kv st IH]; simpl.
  - destruct (keep key); reflexivity.
  - destruct (String.eqb (fst kv) key) eqn:E.
    + assert (Hk : fst kv = key) by (apply String.eqb_eq; exact E).
      destruct (keep (fst kv)) eqn:K; rewrite Hk in K; rewrite K in *; simpl.
      * rewrite E. reflexivity.
      * exact IH.
    + destruct (keep (fst kv)); simpl; [rewrite E|]; exact IH.
Qed.

(** X15.  After a confirmed [handleClearOldData], the profile and the
    financial data are stored as before, and so is every key that
    [Object.keys] does not list because a member of the storage object has
    its name; every other key is gone.  A declined confirmation leaves the
    storage as it is. *)
Theorem clear_old_data_keeps_essential (shadowed : string -> bool)
    (st : LocalStorage.t) (key : string) :
  LocalStorage.getItem key (StorageQuotaWarning.handleClearOldData shadowed true st)
  = (if StorageQuotaWarning.includes
          ["csc_student_profile_v1"; "csc_financials_v1"]%string key
        || shadowed key
     then LocalStorage.getItem key st else None) /\
  StorageQuotaWarning.handleClearOldData shadowed false st = st.
Proof.
  split; [|reflexivity].
  unfold StorageQuotaWarning.handleClearOldData.
  rewrite clear_fold.
  set (ess := StorageQuotaWarning.includes
                ["csc_student_profile_v1"; "csc_financials_v1"]%string).
  rewrite <- (getItem_filter (fun k => ess k || shadowed k) key st). f_equal.
  apply filter_ext_in. intros kv Hin.
  destruct (ess (fst kv)) eqn:K; cbn [orb].
  - apply forallb_forall. intros k _.
    destruct (String.eqb (fst kv) k) eqn:E; [|apply orb_true_r].
    apply String.eqb_eq in E. rewrite <- E, K. reflexivity.
  - destruct (shadowed (fst kv)) eqn:Sh.
    + apply forallb_forall. intros k Hk.
      destruct (String.eqb (fst kv) k) eqn:E; [|apply orb_true_r].
      apply String.eqb_eq in E. subst k.
      unfold LocalStorage.keys in Hk. apply filter_In in Hk. destruct Hk as [_ Hk].
      rewrite Sh in Hk. discriminate.
    + apply not_true_is_false. intro H. rewrite forallb_forall in H.
      specialize (H (fst kv)). rewrite K, String.eqb_refl in H. simpl in H.
      assert (false = true).
      { apply H. unfold LocalStorage.keys. apply filter_In. split.
        - apply in_map. exact Hin.
        - rewrite Sh. reflexivity. }
      discriminate.
Qed.

(** A storage area with a stale entry and an entry named like the [length]
    of the storage object: the stale entry goes, the other two stay. *)
Example clear_old_data_sample :
  StorageQuotaWarning.handleClearOldData (String.eqb "length") true
    [("csc_financials_v1", "{}"); ("stale", "1"); ("length", "2")]%string
  = [("csc_financials_v1", "{}"); ("length", "2")]%string.
Proof. reflexivity. Qed.

End Surroundings.

Section OnboardingToEngine.

Local Open Scope Q_scope.

(** What [validateInputs] has checked when it returns [true]. *)
Lemma validateInputs_true (trim : string -> string) (name : string)
    (balance meal : number) :
  snd (Onboarding.validateInputs trim name balance meal) = true ->
  fst (Onboarding.validateInputs trim name balance meal)
    = Onboarding.mkErrors None None None /\
  trim name <> ""%string /\
  (exists b, balance = Fin b /\ 0 <= b /\ b <= 10000000) /\
  (exists m, meal = Fin m /\ 0 < m /\ m <= 5000).
Proof.
  unfold Onboarding.validateInputs. cbv zeta. cbn [fst snd].
  destruct (String.eqb name "" || String.eqb (trim name) "") eqn:N; [discriminate|].
  apply orb_false_iff in N. destruct N as [_ N]. apply String.eqb_neq in N.
  destruct balance as [| | |b]; cbn [isFinite negb]; try discriminate.
  destruct (Fin b <? ofZ 0)%js eqn:B0; [discriminate|].
  destruct (Fin b >? ofZ 10000000)%js eqn:B1; [discriminate|].
  destruct meal as [| | |m]; cbn [isFinite negb]; try discriminate.
  destruct (Fin m <=? ofZ 0)%js eqn:M0; [discriminate|].
  destruct (Fin m >? ofZ 5000)%js eqn:M1; [discriminate|].
  intros _. split; [reflexivity|]. split; [exact N|].
  unfold JS.gt in B1, M1. simpl in B0, B1, M0, M1.
  apply Qltb_false in B0, B1, M1. apply Qle_bool_false in M0.
  split.
  - exists b. split; [reflexivity|]. split; [exact B0 | exact B1].
  - exists m. split; [reflexivity|]. split; [exact M0 | exact M1].
Qed.

Lemma estimate_bounds (m mult : Q) :
  0 < m -> m <= 5000 -> 0 < mult -> mult <= 3 ->
  (1 <= Qceiling (m * mult) <= 15000)%Z.
Proof.
  intros H0 H1 H2 H3.
  assert (Hpos : 0 < m * mult) by (apply Qmult_lt_0_compat; assumption).
  assert (Hup : m * mult <= 15000) by nra.
  split.
  - assert (L := Qle_ceiling (m * mult)).
    assert (0 < inject_Z (Qceiling (m * mult))) by lra.
    change 0 with (inject_Z 0) in H. rewrite <- Zlt_Qlt in H. lia.
  - change 15000%Z with (Qceiling (inject_Z 15000)).
    apply Qceiling_resp_le. exact Hup.
Qed.

(** X16.  A profile whose balance and meal cost passed the onboarding
    validation never makes the runway hook throw: for any food habit, any
    stored obligations and income events that are well-formed and a current
    date at least 366 days before the largest date, [useRunwayCalculation]
    returns a result, and its [estimatedDailySpend] is an integer between 1
    and 15000. *)
Theorem onboarded_profile_is_accepted (trim : string -> string) (name : string)
    (balance meal : number) (profile : StudentProfile.t)
    (data : Financials.FinancialData) (today : Date) :
  snd (Onboarding.validateInputs trim name balance meal) = true ->
  StudentProfile.currentBalance profile = balance ->
  StudentProfile.cheapestMealCost profile = meal ->
  Forall ObligationOk (Financials.fixedExpenses data) ->
  Forall IncomeOk (Financials.incomeEvents data) ->
  InHorizon today ->
  exists view z,
    Hooks.useRunwayCalculation (Some profile) data today = Some (Return view) /\
    Hooks.estimatedDailySpend view = ofZ z /\ (1 <= z <= 15000)%Z.
Proof.
  intros Hv Hb Hm He Hi Hd.
  destruct (validateInputs_true trim name balance meal Hv)
    as (_ & _ & (b & -> & Hb0 & Hb1) & (m & -> & Hm0 & Hm1)).
  unfold Hooks.useRunwayCalculation. cbv zeta. rewrite Hb, Hm.
  assert (Hmult : exists mult,
            (if Hooks.isMostlyBuy (StudentProfile.foodHabits profile) then Fin 3
             else if Hooks.isMostlyCook (StudentProfile.foodHabits profile)
                  then Fin (9 # 5) else Fin (5 # 2)) = Fin mult /\
            0 < mult /\ mult <= 3).
  { destruct (StudentProfile.foodHabits profile); simpl; eexists;
      (split; [reflexivity|]); split; lra. }
  destruct Hmult as (mult & Emult & Hmult0 & Hmult1). rewrite Emult.
  cbn [JS.mul JS.ceil].
  set (z := Qceiling (m * mult)).
  assert (Hz : (1 <= z <= 15000)%Z) by (apply estimate_bounds; assumption).
  assert (Hp : Valid (mkParams (Fin b) today (Financials.fixedExpenses data)
                        (Financials.incomeEvents data) (ofZ z))).
  { unfold Valid. simpl. split; [|split; [|split; [apply InHorizon_ValidDate, Hd | auto]]].
    - exists b. split; [reflexivity|]. split; lra.
    - exists (inject_Z z). split; [reflexivity|].
      split; [change 0 with (inject_Z 0) | change 100000 with (inject_Z 100000)];
        rewrite <- Zle_Qle; lia. }
  destruct (calculateRunway_returns _ Hp Hd) as (r & Hr). rewrite Hr.
  eexists. exists z. split; [reflexivity|]. split; [reflexivity | exact Hz].
Qed.

Lemma onboarded_profile_is_accepted_witness :
  exists view z,
    Hooks.useRunwayCalculation
      (Some (sampleProfile FoodHabit.mostly_cook (ofZ 50) (ofZ 2500)))
      (Financials.mk (fixedExpenses rentOn31) [morningIncome]) (noon 2024 1 15)
    = Some (Return view) /\
    Hooks.estimatedDailySpend view = ofZ z /\ (1 <= z <= 15000)%Z.
Proof.
  apply (onboarded_profile_is_accepted (fun s => s) "Alex" (ofZ 2500) (ofZ 50)).
  - reflexivity.
  - reflexivity.
  - reflexivity.
  - constructor; [|constructor]. split.
    + exists (inject_Z 500). split; reflexivity.
    + exists (inject_Z 31), 31%Z. split; [reflexivity|]. split; [reflexivity | lia].
  - constructor; [|constructor]. split.
    + exists (inject_Z 3000). split; reflexivity.
    + eexists. reflexivity.
  - apply inHorizon_true. reflexivity.
Defined.

(** With the largest date as the current date the same profile makes the
    hook throw: the engine survives day 0 and [toISOString] throws on the
    date after it. *)
Example hook_on_largest_date :
  Hooks.useRunwayCalculation
    (Some (sampleProfile FoodHabit.mostly_cook (ofZ 50) (ofZ 2500)))
    (Financials.mk (fixedExpenses rentOn31) [morningIncome]) largestDate
  = Some (Throw RangeError).
Proof. vm_compute. reflexivity. Qed.

End OnboardingToEngine.

Section OrderOfEntries.

Local Open Scope Q_scope.

Lemma filter_Permutation {A : Type} (f : A -> bool) (xs ys : list A) :
  Permutation xs ys -> Permutation (filter f xs) (filter f ys).
Proof.
  induction 1 as [| x xs ys _ IH | x y xs | xs ys zs _ IH1 _ IH2]; simpl.
  - constructor.
  - destruct (f x); [constructor|]; exact IH.
  - destruct (f x), (f y); try reflexivity. constructor.
  - etransitivity; eassumption.
Qed.

Lemma Qsum_Permutation (xs ys : list Q) : Permutation xs ys -> Qsum xs == Qsum ys.
Proof.
  induction 1 as [| x xs ys _ IH | x y xs | xs ys zs _ IH1 _ IH2]; simpl.
  - reflexivity.
  - rewrite IH. reflexivity.
  - ring.
  - rewrite IH1. exact IH2.
Qed.

Lemma Qsum_filtered_Permutation {A : Type} (a : A -> Q) (f : A -> bool) (xs ys : list A) :
  Permutation xs ys -> Qsum (map a (filter f xs)) == Qsum (map a (filter f ys)).
Proof.
  intro H. apply Qsum_Permutation, Permutation_map, filter_Permutation, H.
Qed.

Lemma Qsum_map_ext {A : Type} (f g : A -> Q) (xs : list A) :
  (forall x, f x == g x) -> Qsum (map f xs) == Qsum (map g xs).
Proof.
  intro H. induction xs as [|x xs IH]; simpl; [reflexivity|].
  rewrite IH, (H x). reflexivity.
Qed.

Lemma lt0_compat (q q' : Q) : q' == q -> (Fin q' <? ofZ 0)%js = (Fin q <? ofZ 0)%js.
Proof.
  intro H. destruct (Fin q <? ofZ 0)%js eqn:L.
  - apply lt0_true. apply lt0_true in L. lra.
  - apply lt0_false. apply lt0_false in L. lra.
Qed.

(** Parameters with the same balance, start date and daily spend, and the
    same entries in another order, go through the same balances in the
    arithmetic of the embedding. *)
Lemma balanceAfter_Permutation (p p' : Params) :
  Valid p -> Valid p' ->
  currentBalance p' = currentBalance p -> startDate p' = startDate p ->
  dailyVariableSpend p' = dailyVariableSpend p ->
  Permutation (fixedExpenses p') (fixedExpenses p) ->
  Permutation (incomeEvents p') (incomeEvents p) ->
  forall n, exists q q',
    balanceAfter p n = Fin q /\ balanceAfter p' n = Fin q' /\ q' == q.
Proof.
  intros Hp Hp' Hb Hd Hs He Hi n. induction n as [|n (q & q' & E & E' & Hq)].
  - destruct (Valid_balance p Hp) as (b & Eb). exists b, b. simpl.
    rewrite Hb, Eb. repeat split; reflexivity.
  - cbn [balanceAfter]. rewrite E, E', Hd.
    set (d := addDays (startDate p) (Z.of_nat n)).
    destruct (dayEnd_parts p d Hp) as (i & f & s & Hi1 & Hf1 & Hs1 & D).
    destruct (dayEnd_parts p' d Hp') as (i' & f' & s' & Hi2 & Hf2 & Hs2 & D').
    rewrite D, D'. eexists. eexists. split; [reflexivity|]. split; [reflexivity|].
    assert (s' = s) by congruence. subst s'.
    rewrite Hq, Hi1, Hi2, Hf1, Hf2.
    rewrite (Qsum_filtered_Permutation _ _ _ _ Hi), (Qsum_filtered_Permutation _ _ _ _ He).
    reflexivity.
Qed.

Lemma safeSpendFormula_Permutation (b : Q) (t : Z)
    (expenses' expenses : list FixedExpense.t) (incomes' incomes : list IncomeEvent.t) :
  Permutation expenses' expenses -> Permutation incomes' incomes ->
  safeSpendFormula b t expenses' incomes' = safeSpendFormula b t expenses incomes.
Proof.
  intros He Hi.
  assert (Hav : availableMoney b t expenses' incomes' == availableMoney b t expenses incomes).
  { unfold availableMoney, incomeWithin, obligationsOver.
    rewrite (Qsum_filtered_Permutation _ _ _ _ Hi).
    rewrite (Qsum_map_ext
               (fun i => dueOn (dayOfMonth (t + Z.of_nat i * msPerDay)) expenses')
               (fun i => dueOn (dayOfMonth (t + Z.of_nat i * msPerDay)) expenses)).
    - reflexivity.
    - intro i. unfold dueOn. apply Qsum_filtered_Permutation, He. }
  unfold safeSpendFormula. cbv zeta.
  rewrite (Qle_bool_compat _ _ Hav), Hav. reflexivity.
Qed.

(** X17.  The order of the entries is irrelevant when the amounts are
    whole: on a valid input with whole amounts and a start date at least 366
    days before the largest date, giving the obligations and the income
    events in any other order gives the same result record. *)
Theorem order_of_entries_is_irrelevant (p : Params)
    (expenses' : list FixedExpense.t) (incomes' : list IncomeEvent.t) :
  Valid p -> InHorizon (startDate p) -> WholeAmounts p ->
  Permutation expenses' (fixedExpenses p) -> Permutation incomes' (incomeEvents p) ->
  calculateRunway (mkParams (currentBalance p) (startDate p) expenses' incomes'
                     (dailyVariableSpend p))
  = calculateRunway p.
Proof.
  intros Hp Hh _ He Hi.
  set (p' := mkParams (currentBalance p) (startDate p) expenses' incomes'
               (dailyVariableSpend p)).
  assert (Hp' : Valid p').
  { apply (Valid_with_lists p); [exact Hp | |].
    - apply (Permutation_Forall (Permutation_sym He)), Hp.
    - apply (Permutation_Forall (Permutation_sym Hi)), Hp. }
  destruct (Valid_balance p Hp) as (b & Hb).
  destruct (Qlt_le_dec b 0) as [Hneg | Hpos].
  - rewrite (calculateRunway_negative p b Hp Hb Hneg).
    apply (calculateRunway_negative p' b Hp' Hb Hneg).
  - assert (Hh' := Hh). destruct Hh' as (t & Ht & _). rewrite Ht in Hh.
    destruct (calculateRunway_run p b t Hp Hb Hpos Ht Hh)
      as (r & E & B & Hs & Hf & Hpr & Hbd & Hst & Hss).
    destruct (calculateRunway_run p' b t Hp' Hb Hpos Ht Hh)
      as (r' & E' & B' & Hs' & Hf' & Hpr' & Hbd' & Hst' & Hss').
    rewrite E, E'. f_equal.
    assert (Hsame : forall k, (balanceAfter p' k <? ofZ 0)%js = (balanceAfter p k <? ofZ 0)%js).
    { intro k.
      destruct (balanceAfter_Permutation p p' Hp Hp' eq_refl eq_refl eq_refl He Hi k)
        as (q & q' & Eq & Eq' & Hq).
      rewrite Eq, Eq'. apply lt0_compat, Hq. }
    assert (Hd : daysRemaining r' = daysRemaining r).
    { destruct (Nat.lt_trichotomy (daysRemaining r') (daysRemaining r)) as [L | [L | L]].
      - exfalso. assert (H1 := Hf' ltac:(lia)).
        rewrite Hsame in H1. rewrite (Hs (S (daysRemaining r'))) in H1 by lia. discriminate.
      - exact L.
      - exfalso. assert (H1 := Hf ltac:(lia)).
        rewrite <- Hsame in H1. rewrite (Hs' (S (daysRemaining r))) in H1 by lia.
        discriminate. }
    assert (Hproj : projectedBalance r' = projectedBalance r).
    { rewrite Hpr, Hpr', Hd. apply map_ext. intro i. unfold dayPoint. f_equal.
      destruct (balanceAfter_Permutation p p' Hp Hp' eq_refl eq_refl eq_refl He Hi (S i))
        as (q & q' & Eq & Eq' & Hq).
      rewrite Eq, Eq'. simpl. rewrite Hq. reflexivity. }
    assert (Hsafe : safeDailySpend r' = safeDailySpend r).
    { rewrite Hss, Hss'.
      rewrite (calculateSafeSpendForTarget_formula p b t Hp Hb Ht Hh).
      rewrite (calculateSafeSpendForTarget_formula p' b t Hp' Hb Ht Hh).
      cbn [p' fixedExpenses incomeEvents].
      rewrite (safeSpendFormula_Permutation b t _ _ _ _ He Hi). reflexivity. }
    destruct r as [d bd ss st pr], r' as [d' bd' ss' st' pr'].
    cbn [daysRemaining brokeDate safeDailySpend status projectedBalance] in *.
    rewrite Hproj, Hsafe, Hbd', Hst', Hd, Hbd, Hst. reflexivity.
Qed.

Lemma order_of_entries_is_irrelevant_witness :
  calculateRunway
    (mkParams (currentBalance wellFunded) (startDate wellFunded)
       (rev (FixedExpense.mk "tv" "Netflix" (ofZ 1100) (ofZ 5) subscriptions
             :: fixedExpenses wellFunded))
       (incomeEvents wellFunded) (dailyVariableSpend wellFunded))
  = calculateRunway
      (mkParams (currentBalance wellFunded) (startDate wellFunded)
         (FixedExpense.mk "tv" "Netflix" (ofZ 1100) (ofZ 5) subscriptions
          :: fixedExpenses wellFunded)
         (incomeEvents wellFunded) (dailyVariableSpend wellFunded)).
Proof.
  apply (order_of_entries_is_irrelevant
           (mkParams (currentBalance wellFunded) (startDate wellFunded)
              (FixedExpense.mk "tv" "Netflix" (ofZ 1100) (ofZ 5) subscriptions
               :: fixedExpenses wellFunded)
              (incomeEvents wellFunded) (dailyVariableSpend wellFunded))).
  - apply validate_Return. vm_compute. reflexivity.
  - apply inHorizon_true. vm_compute. reflexivity.
  - unfold WholeAmounts, wellFunded.
    cbn [currentBalance dailyVariableSpend fixedExpenses incomeEvents].
    split; [eexists; reflexivity|]. split; [eexists; reflexivity|].
    split; [repeat (constructor; [eexists; reflexivity|]); constructor|].
    split; [repeat (constructor; [eexists; reflexivity|]); constructor|].
    split; vm_compute; discriminate.
  - apply Permutation_sym, Permutation_rev.
  - apply Permutation_refl.
Defined.

End OrderOfEntries.

Section HookErrors.

Local Open Scope Q_scope.

(** X18.  The runway hook does not catch the engine's exception: for a stored
    profile with a balance inside the engine's band and a whole meal cost,
    at most 10^12, whose multiple by the food-habit factor (1.8, 2.5 or 3)
    exceeds 100,000, [useRunwayCalculation] throws the engine's daily-spend
    error; without a profile it returns [null]. *)
Theorem hook_throws_on_large_estimate :
  (forall (profile : StudentProfile.t) (data : Financials.FinancialData) (today : Date)
          (b : Q) (m : Z),
     StudentProfile.currentBalance profile = Fin b ->
     -1000000 <= b -> b <= 100000000 ->
     StudentProfile.cheapestMealCost profile = ofZ m ->
     (m <= 1000000000000)%Z ->
     100000 < inject_Z m * (match StudentProfile.foodHabits profile with
                            | FoodHabit.mostly_cook => 9 # 5
                            | FoodHabit.mostly_buy => 3
                            | FoodHabit.mixed => 5 # 2
                            end) ->
     Hooks.useRunwayCalculation (Some profile) data today = Some (Throw DailySpendTooHigh)) /\
  (forall data today, Hooks.useRunwayCalculation None data today = None).
Proof.
  split; [|reflexivity].
  intros profile data today b m Hb Hb0 Hb1 Hm _ Hbig.
  unfold Hooks.useRunwayCalculation. cbv zeta. rewrite Hb, Hm. unfold ofZ at 1.
  set (mult := match StudentProfile.foodHabits profile with
               | FoodHabit.mostly_cook => 9 # 5
               | FoodHabit.mostly_buy => 3
               | FoodHabit.mixed => 5 # 2
               end) in *.
  assert (Emult : (if Hooks.isMostlyBuy (StudentProfile.foodHabits profile) then Fin 3
                   else if Hooks.isMostlyCook (StudentProfile.foodHabits profile)
                        then Fin (9 # 5) else Fin (5 # 2)) = Fin mult).
  { unfold mult. destruct (StudentProfile.foodHabits profile); reflexivity. }
  rewrite Emult. cbn [JS.mul JS.ceil].
  assert (Hz : 100000 < inject_Z (Qceiling (inject_Z m * mult))).
  { eapply Qlt_le_trans; [exact Hbig | apply Qle_ceiling]. }
  unfold calculateRunway, validate.
  cbn [currentBalance dailyVariableSpend isFinite negb throwIf bind ofZ JS.lt JS.gt].
  replace (Qltb b (inject_Z (-1000000))) with false
    by (symmetry; apply Qltb_false; exact Hb0).
  replace (Qltb (inject_Z 100000000) b) with false
    by (symmetry; apply Qltb_false; exact Hb1).
  cbn [throwIf bind].
  replace (Qltb (inject_Z (Qceiling (inject_Z m * mult))) (inject_Z 0)) with false
    by (symmetry; apply Qltb_false; change (inject_Z 0) with 0; lra).
  replace (Qltb (inject_Z 100000) (inject_Z (Qceiling (inject_Z m * mult)))) with true
    by (symmetry; apply Qltb_true; exact Hz).
  reflexivity.
Qed.

Lemma hook_throws_on_large_estimate_witness :
  Hooks.useRunwayCalculation
    (Some (sampleProfile FoodHabit.mostly_buy (ofZ 40000) (ofZ 2500)))
    Financials.initialValue (noon 2024 1 15)
  = Some (Throw DailySpendTooHigh).
Proof.
  apply (proj1 hook_throws_on_large_estimate
           (sampleProfile FoodHabit.mostly_buy (ofZ 40000) (ofZ 2500))
           Financials.initialValue (noon 2024 1 15) (inject_Z 2500) 40000%Z).
  - reflexivity.
  - discriminate.
  - discriminate.
  - reflexivity.
  - lia.
  - reflexivity.
Defined.

End HookErrors.
